(** * Validex token risk engine: a shallow embedding and its properties

    The development follows the TypeScript sources of the engine:
    - [config.ts] and [auditor.ts] (the risk aggregator),
    - [holderDistribution.ts] (the Gini coefficient),
    - the holder cluster analysis (funding-source grouping, suspicious
      clusters, cluster risk level and its retry helper),
    - [developerTracker.ts] (deployer identification, lifecycle
      classification, deployer statistics and its retry helper).

    Modelling conventions.
    - A JavaScript [number] that holds a percentage, a balance converted with
      [Number(...)] or a delay is a binary64 float ([PrimFloat.float]), with
      the IEEE operations of the kernel; [NaN] and the infinities are
      therefore part of the model.  Small integer counters and the risk
      score (sums and differences of the integer constants of [config.ts])
      are kept in [Z] or [nat], where binary64 arithmetic is exact.
    - A [bigint] is a [Z].
    - A promise is a computation over an explicit state: the ledger gateway
      (an arbitrary world [W]), the list of delays that were slept, and the
      object store the computation mutates.  A rejected promise is the
      [Throw] outcome.
    - [console.log] has no effect on any value and is left out. *)

From Stdlib Require Import ZArith List String Ascii Bool Lia Floats Uint63 Permutation.
From stdpp Require Import base gmap sets list strings.
Import ListNotations.

Local Open Scope Z_scope.

(** ** JavaScript values shared by the modules *)

Module JS.

(** A thrown value: the code only ever reads [error.message], through
    optional chaining, so a thrown value is its optional message. *)
Record Error : Type := mkError { message : option string }.

(** Settled promise / result of a [try] block. *)
Inductive Outcome (A : Type) : Type :=
| Ok (a : A)
| Throw (e : Error).
Arguments Ok {A} a.
Arguments Throw {A} e.

(** [s.includes(sub)] *)
Fixpoint includes (s sub : string) : bool :=
  String.prefix sub s ||
  match s with
  | EmptyString => false
  | String _ s' => includes s' sub
  end.

(** [error.message?.includes(sub)]: [undefined] is falsy. *)
Definition message_includes (e : Error) (sub : string) : bool :=
  match message e with
  | Some m => includes m sub
  | None => false
  end.

(** [Math.min] and [Math.max]: [NaN] if an argument is [NaN]. *)
Definition Math_min (a b : float) : float :=
  if PrimFloat.is_nan a || PrimFloat.is_nan b then PrimFloat.nan
  else if PrimFloat.ltb b a then b
  else if PrimFloat.ltb a b then a
  else if PrimFloat.get_sign a then a else b.

Definition Math_max (a b : float) : float :=
  if PrimFloat.is_nan a || PrimFloat.is_nan b then PrimFloat.nan
  else if PrimFloat.ltb a b then b
  else if PrimFloat.ltb b a then a
  else if PrimFloat.get_sign a then b else a.

(** [Number(x)] for a [bigint] (or a string of decimal digits): the
    nearest binary64 value, ties to even. *)
Definition Number_of_bigint (x : Z) : float :=
  SF2Prim (binary_normalize prec emax x 0 false).

(** A loop index or an array length as a [number]. *)
Definition Number_of_nat (n : nat) : float :=
  Number_of_bigint (Z.of_nat n).

(** [Math.pow(2, i)] for a loop index [i]. *)
Fixpoint Math_pow2 (i : nat) : float :=
  match i with
  | O => 1%float
  | S k => (2 * Math_pow2 k)%float
  end.

(** [Array.prototype.sort(compareFn)]: the sort is stable; [x] moves
    behind [y] only when [compareFn(x, y) > 0] (a [NaN] result counts as
    [0]).  For a consistent comparator every stable sort returns this
    list. *)
Section Sort.
Context {A : Type} (compareFn : A -> A -> float).

Fixpoint sort_insert (x : A) (l : list A) : list A :=
  match l with
  | [] => [x]
  | y :: l' =>
      if PrimFloat.ltb 0%float (compareFn x y)
      then y :: sort_insert x l'
      else x :: y :: l'
  end.

Fixpoint sort (l : list A) : list A :=
  match l with
  | [] => []
  | x :: l' => sort_insert x (sort l')
  end.
End Sort.

End JS.

Import JS.

(** ** Promises as state-passing computations *)

(** The state an asynchronous computation runs in: the gateway [world], the
    object store [heap] the computation mutates, the delays handed to
    [setTimeout] so far (oldest first) and a counter that instrumented
    callbacks advance (see [tick]). *)
Record State (W H : Type) : Type := mkState {
  world : W;
  heap : H;
  timers : list float;
  calls : nat
}.
Arguments mkState {W H} _ _ _ _.
Arguments world {W H} _.
Arguments heap {W H} _.
Arguments timers {W H} _.
Arguments calls {W H} _.

Definition Async (W H A : Type) : Type := State W H -> Outcome A * State W H.

Section AsyncOps.
Context {W H : Type}.

Definition resolve {A} (a : A) : Async W H A := fun s => (Ok a, s).

Definition reject {A} (e : Error) : Async W H A := fun s => (Throw e, s).

(** [await] followed by the rest of the function. *)
Definition await {A B} (c : Async W H A) (k : A -> Async W H B) : Async W H B :=
  fun s =>
    match c s with
    | (Ok a, s') => k a s'
    | (Throw e, s') => (Throw e, s')
    end.

(** [try { c } catch (e) { h e }], also [c.catch(h)]. *)
Definition try_catch {A} (c : Async W H A) (h : Error -> Async W H A) : Async W H A :=
  fun s =>
    match c s with
    | (Ok a, s') => (Ok a, s')
    | (Throw e, s') => h e s'
    end.

(** A gateway call: it reads and may advance the world only. *)
Definition gateway {A} (f : W -> Outcome A * W) : Async W H A :=
  fun s =>
    let '(r, w') := f (world s) in
    (r, mkState w' (heap s) (timers s) (calls s)).

(** [await new Promise(resolve => setTimeout(resolve, ms))] *)
Definition sleep (ms : float) : Async W H unit :=
  fun s => (Ok tt, mkState (world s) (heap s) (timers s ++ [ms]) (calls s)).

(** Read and write the object store. *)
Definition load : Async W H H := fun s => (Ok (heap s), s).

Definition store (h : H) : Async W H unit :=
  fun s => (Ok tt, mkState (world s) h (timers s) (calls s)).

(** Instrumentation of a callback: each invocation advances [calls]. *)
Definition tick {A} (c : Async W H A) : Async W H A :=
  fun s => c (mkState (world s) (heap s) (timers s) (S (calls s))).
End AsyncOps.

Notation "'let*' x := c 'in' k" := (await c (fun x => k))
  (at level 10, x pattern, c at level 100, k at level 200).
Notation "c ;; k" := (await c (fun _ => k))
  (at level 100, k at level 200, right associativity).

(** ** config.ts *)

Module Config.
Module riskScoring.
Definition initialScore : Z := 100.
Module penalties.
Definition mintAuthorityActive : Z := 50.
Definition freezeAuthorityActive : Z := 20.
Definition metadataMutable : Z := 10.
End penalties.
Module thresholds.
Definition safe : Z := 80.
Definition caution : Z := 50.
End thresholds.
End riskScoring.
End Config.

(** ** The ledger gateway: the account and transaction data the engine reads *)

Module Ledger.

(** A [PublicKey] is identified with its base58 string; [equals] is
    string equality. *)
Definition PublicKey : Type := string.

Definition PublicKey_equals (a b : PublicKey) : bool := String.eqb a b.

(** The alphabet of the base58 decoder behind [new PublicKey(address)]. *)
Definition base58_alphabet : string :=
  "123456789ABCDEFGHJKLMNPQRSTUVWXYZabcdefghijkmnopqrstuvwxyz".

Definition is_base58 (address : string) : bool :=
  forallb (fun c => existsb (Ascii.eqb c) (list_ascii_of_string base58_alphabet))
          (list_ascii_of_string address).

(** The error [new PublicKey(address)] throws for an address it refuses:
    the decoder's for a character outside its alphabet, the constructor's
    own when the decoded key has not 32 bytes. *)
Definition PublicKey_error (address : string) : Error :=
  mkError (Some (if is_base58 address
                 then "Invalid public key input"
                 else "Non-base58 character")%string).

(** The two token programs [getMint] is tried with. *)
Inductive TokenProgram : Type := TOKEN_2022_PROGRAM_ID | TOKEN_PROGRAM_ID.

(** The fields of a mint account the engine reads. *)
Record Mint : Type := mkMint {
  mint_mintAuthority : option PublicKey;
  mint_freezeAuthority : option PublicKey;
  mint_supply : Z;
  mint_decimals : Z
}.

(** One entry of [getTokenLargestAccounts(...).value]; [amount] is the
    raw amount, a string of decimal digits in the source. *)
Record TokenAccountBalance : Type := mkTokenAccountBalance {
  tab_address : PublicKey;
  tab_amount : Z
}.

Record ConfirmedSignatureInfo : Type := mkSignatureInfo {
  sig_signature : string;
  sig_blockTime : option Z
}.

Record ParsedMessageAccount : Type := mkAccount {
  acc_pubkey : PublicKey;
  acc_signer : bool;
  acc_writable : bool
}.

Record Instruction : Type := mkInstruction {
  ix_programId : PublicKey
}.

Record Message : Type := mkMessage {
  msg_accountKeys : list ParsedMessageAccount;
  msg_instructions : list Instruction
}.

(** [getParsedTransaction] returns [null] or a transaction whose
    [transaction] field the code tests before use. *)
Record ParsedTransactionWithMeta : Type := mkParsedTransaction {
  tx_transaction : option Message
}.

(** The on-chain Metaplex metadata account. *)
Record Metadata : Type := mkMetadata {
  md_isMutable : bool;
  md_updateAuthority : PublicKey;
  md_uri : string
}.

End Ledger.

Import Ledger.

(** ** auditor.ts: the risk aggregator *)

Module Auditor.

Record Authority : Type := mkAuthority {
  isActive : bool;
  address : option string
}.

Record AuthorityStatus : Type := mkAuthorityStatus {
  mintAuthority : Authority;
  freezeAuthority : Authority
}.

Record MetadataInfo : Type := mkMetadataInfo {
  isMutable : bool;
  updateAuthority : option string;
  uri : option string
}.

Inductive LiquidityRiskLevel : Type :=
| LiquiditySafe | LiquidityMedium | LiquidityHigh | LiquidityCritical.

(** Of [LiquidityInfo] the aggregator reads [riskLevel] and [warnings]. *)
Record LiquidityInfo : Type := mkLiquidityInfo {
  hasLiquidity : bool;
  riskLevel : LiquidityRiskLevel;
  liquidity_warnings : list string
}.

Inductive Level : Type := Safe | Caution | RugPullRisk.

Record RiskAssessment : Type := mkRiskAssessment {
  score : Z;
  level : Level;
  warnings : list string
}.

Record TokenInfo : Type := mkTokenInfo {
  ti_name : string;
  ti_symbol : string;
  ti_decimals : Z;
  ti_supply : string;
  ti_mintAddress : string
}.

Record AuditResult : Type := mkAuditResult {
  success : bool;
  tokenInfo : TokenInfo;
  authorityStatus : AuthorityStatus;
  metadataInfo : MetadataInfo;
  liquidityInfo : option LiquidityInfo;
  riskAssessment : RiskAssessment;
  timestamp : string;
  cluster : string
}.

Definition warn_mint_active : string :=
  "CRITICAL: Mint Authority is active - Developer can mint unlimited tokens, diluting supply".
Definition warn_mint_revoked : string :=
  "SAFE: Mint Authority has been revoked - Supply is fixed".
Definition warn_freeze_active : string :=
  "WARNING: Freeze Authority is active - Developer can freeze token accounts".
Definition warn_freeze_revoked : string :=
  "SAFE: Freeze Authority has been revoked - Accounts cannot be frozen".
Definition warn_metadata_mutable : string :=
  "CAUTION: Metadata is mutable - Name, symbol, or image can be changed".
Definition warn_metadata_immutable : string :=
  "SAFE: Metadata is immutable - Token identity is locked".

(** [calculateRiskScore]: the mutable locals [score] and [warnings] are
    threaded through the four checks in source order.  (The warning texts
    are those of the source without their leading pictograph.) *)
Definition calculateRiskScore
    (authorityStatus : AuthorityStatus)
    (metadataInfo : MetadataInfo)
    (liquidityInfo : option LiquidityInfo) : RiskAssessment :=
  let score := Config.riskScoring.initialScore in
  let warnings : list string := [] in
  (* Check Mint Authority *)
  let '(score, warnings) :=
    if isActive (mintAuthority authorityStatus)
    then (score - Config.riskScoring.penalties.mintAuthorityActive,
          warnings ++ [warn_mint_active])
    else (score, warnings ++ [warn_mint_revoked]) in
  (* Check Freeze Authority *)
  let '(score, warnings) :=
    if isActive (freezeAuthority authorityStatus)
    then (score - Config.riskScoring.penalties.freezeAuthorityActive,
          warnings ++ [warn_freeze_active])
    else (score, warnings ++ [warn_freeze_revoked]) in
  (* Check Metadata Mutability *)
  let '(score, warnings) :=
    if isMutable metadataInfo
    then (score - Config.riskScoring.penalties.metadataMutable,
          warnings ++ [warn_metadata_mutable])
    else (score, warnings ++ [warn_metadata_immutable]) in
  (* Check Liquidity *)
  let '(score, warnings) :=
    match liquidityInfo with
    | Some li =>
        match riskLevel li with
        | LiquidityCritical => (score - 40, warnings ++ liquidity_warnings li)
        | LiquidityHigh => (score - 25, warnings ++ liquidity_warnings li)
        | LiquidityMedium => (score - 10, warnings ++ liquidity_warnings li)
        | LiquiditySafe => (score, warnings ++ liquidity_warnings li)
        end
    | None => (score, warnings)
    end in
  (* Ensure score doesn't go below 0 *)
  let score := Z.max 0 score in
  let level :=
    if Config.riskScoring.thresholds.safe <=? score then Safe
    else if Config.riskScoring.thresholds.caution <=? score then Caution
    else RugPullRisk in
  mkRiskAssessment score level warnings.

Section Audit.
Context {W H : Type}.

(** Whether [new PublicKey(address)] accepts the address; it throws
    [PublicKey_error address] otherwise. *)
Variable PublicKey_valid : string -> bool.
(** [getMint(connection, mint, undefined, program)] *)
Variable getMint : PublicKey -> TokenProgram -> W -> Outcome Mint * W.
(** [createUmi], [findMetadataPda] and [fetchMetadata], which
    [checkMetadata] runs inside one [try] block. *)
Variable fetchMetadata : PublicKey -> W -> Outcome Metadata * W.
(** [getTokenInfo], the display data of the token. *)
Variable getTokenInfo : PublicKey -> Async W H TokenInfo.
(** [new Date().toISOString()] and the configured cluster name. *)
Variable toISOString_now : W -> string.
Variable this_cluster : string.

Definition new_PublicKey (address : string) : Async W H PublicKey :=
  if PublicKey_valid address then resolve address
  else reject (PublicKey_error address).

Definition checkAuthorities (mintPubkey : PublicKey) : Async W H AuthorityStatus :=
  try_catch
    (let* mintInfo :=
       try_catch (gateway (getMint mintPubkey TOKEN_2022_PROGRAM_ID))
                 (fun _ => gateway (getMint mintPubkey TOKEN_PROGRAM_ID)) in
     resolve
       (mkAuthorityStatus
          (mkAuthority
             (match mint_mintAuthority mintInfo with Some _ => true | None => false end)
             (mint_mintAuthority mintInfo))
          (mkAuthority
             (match mint_freezeAuthority mintInfo with Some _ => true | None => false end)
             (mint_freezeAuthority mintInfo))))
    (fun error =>
       reject (mkError (Some
         ("Failed to check authorities: " ++
          match message error with Some m => m | None => "{}" end)%string))).

Definition checkMetadata (mintPubkey : PublicKey) : Async W H MetadataInfo :=
  try_catch
    (let* metadata := gateway (fetchMetadata mintPubkey) in
     resolve (mkMetadataInfo (md_isMutable metadata)
                             (Some (md_updateAuthority metadata))
                             (Some (md_uri metadata))))
    (fun _ =>
       (* Jika metadata tidak ditemukan, anggap tidak mutable *)
       resolve (mkMetadataInfo false None None)).

(** [auditToken].  [Promise.all] is run in the order of its array; the
    liquidity analysis is disabled in the source, so [liquidityInfo]
    stays [undefined]. *)
Definition auditToken (tokenAddress : string) : Async W H AuditResult :=
  try_catch
    (let* mintPubkey := new_PublicKey tokenAddress in
     let* tokenInfo := getTokenInfo mintPubkey in
     let* authorityStatus := checkAuthorities mintPubkey in
     let* metadataInfo := checkMetadata mintPubkey in
     let liquidityInfo : option LiquidityInfo := None in
     let riskAssessment :=
       calculateRiskScore authorityStatus metadataInfo liquidityInfo in
     fun s =>
       (Ok (mkAuditResult true tokenInfo authorityStatus metadataInfo
              liquidityInfo riskAssessment
              (toISOString_now (world s)) this_cluster), s))
    (fun error =>
       reject (mkError (Some
         ("Failed to audit token: " ++
          match message error with Some m => m | None => "Unknown error" end)%string))).
End Audit.

End Auditor.

(** ** holderDistribution.ts: the Gini coefficient *)

Module HolderDistribution.

Local Open Scope float_scope.

(** The body of the [for] loop of [calculateGiniCoefficient], from index
    [i] on, over the remaining elements of [sorted]; [n] is
    [sorted.length]. *)
Fixpoint gini_loop (rest : list float) (i : nat) (n : float)
    (cumulativeWealth giniSum : float) : float * float :=
  match rest with
  | [] => (cumulativeWealth, giniSum)
  | x :: rest' =>
      let cumulativeWealth := cumulativeWealth + x in
      let giniSum := giniSum + (2 * (Number_of_nat i + 1) - n - 1) * x in
      gini_loop rest' (S i) n cumulativeWealth giniSum
  end.

Definition calculateGiniCoefficient (balances : list float) : float :=
  match balances with
  | [] => 0
  | _ =>
      (* Sort balances in ascending order *)
      let sorted := JS.sort (fun a b => a - b) balances in
      let n := Number_of_nat (length sorted) in
      let '(cumulativeWealth, giniSum) := gini_loop sorted 0 n 0 0 in
      let gini := giniSum / (n * cumulativeWealth) in
      (* Normalize to 0-1 range *)
      Math_max 0 (Math_min 1 gini)
  end.

End HolderDistribution.

(** ** A JavaScript [Map] with string keys

    A [Map] iterates in insertion order and [set] on a present key keeps
    the key's position, so the map is an association list with unique
    keys. *)

Module JSMap.
Section Ops.
Context {V : Type}.

Definition t : Type := list (string * V).

Definition empty : t := [].

Fixpoint get (k : string) (m : t) : option V :=
  match m with
  | [] => None
  | (k', v) :: m' => if String.eqb k' k then Some v else get k m'
  end.

Definition has (k : string) (m : t) : bool :=
  match get k m with Some _ => true | None => false end.

Fixpoint set (k : string) (v : V) (m : t) : t :=
  match m with
  | [] => [(k, v)]
  | (k', v') :: m' =>
      if String.eqb k' k then (k', v) :: m' else (k', v') :: set k v m'
  end.

Definition values (m : t) : list V := map snd m.

Definition keys (m : t) : list string := map fst m.
End Ops.
Arguments t V : clear implicits.
End JSMap.

(** ** The holder cluster analysis *)

Module ClusterAnalysis.

(** Known CEX wallets and known mixer services. *)
Definition CEX_WALLETS : gset string :=
  list_to_set
    [ "5tzFkiKscXHK5ZXCGbXZxdw7gTjjD1mBwuoFbhUvuAi9";
      "CuieVDEDtLo7FypA9SbLM9saXFdb1dsshEkyErMqkRQq";
      "3kvrNEkLiVZAh9u5URgdvMGqKZN7zMJj1D9bKrRMfT1Z";
      "2AQdpHJ2JpcEgPiATUXjQxA8QmafFegfQwSLWSprPicm";
      "GJRs4FwHtemZ5ZE9x3FNvJ8TMwitKTh21yxdRPqn7npE";
      "H8sMJSCQxfKiFTCfDR3DUMLPwcRbM61LGFJ8N4dK3WjS";
      "AC5RDfQFmDS1deWZos921JfqscXdByf8BKHs5ACWjtW2" ]%string.

Definition MIXER_WALLETS : gset string := ∅.

Definition isCEXWallet (address : string) : bool :=
  bool_decide (address ∈ CEX_WALLETS).

Definition isMixerWallet (address : string) : bool :=
  bool_decide (address ∈ MIXER_WALLETS).

Record HolderInfo : Type := mkHolderInfo {
  address : string;
  balance : Z;
  percentageOfSupply : float;
  rank : nat
}.

Record FundingSource : Type := mkFundingSource {
  fs_funder : string;
  fs_signature : string;
  fs_timestamp : Z;
  fs_amount : float;
  fs_isCEX : bool;
  fs_isMixer : bool
}.

(** An element of [ClusterInfo.holders]. *)
Record ClusterHolder : Type := mkClusterHolder {
  ch_address : string;
  ch_balance : Z;
  ch_percentage : float;
  ch_rank : nat;
  ch_fundingSignature : string
}.

Record ClusterInfo : Type := mkClusterInfo {
  funder : string;
  holders : list ClusterHolder;
  totalBalance : Z;
  totalPercentage : float;
  holderCount : nat;
  isCEX : bool;
  isMixer : bool
}.

Inductive RiskLevel : Type := Low | Medium | High | Critical.

(** The record [findFundingSource] returns once it has identified the
    funder of a wallet: the two flags are looked up in the allowlists. *)
Definition fundingSource_of (funder signature : string) (timestamp : Z)
    (fundAmount : float) : FundingSource :=
  mkFundingSource funder signature timestamp fundAmount
    (isCEXWallet funder) (isMixerWallet funder).

(** What [groupHoldersByFunder] pushes on [cluster.holders]. *)
Definition cluster_holder (holder : HolderInfo) (funding : FundingSource) : ClusterHolder :=
  mkClusterHolder (address holder) (balance holder) (percentageOfSupply holder)
    (rank holder) (fs_signature funding).

(** One iteration of the [for (const holder of holders)] loop. *)
Definition group_step (fundingSources : gmap string FundingSource)
    (clusters : JSMap.t ClusterInfo) (holder : HolderInfo) : JSMap.t ClusterInfo :=
  match fundingSources !! address holder with
  | None => clusters (* Skip if funding source not found *)
  | Some funding =>
      let funder := fs_funder funding in
      let clusters :=
        if negb (JSMap.has funder clusters)
        then JSMap.set funder
               (mkClusterInfo funder [] 0 0%float 0
                  (fs_isCEX funding) (fs_isMixer funding)) clusters
        else clusters in
      match JSMap.get funder clusters with
      | Some cluster =>
          (* the cluster object is updated in place *)
          JSMap.set funder
            (mkClusterInfo (ClusterAnalysis.funder cluster)
               (holders cluster ++ [cluster_holder holder funding])
               (totalBalance cluster + balance holder)
               (totalPercentage cluster + percentageOfSupply holder)%float
               (S (holderCount cluster))
               (isCEX cluster) (isMixer cluster))
            clusters
      | None => clusters (* not reached: the key has just been set *)
      end
  end.

Definition group_loop (fundingSources : gmap string FundingSource)
    (holders : list HolderInfo) : JSMap.t ClusterInfo :=
  fold_left (group_step fundingSources) holders JSMap.empty.

Definition groupHoldersByFunder (holders : list HolderInfo)
    (fundingSources : gmap string FundingSource) (totalSupply : Z) : list ClusterInfo :=
  let clusters := group_loop fundingSources holders in
  (* Convert to array and sort by total percentage *)
  JS.sort (fun a b => (totalPercentage b - totalPercentage a)%float)
          (JSMap.values clusters).

Definition is_suspicious (cluster : ClusterInfo) : bool :=
  (2 <=? holderCount cluster)%nat &&
  negb (isCEX cluster) &&
  negb (isMixer cluster) &&
  PrimFloat.leb 5%float (totalPercentage cluster).

Definition identifySuspiciousClusters (clusters : list ClusterInfo) : list ClusterInfo :=
  List.filter is_suspicious clusters.

Definition calculateRiskLevel (suspiciousClusters : list ClusterInfo)
    (totalPercentage : float) : RiskLevel :=
  match suspiciousClusters with
  | [] => Low
  | largestCluster :: _ =>
      if PrimFloat.ltb 30%float (ClusterAnalysis.totalPercentage largestCluster) then Critical
      else if PrimFloat.ltb 20%float (ClusterAnalysis.totalPercentage largestCluster) then High
      else if PrimFloat.ltb 10%float (ClusterAnalysis.totalPercentage largestCluster) then Medium
      else Low
  end.

(** The tail of [analyzeHolderClusters] once the funding sources are
    known: grouping, the suspicious subset and the risk level. *)
Definition suspiciousControlPercentage (suspiciousClusters : list ClusterInfo) : float :=
  fold_left (fun sum c => (sum + totalPercentage c)%float) suspiciousClusters 0%float.

Definition analysis_riskLevel (holders : list HolderInfo)
    (fundingSources : gmap string FundingSource) (totalSupply : Z) : RiskLevel :=
  let clusters := groupHoldersByFunder holders fundingSources totalSupply in
  let suspiciousClusters := identifySuspiciousClusters clusters in
  calculateRiskLevel suspiciousClusters (suspiciousControlPercentage suspiciousClusters).

(** *** The retry helper of the cluster analysis *)

Definition isRateLimit (error : Error) : bool :=
  message_includes error "429" || message_includes error "Too Many Requests".

Definition isTimeout (error : Error) : bool :=
  message_includes error "timeout" || message_includes error "ETIMEDOUT".

Section Retry.
Context {W H T : Type}.
(** [Math.random()] *)
Variable Math_random : W -> float * W.

Definition random : Async W H float :=
  fun s =>
    let '(r, w') := Math_random (world s) in
    (Ok r, mkState w' (heap s) (timers s) (calls s)).

(** The [for (let i = 0; i < maxRetries; i++)] loop from index [i] with
    [remaining = maxRetries - i] iterations to go. *)
Fixpoint retry_loop (fn : Async W H T) (baseDelay : float)
    (remaining i : nat) (lastError : Error) : Async W H T :=
  match remaining with
  | O => reject lastError
  | S remaining' =>
      try_catch fn
        (fun error =>
           let lastError := error in
           if isRateLimit error then
             let* r := random in
             let delay := (baseDelay * Math_pow2 i + r * 1000)%float in
             sleep delay ;;
             retry_loop fn baseDelay remaining' (S i) lastError
           else if isTimeout error then
             let delay := (baseDelay * Math_pow2 i)%float in
             sleep delay ;;
             retry_loop fn baseDelay remaining' (S i) lastError
           else
             (* For other errors, throw immediately *)
             reject error)
  end.

(** [lastError] is [undefined] until an attempt has failed. *)
Definition retryWithBackoff (fn : Async W H T) (maxRetries : nat)
    (baseDelay : float) : Async W H T :=
  retry_loop fn baseDelay maxRetries 0 (mkError None).

(** The call sites pass [fn] only: [maxRetries = 3], [baseDelay = 1000]. *)
Definition retryWithBackoff_default (fn : Async W H T) : Async W H T :=
  retryWithBackoff fn 3 1000%float.
End Retry.

End ClusterAnalysis.

(** ** developerTracker.ts *)

Module DeveloperTracker.

(** Pump.fun program ids and the mint authority shared by its tokens. *)
Definition PUMPFUN_PROGRAM_IDS : list PublicKey :=
  [ "6EF8rrecthR5Dkzon8Nwu78hRvfCKubJ14M5uBEwF6P";
    "FoaFt2Dtz58RA6DPjbRb9t9z8sLJRChiGFTv21EfaseZ" ]%string.

Definition PUMPFUN_MINT_AUTHORITY : PublicKey :=
  "TSLvdd1pWpHVjahSpsvCXUbgwsL3JAcvokwaKt1eokM"%string.

Inductive Status : Type := Active | Rugged | Dead.

Definition Status_eqb (a b : Status) : bool :=
  match a, b with
  | Active, Active | Rugged, Rugged | Dead, Dead => true
  | _, _ => false
  end.

Record DeployedToken : Type := mkDeployedToken {
  address : string;
  signature : string;
  timestamp : Z;
  isRugged : bool;
  liquidityValue : Z;
  name : option string;
  symbol : option string;
  age : option Z;
  status : Status
}.

(** The three assignments the classifier makes to a token object. *)
Definition mark_rugged (token : DeployedToken) : DeployedToken :=
  mkDeployedToken (address token) (signature token) (timestamp token)
    true 0 (name token) (symbol token) (age token) Rugged.

Definition mark (st : Status) (liquidity : Z) (token : DeployedToken) : DeployedToken :=
  mkDeployedToken (address token) (signature token) (timestamp token)
    (isRugged token) liquidity (name token) (symbol token) (age token) st.

(** The token a creation instruction is turned into by
    [analyzeTransactionForTokenCreation]: not rugged, [Active]. *)
Definition discovered_token (mintAddress signature : string) (blockTime : Z)
    (name symbol : option string) (age : Z) : DeployedToken :=
  mkDeployedToken mintAddress signature blockTime false 0 name symbol (Some age) Active.

Inductive DeployerRiskLevel : Type := SerialScammer | HighRisk | MediumRisk | Clean.

Definition isRateLimit (error : Error) : bool :=
  message_includes error "429" || message_includes error "Too Many Requests".

(** [(Number(topHolderAmount) / Number(totalSupply)) * 100] *)
Definition topHolderPercentage (topHolderAmount totalSupply : Z) : float :=
  (Number_of_bigint topHolderAmount / Number_of_bigint totalSupply * 100)%float.

(** [this.requestDelay] *)
Definition requestDelay : float := 300%float.

(** The [tokens] array of [checkTokensLiquidity]. *)
Abbreviation Tokens := (list DeployedToken).

Section Tracker.
Context {W : Type}.

Variable PublicKey_valid : string -> bool.
Variable getMint : PublicKey -> TokenProgram -> W -> Outcome Mint * W.
Variable getTokenLargestAccounts :
  PublicKey -> W -> Outcome (list TokenAccountBalance) * W.
(** [getSignaturesForAddress(address, { limit })] *)
Variable getSignaturesForAddress :
  PublicKey -> Z -> W -> Outcome (list ConfirmedSignatureInfo) * W.
Variable getParsedTransaction :
  string -> W -> Outcome (option ParsedTransactionWithMeta) * W.
(** The launch platform's creator lookup, [string | null]. *)
Variable getPumpfunCreatorFromAPI : string -> W -> Outcome (option string) * W.

Section Generic.
Context {H T : Type}.

Definition new_PublicKey (address : string) : Async W H PublicKey :=
  if PublicKey_valid address then resolve address
  else reject (PublicKey_error address).

(** [getMint(.., TOKEN_2022_PROGRAM_ID).catch(() => getMint(.., TOKEN_PROGRAM_ID))] *)
Definition getMint_any (mintPubkey : PublicKey) : Async W H Mint :=
  try_catch (gateway (getMint mintPubkey TOKEN_2022_PROGRAM_ID))
            (fun _ => gateway (getMint mintPubkey TOKEN_PROGRAM_ID)).

(** The retry loop of the tracker from index [i], with
    [remaining = maxRetries - i] iterations to go. *)
Fixpoint retry_loop (fn : Async W H T) (initialDelay : float)
    (remaining i : nat) (lastError : Error) : Async W H T :=
  match remaining with
  | O => reject lastError
  | S remaining' =>
      try_catch fn
        (fun error =>
           let lastError := error in
           (* Check if it's a rate limit error *)
           if isRateLimit error then
             let delay := (initialDelay * Math_pow2 i)%float in
             sleep delay ;;
             retry_loop fn initialDelay remaining' (S i) lastError
           else
             (* For non-rate-limit errors, throw immediately *)
             reject error)
  end.

Definition retryWithBackoff (fn : Async W H T) (maxRetries : nat)
    (initialDelay : float) : Async W H T :=
  retry_loop fn initialDelay maxRetries 0 (mkError None).

(** Both call sites pass [fn] only. *)
Definition retryWithBackoff_default (fn : Async W H T) : Async W H T :=
  retryWithBackoff fn 3 1000%float.
End Generic.

(** *** findDeployer

    A [return] from inside a nested block is the [Some] result of that
    block; [None] means control falls through to the next statement. *)
Section FindDeployer.
Context {H : Type}.

(** Method 1: the mint authority, unless it is the Pump.fun one; the
    inner [try] swallows every failure of the check. *)
Definition deployer_from_mintAuthority (mintPubkey : PublicKey)
    : Async W H (option string) :=
  try_catch
    (let* mintInfo := getMint_any mintPubkey in
     match mint_mintAuthority mintInfo with
     | Some authority =>
         if negb (PublicKey_equals authority PUMPFUN_MINT_AUTHORITY)
         then resolve (Some authority)
         else resolve None
     | None => resolve None
     end)
    (fun _ => resolve None).

Definition isPumpfun_instruction (ix : Instruction) : bool :=
  existsb (fun pumpfunProgramId => PublicKey_equals (ix_programId ix) pumpfunProgramId)
          PUMPFUN_PROGRAM_IDS.

(** A string is truthy when it is not empty. *)
Definition truthy (x : option string) : option string :=
  match x with
  | Some s => if String.eqb s "" then None else Some s
  | None => None
  end.

(** The [if (isPumpfun)] block: the API creator, else the first signer. *)
Definition deployer_from_pumpfun (mintPubkey : PublicKey) (message : Message)
    : Async W H (option string) :=
  let* fromApi :=
    try_catch
      (let* apiCreator := gateway (getPumpfunCreatorFromAPI mintPubkey) in
       resolve (truthy apiCreator))
      (fun _ => resolve None) in
  match fromApi with
  | Some creator => resolve (Some creator)
  | None =>
      resolve (option_map acc_pubkey
                 (List.find acc_signer (msg_accountKeys message)))
  end.

Definition findDeployer (mintPubkey : PublicKey) : Async W H (option string) :=
  try_catch
    (let* method1 := deployer_from_mintAuthority mintPubkey in
     match method1 with
     | Some authority => resolve (Some authority)
     | None =>
         (* Method 2: Find creation transaction *)
         let* signatures := gateway (getSignaturesForAddress mintPubkey 1000) in
         match last signatures with
         | None => resolve None (* signatures.length === 0 *)
         | Some creationSignature =>
             let* tx := gateway (getParsedTransaction (sig_signature creationSignature)) in
             match tx with
             | None => resolve None
             | Some tx =>
                 match tx_transaction tx with
                 | None => resolve None
                 | Some message =>
                     let isPumpfun :=
                       existsb isPumpfun_instruction (msg_instructions message) in
                     let* creator :=
                       (if isPumpfun then deployer_from_pumpfun mintPubkey message
                        else resolve None) in
                     match creator with
                     | Some c => resolve (Some c)
                     | None =>
                         (* Fallback: The fee payer is usually the deployer *)
                         match msg_accountKeys message with
                         | feePayer :: _ => resolve (Some (acc_pubkey feePayer))
                         | [] =>
                             reject (mkError (Some
                               "Cannot read properties of undefined (reading 'pubkey')"%string))
                         end
                     end
                 end
             end
         end
     end)
    (fun _ => resolve None).
End FindDeployer.

(** *** checkTokensLiquidity

    The object store is the [tokens] array; [tokens[i]] is mutated in
    place. *)
Definition update_token (i : nat) (f : DeployedToken -> DeployedToken)
    : Async W Tokens unit :=
  let* tokens := load in
  store (alter f i tokens).

Definition undefined_token {A} : Async W Tokens A :=
  reject (mkError (Some "Cannot read properties of undefined (reading 'address')"%string)).

(** The callback handed to [retryWithBackoff] for [tokens[i]]. *)
Definition check_callback (i : nat) : Async W Tokens unit :=
  let* tokens := load in
  match tokens !! i with
  | None => undefined_token
  | Some token =>
      let* mintPubkey := new_PublicKey (address token) in
      sleep requestDelay ;;
      let* mintInfo := getMint_any mintPubkey in
      if match mint_mintAuthority mintInfo with
         | Some authority => negb (PublicKey_equals authority PUMPFUN_MINT_AUTHORITY)
         | None => false
         end
      then update_token i mark_rugged
      else if PrimFloat.eqb (Number_of_bigint (mint_supply mintInfo)) 0%float
      then update_token i mark_rugged
      else
        sleep requestDelay ;;
        let* largestAccounts := gateway (getTokenLargestAccounts mintPubkey) in
        match largestAccounts with
        | [] => update_token i mark_rugged
        | top :: _ =>
            let topHolderPercentage :=
              topHolderPercentage (tab_amount top) (mint_supply mintInfo) in
            if PrimFloat.ltb 95%float topHolderPercentage
            then update_token i mark_rugged
            else if PrimFloat.ltb 80%float topHolderPercentage
            then update_token i (mark Dead 1)
            else update_token i (mark Active 10)
        end
  end.

(** One iteration of the [for] loop over the tokens. *)
Definition check_token (i : nat) : Async W Tokens unit :=
  try_catch
    (retryWithBackoff_default (check_callback i))
    (fun _ =>
       (* If can't fetch after retries, assume dead *)
       update_token i (mark Dead 0)).

Fixpoint check_loop (indices : list nat) : Async W Tokens unit :=
  match indices with
  | [] => resolve tt
  | i :: rest => check_token i ;; check_loop rest
  end.

Definition checkTokensLiquidity : Async W Tokens unit :=
  let* tokens := load in
  check_loop (seq 0 (length tokens)).
End Tracker.

(** *** The statistics of [analyzeDeployer] *)

Definition counts_as_rugged (t : DeployedToken) : bool :=
  isRugged t || Status_eqb (status t) Rugged.

Definition ruggedCount (tokensDeployed : list DeployedToken) : nat :=
  length (List.filter counts_as_rugged tokensDeployed).

Definition activeCount (tokensDeployed : list DeployedToken) : nat :=
  length (List.filter (fun t => Status_eqb (status t) Active) tokensDeployed).

Definition deadCount (tokensDeployed : list DeployedToken) : nat :=
  length (List.filter (fun t => Status_eqb (status t) Dead) tokensDeployed).

Definition winRate (tokensDeployed : list DeployedToken) : float :=
  match tokensDeployed with
  | [] => 100%float
  | _ =>
      ((Number_of_nat (length tokensDeployed) - Number_of_nat (ruggedCount tokensDeployed))
       / Number_of_nat (length tokensDeployed) * 100)%float
  end.

Definition calculateRiskLevel (totalTokens ruggedCount : nat) (winRate : float)
    : DeployerRiskLevel :=
  if (3 <=? totalTokens)%nat && (2 <=? ruggedCount)%nat && PrimFloat.ltb winRate 50%float
  then SerialScammer
  else if (2 <=? totalTokens)%nat && (1 <=? ruggedCount)%nat then HighRisk
  else if (totalTokens =? 1)%nat || (ruggedCount =? 1)%nat then MediumRisk
  else Clean.

End DeveloperTracker.

(** * Vocabulary of the statements and concrete inputs *)

Section AuditorVocabulary.
Import Auditor.

(** The penalty each check contributes to the score. *)
Definition mint_penalty (a : AuthorityStatus) : Z :=
  if isActive (mintAuthority a)
  then Config.riskScoring.penalties.mintAuthorityActive else 0.

Definition freeze_penalty (a : AuthorityStatus) : Z :=
  if isActive (freezeAuthority a)
  then Config.riskScoring.penalties.freezeAuthorityActive else 0.

Definition metadata_penalty (m : MetadataInfo) : Z :=
  if isMutable m then Config.riskScoring.penalties.metadataMutable else 0.

Definition liquidity_penalty (l : option LiquidityInfo) : Z :=
  match l with
  | Some li =>
      match riskLevel li with
      | LiquidityCritical => 40
      | LiquidityHigh => 25
      | LiquidityMedium => 10
      | LiquiditySafe => 0
      end
  | None => 0
  end.

End AuditorVocabulary.

(** A gateway in which the metadata account of the mint does not exist. *)
Definition no_metadata_gateway : PublicKey -> unit -> Outcome Metadata * unit :=
  fun _ w => (Throw (mkError (Some "AccountNotFoundError"%string)), w).


Section ClusterVocabulary.
Import ClusterAnalysis.

(** The position of a cluster risk level on the scale
    Low, Medium, High, Critical. *)
Definition risk_rank (l : RiskLevel) : nat :=
  match l with
  | Low => 0
  | Medium => 1
  | High => 2
  | Critical => 3
  end.

(** A cluster with its aggregate percentage replaced, all else fixed. *)
Definition with_percentage (c : ClusterInfo) (p : float) : ClusterInfo :=
  mkClusterInfo (funder c) (holders c) (totalBalance c) p (holderCount c)
    (isCEX c) (isMixer c).

(** The flags of a funding source, resp. of a cluster, are those the
    allowlists give for its funder, as [findFundingSource] sets them. *)
Definition source_flags_from_allowlists (f : FundingSource) : Prop :=
  fs_isCEX f = isCEXWallet (fs_funder f) /\ fs_isMixer f = isMixerWallet (fs_funder f).

Definition flags_from_allowlists (c : ClusterInfo) : Prop :=
  isCEX c = isCEXWallet (funder c) /\ isMixer c = isMixerWallet (funder c).

(** The holders with a resolved funding source, as cluster members, in
    the order of the holder list. *)
Definition resolved_members (fundingSources : gmap string FundingSource)
    (holders : list HolderInfo) : list ClusterHolder :=
  flat_map (fun h => match fundingSources !! address h with
                     | Some f => [cluster_holder h f]
                     | None => []
                     end) holders.

(** The resolved holders whose funder is [k]. *)
Definition members_funded_by (fundingSources : gmap string FundingSource)
    (k : string) (holders : list HolderInfo) : list ClusterHolder :=
  flat_map (fun h => match fundingSources !! address h with
                     | Some f => if String.eqb (fs_funder f) k
                                 then [cluster_holder h f] else []
                     | None => []
                     end) holders.

(** The cluster object created for a funder seen for the first time, and
    the in-place update that adds a holder to a cluster. *)
Definition new_cluster (f : FundingSource) : ClusterInfo :=
  mkClusterInfo (fs_funder f) [] 0 0%float 0 (fs_isCEX f) (fs_isMixer f).

Definition push_holder (c : ClusterInfo) (h : HolderInfo) (f : FundingSource)
    : ClusterInfo :=
  mkClusterInfo (funder c) (holders c ++ [cluster_holder h f])
    (totalBalance c + balance h)
    (totalPercentage c + percentageOfSupply h)%float
    (S (holderCount c)) (isCEX c) (isMixer c).

(** What holds of the cluster map once the holders [hs] have been
    processed: keys are distinct; the cluster under key [k] has funder [k],
    holds exactly the resolved holders of [hs] funded by [k] (at least
    one), counts them and carries the flags of a funding source of [k];
    a funder without cluster funds no holder of [hs]; and the memberships
    together are the resolved holders of [hs]. *)
Definition group_inv (fundingSources : gmap string FundingSource)
    (hs : list HolderInfo) (m : JSMap.t ClusterInfo) : Prop :=
  List.NoDup (JSMap.keys m)
  /\ (forall k c, JSMap.get k m = Some c ->
        funder c = k
        /\ holders c = members_funded_by fundingSources k hs
        /\ holders c <> []
        /\ holderCount c = length (holders c)
        /\ exists a f, fundingSources !! a = Some f /\ fs_funder f = k
                       /\ isCEX c = fs_isCEX f /\ isMixer c = fs_isMixer f)
  /\ (forall k, JSMap.get k m = None -> members_funded_by fundingSources k hs = [])
  /\ Permutation (flat_map holders (JSMap.values m))
                 (resolved_members fundingSources hs).

End ClusterVocabulary.

(** Sample clusters. *)
Definition sample_cluster (funder : string) (count : nat) (percentage : float)
    (cex : bool) : ClusterAnalysis.ClusterInfo :=
  ClusterAnalysis.mkClusterInfo funder [] 0 percentage count cex false.

(** ** Vocabulary for the retry helpers *)

(** The state after [ms] milliseconds have been slept. *)
Definition slept {W H : Type} (ms : float) (s : State W H) : State W H :=
  mkState (world s) (heap s) (timers s ++ [ms]) (calls s).

(** The number [Math.random()] draws in state [s], and the state after
    the draw. *)
Definition drawn {W H : Type} (Math_random : W -> float * W) (s : State W H)
    : float * State W H :=
  (fst (Math_random (world s)),
   mkState (snd (Math_random (world s))) (heap s) (timers s) (calls s)).

(** A callback that leaves the instrumentation counter alone. *)
Definition preserves_calls {W H T : Type} (fn : Async W H T) : Prop :=
  forall s, calls (snd (fn s)) = calls s.

(** A callback that leaves the object store as it found it when it
    rejects. *)
Definition rejects_without_mutation {W H T : Type} (fn : Async W H T) : Prop :=
  forall s e s', fn s = (Throw e, s') -> heap s' = heap s.

(** The state in which the tracker's retry helper makes attempt number
    [k] (counted from 0) of its callback, when the loop stands at index
    [i] in state [s]: a further attempt is made only after the attempt
    before it was rejected with a rate-limit error, once the backoff
    delay of that index has been slept. *)
Fixpoint attempt_start {W H T : Type} (fn : Async W H T) (initialDelay : float)
    (i k : nat) (s : State W H) : option (State W H) :=
  match k with
  | O => Some s
  | S k' =>
      match fn s with
      | (Throw e, s1) =>
          if DeveloperTracker.isRateLimit e
          then attempt_start fn initialDelay (S i) k'
                 (slept (initialDelay * Math_pow2 i)%float s1)
          else None
      | (Ok _, _) => None
      end
  end.

(** A gateway call that always fails with the same error. *)
Definition always_fails {W H T : Type} (message : string) : Async W H T :=
  reject (mkError (Some message)).

(** [Math.random] of a world that is a list of pre-drawn numbers. *)
Definition scripted_random (w : list float) : float * list float :=
  match w with
  | r :: w' => (r, w')
  | [] => (0%float, [])
  end.

(** ** Vocabulary for the lifecycle classification *)

Section LifecycleVocabulary.
Import DeveloperTracker.

(** The mint authority is still set and is not the Pump.fun authority. *)
Definition authority_active_not_shared (m : Mint) : Prop :=
  exists a, mint_mintAuthority m = Some a /\ a <> PUMPFUN_MINT_AUTHORITY.

(** [Number(mintInfo.supply) === 0] *)
Definition supply_is_zero (m : Mint) : Prop :=
  PrimFloat.eqb (Number_of_bigint (mint_supply m)) 0%float = true.

(** The list of largest accounts has a first element, and the percentage
    of supply the code computes for it is above [t]. *)
Definition top_holder_above (t : float) (m : Mint)
    (largest : list TokenAccountBalance) : Prop :=
  exists top rest,
    largest = top :: rest
    /\ PrimFloat.ltb t (topHolderPercentage (tab_amount top) (mint_supply m)) = true.

(** Only [tokens[i]] may differ between two states. *)
Definition only_token_changed {W : Type} (i : nat) (s s' : State W Tokens) : Prop :=
  forall j, j <> i -> heap s' !! j = heap s !! j.

End LifecycleVocabulary.

(** Sample gateways over a world that carries no state: a mint with
    revoked authorities and a supply of 1000 units, whose list of largest
    accounts is given. *)
Definition sample_getMint (supply : Z)
    : PublicKey -> TokenProgram -> unit -> Outcome Mint * unit :=
  fun _ _ w => (Ok (mkMint None None supply 6), w).

Definition sample_largestAccounts (amounts : list Z)
    : PublicKey -> unit -> Outcome (list TokenAccountBalance) * unit :=
  fun _ w => (Ok (map (mkTokenAccountBalance "holder") amounts), w).

Definition failing_getMint (message : string)
    : PublicKey -> TokenProgram -> unit -> Outcome Mint * unit :=
  fun _ _ w => (Throw (mkError (Some message)), w).

(** Gateways over a world that counts the calls made: the mint lookup is
    rate limited on its first [n] calls and answers after that. *)
Definition rate_limited_getMint (n : nat) (supply : Z)
    : PublicKey -> TokenProgram -> nat -> Outcome Mint * nat :=
  fun _ _ w =>
    if (w <? n)%nat
    then (Throw (mkError (Some "429 Too Many Requests"%string)), S w)
    else (Ok (mkMint None None supply 6), S w).

Definition counted_largestAccounts (amounts : list Z)
    : PublicKey -> nat -> Outcome (list TokenAccountBalance) * nat :=
  fun _ w => (Ok (map (mkTokenAccountBalance "holder") amounts), S w).

Definition sample_token : DeveloperTracker.DeployedToken :=
  DeveloperTracker.discovered_token "Mint1111111111111111111111111111111111111111"
    "5sig" 1700000000 (Some "Token"%string) (Some "TKN"%string) 12.

(** ** Vocabulary for the deployer identification *)

(** The gateway call [c] answers [a], whatever the state of the world. *)
Definition returns {W A : Type} (c : W -> Outcome A * W) (a : A) : Prop :=
  forall w, exists w', c w = (Ok a, w').

(** In world [w], the creation transaction of the mint gives no deployer:
    the signature scan fails or returns no signature, or the transaction
    of the oldest returned signature cannot be fetched, is [null], has no
    transaction body, or lists no account key. *)
Definition no_usable_creation_transaction {W : Type}
    (getSignaturesForAddress :
       PublicKey -> Z -> W -> Outcome (list ConfirmedSignatureInfo) * W)
    (getParsedTransaction :
       string -> W -> Outcome (option ParsedTransactionWithMeta) * W)
    (mintPubkey : PublicKey) (w : W) : Prop :=
  match getSignaturesForAddress mintPubkey 1000 w with
  | (Throw _, _) => True
  | (Ok signatures, w2) =>
      match last signatures with
      | None => True
      | Some creation =>
          match getParsedTransaction (sig_signature creation) w2 with
          | (Throw _, _) => True
          | (Ok None, _) => True
          | (Ok (Some tx), _) =>
              match tx_transaction tx with
              | None => True
              | Some message => msg_accountKeys message = []
              end
          end
      end
  end.

(** A ledger on which the mint has one signature whose transaction the
    gateway no longer serves ([getParsedTransaction] answers [null]). *)
Definition one_signature
    : PublicKey -> Z -> unit -> Outcome (list ConfirmedSignatureInfo) * unit :=
  fun _ _ w => (Ok [mkSignatureInfo "5creation" (Some 1700000000)], w).

Definition transaction_unavailable
    : string -> unit -> Outcome (option ParsedTransactionWithMeta) * unit :=
  fun _ w => (Ok None, w).

Definition sample_transaction : ParsedTransactionWithMeta :=
  mkParsedTransaction
    (Some (mkMessage
             [mkAccount "Payer111" true true; mkAccount "Mint1111" false true]
             [mkInstruction "11111111111111111111111111111111"])).

Definition transaction_available
    : string -> unit -> Outcome (option ParsedTransactionWithMeta) * unit :=
  fun _ w => (Ok (Some sample_transaction), w).

Definition no_creator_api : string -> unit -> Outcome (option string) * unit :=
  fun _ w => (Ok None, w).

(** * Further parts of the engine *)

(** ** telegramBot.ts: the badges shown with an audit result *)

Module TelegramBot.

Definition getScoreEmoji (score : Z) : string :=
  if 80 <=? score then "🛡️"
  else if 50 <=? score then "⚠️"
  else "🚨".

Definition getRiskEmoji (level : Auditor.Level) : string :=
  match level with
  | Auditor.Safe => "✅"
  | Auditor.Caution => "⚠️"
  | Auditor.RugPullRisk => "🚨"
  end.

(** The warnings [formatAuditResult] prints: [warnings.slice(0, 5)]. *)
Definition shown_warnings (r : Auditor.RiskAssessment) : list string :=
  firstn 5 (Auditor.warnings r).

End TelegramBot.

(** ** Vocabulary for the further properties of the audit *)

(** The position of an audit level, best first. *)
Definition level_rank (l : Auditor.Level) : nat :=
  match l with
  | Auditor.Safe => 0
  | Auditor.Caution => 1
  | Auditor.RugPullRisk => 2
  end.

(** The sum of the penalties the checks contribute. *)
Definition total_penalty (a : Auditor.AuthorityStatus) (m : Auditor.MetadataInfo)
    (l : option Auditor.LiquidityInfo) : Z :=
  mint_penalty a + freeze_penalty a + metadata_penalty m + liquidity_penalty l.

(** The status [checkAuthorities] builds from a mint account. *)
Definition authority_status_of (m : Mint) : Auditor.AuthorityStatus :=
  Auditor.mkAuthorityStatus
    (Auditor.mkAuthority
       (match mint_mintAuthority m with Some _ => true | None => false end)
       (mint_mintAuthority m))
    (Auditor.mkAuthority
       (match mint_freezeAuthority m with Some _ => true | None => false end)
       (mint_freezeAuthority m)).

(** ** Vocabulary for the further properties of the tracker *)

Section TrackerVocabulary.
Import DeveloperTracker.

(** Step 4 of [analyzeDeployer]: the risk level of a scanned deployer, from
    the statistics of step 3. *)
Definition deployer_riskLevel (tokensDeployed : list DeployedToken) : DeployerRiskLevel :=
  calculateRiskLevel (length tokensDeployed) (ruggedCount tokensDeployed)
    (winRate tokensDeployed).

(** The four assignments [checkTokensLiquidity] can make to a token. *)
Definition classification_mark (f : DeployedToken -> DeployedToken) : Prop :=
  f = mark_rugged \/ f = mark Dead 1 \/ f = mark Active 10 \/ f = mark Dead 0.

(** Two tokens that differ at most in [status], [isRugged] and
    [liquidityValue]. *)
Definition same_identity (t t' : DeployedToken) : Prop :=
  address t' = address t /\ signature t' = signature t
  /\ timestamp t' = timestamp t /\ name t' = name t /\ symbol t' = symbol t
  /\ age t' = age t.

(** A token with one of the four rugged/status/liquidity combinations the
    classifier produces. *)
Definition classified (t : DeployedToken) : Prop :=
  (status t = Rugged /\ isRugged t = true /\ liquidityValue t = 0)
  \/ (status t = Dead /\ (liquidityValue t = 1 \/ liquidityValue t = 0))
  \/ (status t = Active /\ liquidityValue t = 10).

End TrackerVocabulary.

(** ** Sample gateways for the further properties of the tracker *)

Definition own_authority_getMint
    : PublicKey -> TokenProgram -> unit -> Outcome Mint * unit :=
  fun _ _ w => (Ok (mkMint (Some "Dev11111"%string) None 1000 6), w).

Definition pumpfun_transaction : ParsedTransactionWithMeta :=
  mkParsedTransaction
    (Some (mkMessage
             [mkAccount "Payer111" false true; mkAccount "Signer11" true true]
             [mkInstruction "6EF8rrecthR5Dkzon8Nwu78hRvfCKubJ14M5uBEwF6P"])).

Definition pumpfun_transaction_available
    : string -> unit -> Outcome (option ParsedTransactionWithMeta) * unit :=
  fun _ w => (Ok (Some pumpfun_transaction), w).

Definition creator_api (creator : string)
    : string -> unit -> Outcome (option string) * unit :=
  fun _ w => (Ok (Some creator), w).

(** ** Vocabulary for the further properties of the cluster analysis *)

Section ClusterMoreVocabulary.
Import ClusterAnalysis.

(** The sums [groupHoldersByFunder] accumulates over the members of a
    cluster, in the order the members were pushed. *)
Definition sum_balances (members : list ClusterHolder) : Z :=
  fold_left (fun sum x => sum + ch_balance x) members 0.

Definition sum_percentages (members : list ClusterHolder) : float :=
  fold_left (fun sum x => (sum + ch_percentage x)%float) members 0%float.

(** A cluster whose three aggregates describe its member list. *)
Definition aggregates_consistent (c : ClusterInfo) : Prop :=
  holderCount c = length (holders c)
  /\ totalBalance c = sum_balances (holders c)
  /\ totalPercentage c = sum_percentages (holders c).

End ClusterMoreVocabulary.

(** A small holder list: two holders funded by one wallet, one by a
    second wallet, one without a resolved funding source. *)
Definition sample_holders : list ClusterAnalysis.HolderInfo :=
  [ ClusterAnalysis.mkHolderInfo "h1" 100 10%float 1;
    ClusterAnalysis.mkHolderInfo "h2" 100 30%float 2;
    ClusterAnalysis.mkHolderInfo "h3" 100 5%float 3;
    ClusterAnalysis.mkHolderInfo "h4" 100 20%float 4 ].

Definition sample_fundingSources : gmap string ClusterAnalysis.FundingSource :=
  <["h1" := ClusterAnalysis.fundingSource_of "F1" "sig" 0 1%float]>
    (<["h2" := ClusterAnalysis.fundingSource_of "F2" "sig" 0 1%float]>
       (<["h4" := ClusterAnalysis.fundingSource_of "F1" "sig" 0 1%float]> ∅)).

(** ** The funding-source scan of the cluster analysis *)

Module ClusterScan.
Import ClusterAnalysis.

(** [tx.meta]: the lamport balances before and after the transaction, by
    account index. *)
Record TransactionMeta : Type := mkMeta {
  preBalances : list float;
  postBalances : list float
}.

(** [ix.parsed.info] as a system transfer carries it. *)
Record TransferInfo : Type := mkTransferInfo {
  info_source : string;
  info_destination : string;
  info_lamports : float
}.

(** An instruction of a parsed message: parsed (['parsed' in ix]) with its
    program name, its type and its info, or partially decoded. *)
Inductive MessageInstruction : Type :=
| ParsedInstruction (program type : string) (info : TransferInfo)
| PartiallyDecodedInstruction.

(** The fields of a parsed transaction [findFundingSource] reads. *)
Record ScannedTransaction : Type := mkScannedTransaction {
  stx_accountKeys : list ParsedMessageAccount;
  stx_instructions : list MessageInstruction;
  stx_meta : option TransactionMeta
}.

(** [!funder] for [funder : string | null]. *)
Definition is_falsy (funder : option string) : bool :=
  match funder with
  | None => true
  | Some s => String.eqb s ""
  end.

(** [postBalances[i] - preBalances[i]]; an index past the end of an array
    reads [undefined] and the difference is [NaN]. *)
Definition balanceChange (meta : TransactionMeta) (i : nat) : float :=
  match postBalances meta !! i, preBalances meta !! i with
  | Some postBalance, Some preBalance => (postBalance - preBalance)%float
  | _, _ => PrimFloat.nan
  end.

(** [account !== walletAddress && balanceChange < 0] *)
Definition sent_funds (walletAddress : string) (meta : TransactionMeta)
    (i : nat) (key : ParsedMessageAccount) : bool :=
  negb (String.eqb (acc_pubkey key) walletAddress)
  && PrimFloat.ltb (balanceChange meta i) 0%float.

(** The [for (let i = 0; i < accountKeys.length; i++)] loop from index
    [i] on. *)
Fixpoint balance_loop (walletAddress : string) (meta : TransactionMeta)
    (accountKeys : list ParsedMessageAccount) (i : nat)
    (funder : option string) (fundAmount : float) : option string * float :=
  match accountKeys with
  | [] => (funder, fundAmount)
  | key :: rest =>
      let account := acc_pubkey key in
      let fundAmount :=
        (* If this is the target wallet and received SOL *)
        if String.eqb account walletAddress
           && PrimFloat.ltb 0%float (balanceChange meta i)
        then (balanceChange meta i / 1000000000)%float
        else fundAmount in
      let funder :=
        (* If this account sent SOL and is not the wallet itself *)
        if sent_funds walletAddress meta i key && is_falsy funder
        then Some account
        else funder in
      balance_loop walletAddress meta rest (S i) funder fundAmount
  end.

(** The fallback loop over the instructions, up to its [break]. *)
Fixpoint transfer_loop (walletAddress : string)
    (instructions : list MessageInstruction) : option (string * float) :=
  match instructions with
  | [] => None
  | ParsedInstruction program type info :: rest =>
      if String.eqb program "system" && String.eqb type "transfer"
         && String.eqb (info_destination info) walletAddress
      then Some (info_source info, (info_lamports info / 1000000000)%float)
      else transfer_loop walletAddress rest
  | PartiallyDecodedInstruction :: rest => transfer_loop walletAddress rest
  end.

(** [funder] and [fundAmount] after both strategies. *)
Definition identify_funder (walletAddress : string) (tx : ScannedTransaction)
    (meta : TransactionMeta) : option string * float :=
  let '(funder, fundAmount) :=
    balance_loop walletAddress meta (stx_accountKeys tx) 0 None 0%float in
  if is_falsy funder then
    match transfer_loop walletAddress (stx_instructions tx) with
    | Some (source, amount) => (Some source, amount)
    | None => (funder, fundAmount)
    end
  else (funder, fundAmount).

(** The tail of [findFundingSource] once the oldest transaction and its
    meta are at hand; [blockTime || 0] is the timestamp. *)
Definition funding_of_transaction (walletAddress : string)
    (oldestSig : ConfirmedSignatureInfo) (tx : ScannedTransaction)
    (meta : TransactionMeta) : option FundingSource :=
  match identify_funder walletAddress tx meta with
  | (Some funder, fundAmount) =>
      if is_falsy (Some funder) then None
      else Some (fundingSource_of funder (sig_signature oldestSig)
                   (default 0 (sig_blockTime oldestSig)) fundAmount)
  | (None, _) => None
  end.

Definition batchSize : Z := 1000.

Section Scan.
Context {W H : Type}.
Variable Math_random : W -> float * W.
Variable PublicKey_valid : string -> bool.
(** [getSignaturesForAddress(pubkey, { limit, before })] *)
Variable getSignaturesForAddress :
  PublicKey -> Z -> option string -> W -> Outcome (list ConfirmedSignatureInfo) * W.
Variable getParsedTransaction :
  string -> W -> Outcome (option ScannedTransaction) * W.

(** The [for (let i = 0; i < 3; i++)] loop with [remaining] batches to
    go. *)
Fixpoint signature_batches (pubkey : PublicKey) (remaining : nat)
    (allSignatures : list ConfirmedSignatureInfo) (lastSignature : option string)
    : Async W H (list ConfirmedSignatureInfo) :=
  match remaining with
  | O => resolve allSignatures
  | S remaining' =>
      let* signatures :=
        retryWithBackoff_default Math_random
          (gateway (getSignaturesForAddress pubkey batchSize lastSignature)) in
      match last signatures with
      | None => resolve allSignatures (* signatures.length === 0 *)
      | Some lastInfo =>
          let allSignatures := allSignatures ++ signatures in
          let lastSignature := Some (sig_signature lastInfo) in
          if Z.of_nat (length signatures) <? batchSize
          then resolve allSignatures (* No more signatures *)
          else signature_batches pubkey remaining' allSignatures lastSignature
      end
  end.

Definition findFundingSource (walletAddress : string)
    : Async W H (option FundingSource) :=
  try_catch
    (let* pubkey := DeveloperTracker.new_PublicKey PublicKey_valid walletAddress in
     let* allSignatures := signature_batches pubkey 3 [] None in
     match last allSignatures with
     | None => resolve None (* allSignatures.length === 0 *)
     | Some oldestSig =>
         let* tx :=
           retryWithBackoff_default Math_random
             (gateway (getParsedTransaction (sig_signature oldestSig))) in
         match tx with
         | None => resolve None
         | Some tx =>
             match stx_meta tx with
             | None => resolve None
             | Some meta =>
                 resolve (funding_of_transaction walletAddress oldestSig tx meta)
             end
         end
     end)
    (fun _ => resolve None).

End Scan.
End ClusterScan.

(** Sample gateways for the funding-source scan: every wallet has one
    signature, whose transaction shows the account F1 paying. *)
Definition sample_random : unit -> float * unit := fun w => (0.5%float, w).

Definition first_signature
    : PublicKey -> Z -> option string -> unit
      -> Outcome (list ConfirmedSignatureInfo) * unit :=
  fun _ _ _ w => (Ok [mkSignatureInfo "5first" (Some 1700000000)], w).

Definition funded_by_F1 : ClusterScan.ScannedTransaction :=
  ClusterScan.mkScannedTransaction
    [mkAccount "F1" true true; mkAccount "Other" false true]
    [ClusterScan.PartiallyDecodedInstruction]
    (Some (ClusterScan.mkMeta [5000000000%float; 0%float]
             [3000000000%float; 2000000000%float])).

Definition funding_transaction
    : string -> unit -> Outcome (option ClusterScan.ScannedTransaction) * unit :=
  fun _ w => (Ok (Some funded_by_F1), w).

Definition scanned_fundingSources : gmap string ClusterAnalysis.FundingSource :=
  <["h1" := ClusterAnalysis.fundingSource_of "F1" "5first" 1700000000 0%float]>
    (<["h4" := ClusterAnalysis.fundingSource_of "F1" "5first" 1700000000 0%float]> ∅).

(** ** developerTracker.ts: token metadata with its cache *)

Module TrackerMetadata.
Import DeveloperTracker.

(** [{ name?: string; symbol?: string }] *)
Record TokenMetadata : Type := mkTokenMetadata {
  md_name : option string;
  md_symbol : option string
}.

(** [this.metadataCache] *)
Abbreviation Cache := (gmap string TokenMetadata).

(** [buf.subarray(start, end)] for [0 <= start <= end]: both ends are
    clamped to the buffer. *)
Definition subarray (data : list Byte.byte) (start end_ : Z) : list Byte.byte :=
  firstn (Z.to_nat (end_ - start)) (skipn (Z.to_nat start) data).

Definition uint32_of_bytes (b0 b1 b2 b3 : Byte.byte) : Z :=
  Z.of_N (Byte.to_N b0) + Z.of_N (Byte.to_N b1) * 2 ^ 8
  + Z.of_N (Byte.to_N b2) * 2 ^ 16 + Z.of_N (Byte.to_N b3) * 2 ^ 24.

Section GetTokenMetadata.
Context {W : Type}.
Variable PublicKey_valid : string -> bool.
(** [PublicKey.findProgramAddressSync] on the three metadata seeds of a
    mint; it throws when no address is found. *)
Variable findProgramAddressSync : PublicKey -> Outcome PublicKey.
(** [getAccountInfo(metadataPDA)]: [null] or the account with its data. *)
Variable getAccountInfo : PublicKey -> W -> Outcome (option (list Byte.byte)) * W.
(** [Buffer.from(bytes).toString('utf8').replace(/\0/g, '').trim()] *)
Variable clean_text : list Byte.byte -> string.
(** The range error of a read past the end of the buffer. *)
Variable ERR_OUT_OF_RANGE : list Byte.byte -> Z -> Error.

(** [data.readUInt32LE(offset)] for [0 <= offset]. *)
Definition readUInt32LE (data : list Byte.byte) (offset : Z) : Outcome Z :=
  match skipn (Z.to_nat offset) data with
  | b0 :: b1 :: b2 :: b3 :: _ => Ok (uint32_of_bytes b0 b1 b2 b3)
  | _ => Throw (ERR_OUT_OF_RANGE data offset)
  end.

(** The parse of the Metaplex metadata account. *)
Definition parse_metadata (data : list Byte.byte) : Outcome TokenMetadata :=
  (* Skip header (1 byte key + 32 bytes update authority + 32 bytes mint) *)
  let offset := 1 + 32 + 32 in
  match readUInt32LE data offset with
  | Throw e => Throw e
  | Ok nameLen =>
      let offset := offset + 4 in
      let name := clean_text (subarray data offset (offset + nameLen)) in
      let offset := offset + nameLen in
      match readUInt32LE data offset with
      | Throw e => Throw e
      | Ok symbolLen =>
          let offset := offset + 4 in
          let symbol := clean_text (subarray data offset (offset + symbolLen)) in
          Ok (mkTokenMetadata (Some name) (Some symbol))
      end
  end.

(** [this.metadataCache.set(key, value)] *)
Definition cache_set (key : string) (value : TokenMetadata) : Async W Cache unit :=
  fun s => store (<[key := value]> (heap s)) s.

(** The callback handed to [retryWithBackoff]. *)
Definition fetch_metadata (mintAddress : string) : Async W Cache TokenMetadata :=
  let* mintPubkey := new_PublicKey PublicKey_valid mintAddress in
  let* metadataPDA := (fun s => (findProgramAddressSync mintPubkey, s)) in
  (* Add delay before request *)
  sleep requestDelay ;;
  let* accountInfo := gateway (getAccountInfo metadataPDA) in
  match accountInfo with
  | Some data =>
      match parse_metadata data with
      | Ok metadata => resolve metadata
      | Throw e => reject e
      end
  | None => resolve (mkTokenMetadata None None)
  end.

Definition getTokenMetadata (mintAddress : string) : Async W Cache TokenMetadata :=
  let* cache := load in
  match cache !! mintAddress with
  | Some cached => resolve cached (* Check cache first *)
  | None =>
      try_catch
        (let* result := retryWithBackoff_default (fetch_metadata mintAddress) in
         (* Cache the result *)
         cache_set mintAddress result ;;
         resolve result)
        (fun _ =>
           let fallback := mkTokenMetadata None None in
           cache_set mintAddress fallback ;;
           resolve fallback)
  end.

End GetTokenMetadata.
End TrackerMetadata.

(** ** developerTracker.ts: the tokens a scan records *)

Module TrackerScan.
Import DeveloperTracker.

(** The end of the per-signature callback of [scanPastDeployments].  It
    runs without interruption once the analysis of the signature has
    settled: with a token, with [null], or with a failure, which the
    callback skips.  The state is [seenMints] and [tokensFound]. *)
Definition record_token (st : gset string * list DeployedToken)
    (settled : Outcome (option DeployedToken)) : gset string * list DeployedToken :=
  let '(seenMints, tokensFound) := st in
  match settled with
  | Ok (Some token) =>
      if negb (bool_decide (address token ∈ seenMints))
      then ({[address token]} ∪ seenMints, tokensFound ++ [token])
      else st
  | Ok None => st
  | Throw _ => st (* Skip failed transactions silently *)
  end.

(** [seenMints] and [tokensFound] after the analyses have settled in the
    given order. *)
Definition record_tokens (settled : list (Outcome (option DeployedToken)))
    : gset string * list DeployedToken :=
  fold_left record_token settled (∅, []).

End TrackerScan.

(** Sample data for the metadata parse. *)
Definition sample_clean_text : list Byte.byte -> string := string_of_list_byte.

Definition sample_range_error : list Byte.byte -> Z -> Error :=
  fun _ _ => mkError (Some "The value of offset is out of range"%string).

(** ** The holder list of the cluster analysis *)

Module ClusterHolders.
Import ClusterAnalysis.

Definition LF : string := String (ascii_of_nat 10) EmptyString.

(** The error [getTopHolders] throws for a token with too many accounts. *)
Definition too_many_holders : Error :=
  mkError (Some
    ("This token has too many holders (>1M accounts) for cluster analysis." ++ LF ++
     "Cluster analysis works best with smaller tokens (pump.fun tokens, small cap tokens, etc)." ++ LF ++
     "Popular tokens like USDC, USDT, SOL have millions of holders and cannot be analyzed efficiently." ++ LF ++ LF ++
     "Suggestion: Try analyzing a smaller token with <100k holders.")%string).

(** The callback of [.map((account, index) => ...)]. *)
Definition holder_of (totalSupply : Z) (index : nat) (account : TokenAccountBalance)
    : HolderInfo :=
  mkHolderInfo (tab_address account) (tab_amount account)
    (Number_of_bigint (tab_amount account) / Number_of_bigint totalSupply * 100)%float
    (index + 1).

(** [accounts.map(...)] from index [index] on. *)
Fixpoint holders_from (totalSupply : Z) (index : nat)
    (accounts : list TokenAccountBalance) : list HolderInfo :=
  match accounts with
  | [] => []
  | account :: rest =>
      holder_of totalSupply index account :: holders_from totalSupply (S index) rest
  end.

Section TopHolders.
Context {W H : Type}.
Variable Math_random : W -> float * W.
Variable PublicKey_valid : string -> bool.
(** [getParsedAccountInfo(mintPubkey)], read at
    [value?.data?.parsed?.info?.supply]: the supply, a string of decimal
    digits in the source, or [undefined]. *)
Variable getParsedAccountInfo : PublicKey -> W -> Outcome (option Z) * W.
Variable getTokenLargestAccounts :
  PublicKey -> W -> Outcome (list TokenAccountBalance) * W.

Definition getTopHolders (tokenAddress : string) (topN : nat)
    : Async W H (list HolderInfo * Z) :=
  let* mintPubkey := DeveloperTracker.new_PublicKey PublicKey_valid tokenAddress in
  (* Get total supply first *)
  let* mintInfo :=
    retryWithBackoff_default Math_random
      (gateway (getParsedAccountInfo mintPubkey)) in
  let totalSupply := default 0 mintInfo in
  try_catch
    (let* largestAccounts :=
       retryWithBackoff_default Math_random
         (gateway (getTokenLargestAccounts mintPubkey)) in
     let holders := holders_from totalSupply 0 (firstn topN largestAccounts) in
     resolve (holders, totalSupply))
    (fun error =>
       if message_includes error "Too many accounts"
       then reject too_many_holders
       else reject error).

End TopHolders.
End ClusterHolders.

(** ** developerTracker.ts: the creator lookup of the launch platform *)

Module TrackerCreator.

(** A value read from a parsed JSON body. *)
Inductive JSValue : Type :=
| JUndefined
| JNull
| JBoolean (b : bool)
| JNumber (x : float)
| JString (s : string)
| JObject.

Definition truthy (v : JSValue) : bool :=
  match v with
  | JUndefined | JNull => false
  | JBoolean b => b
  | JNumber x => negb (PrimFloat.eqb x 0%float || PrimFloat.is_nan x)
  | JString s => negb (String.eqb s "")
  | JObject => true
  end.

(** [a || b] *)
Definition or (a b : JSValue) : JSValue := if truthy a then a else b.

(** The four fields of the body the lookup reads. *)
Record CoinData : Type := mkCoinData {
  creator : JSValue;
  creator_address : JSValue;
  deployer : JSValue;
  user : JSValue
}.

(** A response: [ok] and [json()], which rejects on a body that is not
    JSON and gives [None] for the body [null]. *)
Record Response (W : Type) : Type := mkResponse {
  ok : bool;
  json : W -> Outcome (option CoinData) * W
}.
Arguments mkResponse {W} _ _.
Arguments ok {W} _.
Arguments json {W} _.

Definition apiUrls (mintAddress : string) : list string :=
  [ "https://frontend-api.pump.fun/coins/" ++ mintAddress;
    "https://pumpportal.fun/api/data/token?address=" ++ mintAddress ]%string.

Section Creator.
Context {W H : Type}.
(** [fetch(apiUrl, { headers, signal })] *)
Variable fetch : string -> W -> Outcome (Response W) * W.

(** One iteration of the loop over the endpoints: [Some creator] is the
    [return creator], [None] goes on to the next endpoint. *)
Definition try_endpoint (apiUrl : string) : Async W H (option string) :=
  try_catch
    (let* response := gateway (fetch apiUrl) in
     if ok response then
       let* data := gateway (json response) in
       match data with
       | None =>
           reject (mkError (Some
             "Cannot read properties of null (reading 'creator')"%string))
       | Some data =>
           (* Try different field names where creator might be stored *)
           let creator :=
             or (or (or (creator data) (creator_address data)) (deployer data))
                (user data) in
           match creator with
           | JString s => if truthy creator then resolve (Some s) else resolve None
           | _ => resolve None
           end
       end
     else resolve None)
    (fun _ => resolve None (* Try next endpoint *)).

Fixpoint endpoints_loop (urls : list string) : Async W H (option string) :=
  match urls with
  | [] => resolve None
  | apiUrl :: rest =>
      let* found := try_endpoint apiUrl in
      match found with
      | Some creator => resolve (Some creator)
      | None => endpoints_loop rest
      end
  end.

Definition getPumpfunCreatorFromAPI (mintAddress : string)
    : Async W H (option string) :=
  try_catch (endpoints_loop (apiUrls mintAddress)) (fun _ => resolve None).

End Creator.
End TrackerCreator.

(** Sample gateways for the holder list and for the creator lookup. *)
Definition sample_supply : PublicKey -> unit -> Outcome (option Z) * unit :=
  fun _ w => (Ok (Some 1000), w).

Definition sample_top_holders : list ClusterAnalysis.HolderInfo :=
  ClusterHolders.holders_from 1000 0
    [mkTokenAccountBalance "holder" 600; mkTokenAccountBalance "holder" 300].

Definition sample_coin : TrackerCreator.CoinData :=
  TrackerCreator.mkCoinData TrackerCreator.JUndefined
    (TrackerCreator.JString "") (TrackerCreator.JString "Creator1")
    (TrackerCreator.JString "User1").

Definition sample_fetch : string -> unit -> Outcome (TrackerCreator.Response unit) * unit :=
  fun _ w =>
    (Ok (TrackerCreator.mkResponse true (fun w' => (Ok (Some sample_coin), w'))), w).

Definition sample_token_2 : DeveloperTracker.DeployedToken :=
  DeveloperTracker.discovered_token "Mint2222222222222222222222222222222222222222"
    "5sig2" 1700000500 None None 11.

(** * Properties *)

(** ** The risk aggregator *)

Section AuditorProperties.
Import Auditor.

Lemma calculateRiskScore_score (a : AuthorityStatus) (m : MetadataInfo)
    (l : option LiquidityInfo) :
  score (calculateRiskScore a m l) =
  Z.max 0 (100 - mint_penalty a - freeze_penalty a - metadata_penalty m
           - liquidity_penalty l).
Proof.
  unfold calculateRiskScore, mint_penalty, freeze_penalty, metadata_penalty,
    liquidity_penalty.
  destruct (isActive (mintAuthority a)), (isActive (freezeAuthority a)),
    (isMutable m); destruct l as [li|]; try destruct (riskLevel li);
    reflexivity.
Qed.

Lemma penalties_nonneg (a : AuthorityStatus) (m : MetadataInfo)
    (l : option LiquidityInfo) :
  0 <= mint_penalty a /\ 0 <= freeze_penalty a /\ 0 <= metadata_penalty m
  /\ 0 <= liquidity_penalty l.
Proof.
  unfold mint_penalty, freeze_penalty, metadata_penalty, liquidity_penalty.
  destruct (isActive (mintAuthority a)), (isActive (freezeAuthority a)),
    (isMutable m); destruct l as [li|]; try destruct (riskLevel li);
    cbv; intuition discriminate.
Qed.

(** C2. For every authority status, metadata status and optional
    liquidity signal, the score of [calculateRiskScore] is the baseline
    100 minus the (non-negative) penalties that apply, floored at 0; it is
    therefore never below 0 and never above 100. *)
Theorem calculateRiskScore_score_in_0_100 :
  forall (a : AuthorityStatus) (m : MetadataInfo) (l : option LiquidityInfo),
    score (calculateRiskScore a m l) =
      Z.max 0 (Config.riskScoring.initialScore
               - (mint_penalty a + freeze_penalty a + metadata_penalty m
                  + liquidity_penalty l))
    /\ 0 <= mint_penalty a + freeze_penalty a + metadata_penalty m
            + liquidity_penalty l
    /\ 0 <= score (calculateRiskScore a m l) <= 100.
Proof.
  intros a m l.
  rewrite calculateRiskScore_score.
  destruct (penalties_nonneg a m l) as (Hm & Hf & Hd & Hl).
  unfold Config.riskScoring.initialScore.
  repeat split; lia.
Qed.

(** All penalties at once drive the raw score to -20; the floor makes
    it 0. *)
Example calculateRiskScore_all_penalties :
  calculateRiskScore
    (mkAuthorityStatus (mkAuthority true None) (mkAuthority true None))
    (mkMetadataInfo true None None)
    (Some (mkLiquidityInfo false LiquidityCritical []))
  = mkRiskAssessment 0 RugPullRisk
      [warn_mint_active; warn_freeze_active; warn_metadata_mutable].
Proof. reflexivity. Qed.

(** Mint authority active, freeze revoked, metadata immutable: 50, Caution. *)
Example calculateRiskScore_mint_only :
  let r := calculateRiskScore
             (mkAuthorityStatus (mkAuthority true None) (mkAuthority false None))
             (mkMetadataInfo false None None) None in
  score r = 50 /\ level r = Caution.
Proof. split; reflexivity. Qed.

Section Audit.
Context {W H : Type}.
Variable PublicKey_valid : string -> bool.
Variable getMint : PublicKey -> TokenProgram -> W -> Outcome Mint * W.
Variable fetchMetadata : PublicKey -> W -> Outcome Metadata * W.
Variable getTokenInfo : PublicKey -> Async W H TokenInfo.
Variable toISOString_now : W -> string.
Variable this_cluster : string.

(** [checkMetadata] never rejects. *)
Lemma checkMetadata_resolves (mint : PublicKey) (s : State W H) :
  exists info s', checkMetadata fetchMetadata mint s = (Ok info, s').
Proof.
  unfold checkMetadata, try_catch, await, gateway, resolve.
  destruct (fetchMetadata mint (world s)) as [[md|e] w']; eauto.
Qed.

Lemma checkMetadata_unreadable (mint : PublicKey) (s : State W H) e w' :
  fetchMetadata mint (world s) = (Throw e, w') ->
  checkMetadata fetchMetadata mint s =
    (Ok (mkMetadataInfo false None None),
     mkState w' (heap s) (timers s) (calls s)).
Proof.
  intros Hf.
  unfold checkMetadata, try_catch, await, gateway, resolve.
  rewrite Hf. reflexivity.
Qed.

(** C9. When the metadata account of a mint cannot be fetched,
    [checkMetadata] resolves to [{ isMutable: false, updateAuthority:
    null }] instead of failing; the risk score computed from that
    result carries no mutable-metadata penalty and reports the
    metadata as immutable; and an audit whose token info and authority
    check succeed still completes, with that metadata result. *)
Theorem checkMetadata_unreadable_is_immutable :
  forall (mint : PublicKey) (s : State W H) (e : Error) (w' : W),
    fetchMetadata mint (world s) = (Throw e, w') ->
    let s' := mkState w' (heap s) (timers s) (calls s) in
    let info := mkMetadataInfo false None None in
    checkMetadata fetchMetadata mint s = (Ok info, s')
    /\ (forall a l,
          score (calculateRiskScore a info l) =
            Z.max 0 (100 - mint_penalty a - freeze_penalty a
                     - liquidity_penalty l)
          /\ warnings (calculateRiskScore a info l) =
               [ (if isActive (mintAuthority a)
                  then warn_mint_active else warn_mint_revoked);
                 (if isActive (freezeAuthority a)
                  then warn_freeze_active else warn_freeze_revoked);
                 warn_metadata_immutable ]
               ++ match l with
                  | Some li => liquidity_warnings li
                  | None => []
                  end)
    /\ (forall s0 tokenInfo s1 authorityStatus,
          PublicKey_valid mint = true ->
          getTokenInfo mint s0 = (Ok tokenInfo, s1) ->
          checkAuthorities getMint mint s1 = (Ok authorityStatus, s) ->
          auditToken PublicKey_valid getMint fetchMetadata getTokenInfo
            toISOString_now this_cluster mint s0
          = (Ok (mkAuditResult true tokenInfo authorityStatus info None
                   (calculateRiskScore authorityStatus info None)
                   (toISOString_now w') this_cluster), s')).
Proof.
  intros mint s e w' Hfetch s' info.
  split; [exact (checkMetadata_unreadable mint s e w' Hfetch)|].
  split.
  - intros a l. split.
    + rewrite calculateRiskScore_score.
      unfold metadata_penalty; simpl. f_equal; lia.
    + unfold calculateRiskScore; simpl.
      destruct (isActive (mintAuthority a)), (isActive (freezeAuthority a));
        destruct l as [li|]; try destruct (riskLevel li); reflexivity.
  - intros s0 tokenInfo s1 authorityStatus Hvalid Hinfo Hauth.
    unfold auditToken, try_catch, await, new_PublicKey.
    rewrite Hvalid. unfold resolve at 1.
    rewrite Hinfo, Hauth.
    rewrite (checkMetadata_unreadable mint s e w' Hfetch).
    reflexivity.
Qed.
End Audit.
End AuditorProperties.

(** An instance: the metadata account of the mint does not exist. *)
Lemma checkMetadata_unreadable_is_immutable_witness :
  Auditor.checkMetadata (H := unit) no_metadata_gateway "So11111111111111111111111111111111111111112"%string
    (mkState tt tt [] 0%nat)
  = (Ok (Auditor.mkMetadataInfo false None None), mkState tt tt [] 0%nat).
Proof.
  apply (proj1 (checkMetadata_unreadable_is_immutable
                  (fun _ => true)
                  (fun _ _ w => (Ok (mkMint None None 1000 6), w))
                  no_metadata_gateway
                  (fun mint => resolve (Auditor.mkTokenInfo "Unknown" "Unknown" 6 "0.001000" mint))
                  (fun _ => "2024-01-01T00:00:00.000Z"%string)
                  "mainnet-beta"%string
                  "So11111111111111111111111111111111111111112"%string
                  (mkState tt tt [] 0%nat)
                  (mkError (Some "AccountNotFoundError"%string)) tt eq_refl)).
Defined.

(** ** Order facts on binary64 numbers *)

Section FloatOrder.

Ltac order_cases :=
  repeat match goal with
         | |- context [(?a ?= ?b)%Z] => destruct (Z.compare_spec a b)
         | H : context [(?a ?= ?b)%Z] |- _ => destruct (Z.compare_spec a b)
         | |- context [(?a ?= ?b)%positive] => destruct (Pos.compare_spec a b)
         | H : context [(?a ?= ?b)%positive] |- _ => destruct (Pos.compare_spec a b)
         end.

Lemma SFltb_SFleb_trans (x y z : spec_float) :
  SFltb x y = true -> SFleb y z = true -> SFltb x z = true.
Proof.
  unfold SFltb, SFleb.
  destruct x as [sx|sx| |sx mx ex], y as [sy|sy| |sy my ey], z as [sz|sz| |sz mz ez];
    simpl; try discriminate; try reflexivity;
    repeat match goal with s : bool |- _ => destruct s end;
    simpl; try discriminate; try reflexivity;
    change (Pos.compare_cont Eq) with Pos.compare;
    intros Hxy Hyz; order_cases; simpl in *;
    try discriminate; try reflexivity; try lia.
Qed.

(** [c < p] and [p <= p'] give [c < p'], also in the presence of [NaN]
    and the infinities. *)
Lemma float_ltb_leb_trans (x y z : float) :
  PrimFloat.ltb x y = true -> PrimFloat.leb y z = true -> PrimFloat.ltb x z = true.
Proof.
  rewrite !FloatAxioms.ltb_spec, FloatAxioms.leb_spec.
  apply SFltb_SFleb_trans.
Qed.

Lemma SFltb_SFleb (x y : spec_float) : SFltb x y = true -> SFleb x y = true.
Proof.
  unfold SFltb, SFleb. destruct (SFcompare x y) as [[| |]|]; auto.
Qed.

(** Two numbers that are not [NaN] and of which neither is below the
    other compare equal. *)
Lemma SFleb_of_not_ltb (x y : spec_float) :
  SFeqb x x = true -> SFeqb y y = true ->
  SFltb x y = false -> SFltb y x = false -> SFleb x y = true.
Proof.
  unfold SFltb, SFleb, SFeqb.
  destruct x as [sx|sx| |sx mx ex], y as [sy|sy| |sy my ey];
    simpl; try discriminate; try reflexivity;
    repeat match goal with s : bool |- _ => destruct s end;
    simpl; try discriminate; try reflexivity;
    change (Pos.compare_cont Eq) with Pos.compare;
    intros _ _ Hxy Hyx; order_cases; simpl in *;
    try discriminate; try reflexivity; try lia.
Qed.

Lemma float_ltb_leb (x y : float) :
  PrimFloat.ltb x y = true -> PrimFloat.leb x y = true.
Proof. rewrite FloatAxioms.ltb_spec, FloatAxioms.leb_spec. apply SFltb_SFleb. Qed.

Lemma float_leb_of_not_ltb (x y : float) :
  PrimFloat.is_nan x = false -> PrimFloat.is_nan y = false ->
  PrimFloat.ltb x y = false -> PrimFloat.ltb y x = false ->
  PrimFloat.leb x y = true.
Proof.
  unfold PrimFloat.is_nan. rewrite !negb_false_iff.
  rewrite !FloatAxioms.eqb_spec, !FloatAxioms.ltb_spec, FloatAxioms.leb_spec.
  apply SFleb_of_not_ltb.
Qed.

End FloatOrder.

(** ** [Math.min] and [Math.max] *)

Section MathMinMax.
Local Open Scope float_scope.

Lemma Math_min_NaN (a b : float) :
  PrimFloat.is_nan b = true -> PrimFloat.is_nan (Math_min a b) = true.
Proof.
  intros Hb. unfold Math_min. rewrite Hb, orb_true_r. reflexivity.
Qed.

Lemma Math_max_NaN (a b : float) :
  PrimFloat.is_nan b = true -> PrimFloat.is_nan (Math_max a b) = true.
Proof.
  intros Hb. unfold Math_max. rewrite Hb, orb_true_r. reflexivity.
Qed.

(** [Math.min(1, g)] of a number is a number at most 1. *)
Lemma Math_min_1_le (g : float) :
  PrimFloat.is_nan g = false ->
  PrimFloat.is_nan (Math_min 1 g) = false /\ (Math_min 1 g <=? 1) = true.
Proof.
  intros Hg. unfold Math_min.
  replace (PrimFloat.is_nan 1) with false by reflexivity. rewrite Hg. simpl.
  destruct (g <? 1) eqn:Hlt.
  { split; [exact Hg|]. apply float_ltb_leb. exact Hlt. }
  destruct (1 <? g) eqn:Hgt.
  { split; reflexivity. }
  replace (PrimFloat.get_sign 1) with false by reflexivity.
  split; [exact Hg|].
  apply float_leb_of_not_ltb; auto.
Qed.

(** [Math.max(0, m)] of a number at most 1 is within [0, 1]. *)
Lemma Math_max_0_bounds (m : float) :
  PrimFloat.is_nan m = false -> (m <=? 1) = true ->
  (0 <=? Math_max 0 m) = true /\ (Math_max 0 m <=? 1) = true.
Proof.
  intros Hm Hle. unfold Math_max.
  replace (PrimFloat.is_nan 0) with false by reflexivity. rewrite Hm. simpl.
  destruct (0 <? m) eqn:Hlt.
  { split; [apply float_ltb_leb; exact Hlt|exact Hle]. }
  destruct (m <? 0) eqn:Hgt.
  { split; reflexivity. }
  replace (PrimFloat.get_sign 0) with false by reflexivity.
  split; reflexivity.
Qed.

End MathMinMax.

(** ** The Gini coefficient *)

Section GiniProperties.
Import HolderDistribution.
Local Open Scope float_scope.

Example calculateGiniCoefficient_empty : calculateGiniCoefficient [] = 0.
Proof. reflexivity. Qed.

Example calculateGiniCoefficient_equal_ones :
  calculateGiniCoefficient [1; 1; 1] = 0.
Proof. reflexivity. Qed.

Example calculateGiniCoefficient_one_holder_of_four :
  calculateGiniCoefficient [0; 10; 0; 0] = 0.75.
Proof. reflexivity. Qed.

(** What the final clamp does give: the result is [NaN] or lies within
    [0, 1]. *)
Lemma calculateGiniCoefficient_NaN_or_clamped (balances : list float) :
  PrimFloat.is_nan (calculateGiniCoefficient balances) = true
  \/ (0 <=? calculateGiniCoefficient balances) = true
     /\ (calculateGiniCoefficient balances <=? 1) = true.
Proof.
  unfold calculateGiniCoefficient.
  destruct balances as [|b bs]; [right; split; reflexivity|].
  destruct (gini_loop _ _ _ _ _) as [cumulativeWealth giniSum].
  set (gini := giniSum / _).
  destruct (PrimFloat.is_nan gini) eqn:Hnan.
  - left. apply Math_max_NaN, Math_min_NaN. exact Hnan.
  - right. destruct (Math_min_1_le gini Hnan) as [Hm Hle].
    apply Math_max_0_bounds; assumption.
Qed.

(** C6 (evaluation at the failing input).  The list [[0]] is non-empty,
    non-negative and all its balances are equal, yet
    [calculateGiniCoefficient] returns [NaN] on it (0/0, which the final
    clamp does not catch): the result is not 0 and not within [0, 1].
    The same happens on every list of zeros, here of length three. *)
Theorem calculateGiniCoefficient_zero_balances_NaN :
  PrimFloat.is_nan (calculateGiniCoefficient [0]) = true
  /\ PrimFloat.eqb (calculateGiniCoefficient [0]) 0 = false
  /\ PrimFloat.leb 0 (calculateGiniCoefficient [0]) = false
  /\ PrimFloat.leb (calculateGiniCoefficient [0]) 1 = false
  /\ PrimFloat.is_nan (calculateGiniCoefficient [0; 0; 0]) = true.
Proof. repeat split; vm_compute; reflexivity. Qed.

(** Rounding also shows on equal positive balances: twenty accounts of
    12345678901234567891 raw units each give a small positive result
    instead of 0. *)
Example calculateGiniCoefficient_equal_large_balances :
  PrimFloat.ltb 0
    (calculateGiniCoefficient
       (List.repeat (Number_of_bigint 12345678901234567891) 20)) = true.
Proof. vm_compute. reflexivity. Qed.

End GiniProperties.

(** ** Suspicious clusters and the cluster risk level *)

Section ClusterProperties.
Import ClusterAnalysis.

Lemma is_suspicious_spec (c : ClusterInfo) :
  is_suspicious c = true <->
  (2 <= holderCount c)%nat /\ isCEX c = false /\ isMixer c = false
  /\ PrimFloat.leb 5%float (totalPercentage c) = true.
Proof.
  unfold is_suspicious.
  rewrite !andb_true_iff, !negb_true_iff, Nat.leb_le. tauto.
Qed.

Lemma isCEXWallet_spec (a : string) : isCEXWallet a = false <-> a ∉ CEX_WALLETS.
Proof. unfold isCEXWallet. rewrite bool_decide_eq_false. tauto. Qed.

Lemma isMixerWallet_spec (a : string) : isMixerWallet a = false <-> a ∉ MIXER_WALLETS.
Proof. unfold isMixerWallet. rewrite bool_decide_eq_false. tauto. Qed.

(** C4. For every list of clusters, [identifySuspiciousClusters] returns
    exactly the clusters of the list that satisfy all four conditions
    (holder count at least 2, not flagged as funded by a known exchange,
    not flagged as funded by a known mixer, aggregate percentage at least
    5), in the order of the list; a cluster failing one condition is not
    returned.  For clusters whose flags are the allowlist lookups of their
    funder, as the analysis builds them, the two flag conditions say that
    the funder is in neither allowlist. *)
Theorem identifySuspiciousClusters_exact :
  forall clusters : list ClusterInfo,
    (forall c,
        In c (identifySuspiciousClusters clusters) <->
        In c clusters /\ (2 <= holderCount c)%nat /\ isCEX c = false
        /\ isMixer c = false /\ PrimFloat.leb 5%float (totalPercentage c) = true)
    /\ sublist (identifySuspiciousClusters clusters) clusters
    /\ (forall c,
          flags_from_allowlists c ->
          (In c (identifySuspiciousClusters clusters) <->
           In c clusters /\ (2 <= holderCount c)%nat /\ (funder c ∉ CEX_WALLETS)
           /\ (funder c ∉ MIXER_WALLETS)
           /\ PrimFloat.leb 5%float (totalPercentage c) = true)).
Proof.
  intros clusters.
  assert (Hmem : forall c,
             In c (identifySuspiciousClusters clusters) <->
             In c clusters /\ (2 <= holderCount c)%nat /\ isCEX c = false
             /\ isMixer c = false
             /\ PrimFloat.leb 5%float (totalPercentage c) = true).
  { intros c. unfold identifySuspiciousClusters.
    rewrite List.filter_In, is_suspicious_spec. tauto. }
  split; [exact Hmem|]. split.
  - unfold identifySuspiciousClusters.
    induction clusters as [|c cs IH]; simpl.
    + constructor.
    + destruct (is_suspicious c).
      * apply sublist_skip, IH. intros c'. unfold identifySuspiciousClusters.
        rewrite List.filter_In, is_suspicious_spec. tauto.
      * apply sublist_cons, IH. intros c'. unfold identifySuspiciousClusters.
        rewrite List.filter_In, is_suspicious_spec. tauto.
  - intros c [Hcex Hmix].
    pose proof (Hmem c) as Hc. rewrite Hcex, Hmix in Hc.
    pose proof (isCEXWallet_spec (funder c)).
    pose proof (isMixerWallet_spec (funder c)).
    tauto.
Qed.

Example identifySuspiciousClusters_sample :
  identifySuspiciousClusters
    [ sample_cluster "A" 3 40%float false;
      sample_cluster "5tzFkiKscXHK5ZXCGbXZxdw7gTjjD1mBwuoFbhUvuAi9" 4 30%float true;
      sample_cluster "B" 1 12%float false;
      sample_cluster "C" 2 5%float false;
      sample_cluster "D" 2 4.5%float false ]
  = [ sample_cluster "A" 3 40%float false; sample_cluster "C" 2 5%float false ].
Proof. reflexivity. Qed.

Lemma calculateRiskLevel_cons (c : ClusterInfo) (rest : list ClusterInfo) (t : float) :
  calculateRiskLevel (c :: rest) t =
  if PrimFloat.ltb 30%float (totalPercentage c) then Critical
  else if PrimFloat.ltb 20%float (totalPercentage c) then High
  else if PrimFloat.ltb 10%float (totalPercentage c) then Medium
  else Low.
Proof. reflexivity. Qed.

(** C5. The cluster risk level is monotone in the aggregate percentage of
    the largest suspicious cluster (the first element of the list, which
    [calculateRiskLevel] reads): with everything else fixed, raising that
    percentage never moves the level backward on the scale Low, Medium,
    High, Critical.  The level is Critical above 30, High above 20, Medium
    above 10 and Low otherwise, and Low when there is no suspicious
    cluster. *)
Theorem calculateRiskLevel_monotone :
  forall (c : ClusterInfo) (rest : list ClusterInfo) (p' t : float),
    PrimFloat.leb (totalPercentage c) p' = true ->
    (risk_rank (calculateRiskLevel (c :: rest) t)
     <= risk_rank (calculateRiskLevel (with_percentage c p' :: rest) t))%nat
    /\ calculateRiskLevel [] t = Low
    /\ (calculateRiskLevel (c :: rest) t = Critical <->
        PrimFloat.ltb 30%float (totalPercentage c) = true)
    /\ (calculateRiskLevel (c :: rest) t = High <->
        PrimFloat.ltb 30%float (totalPercentage c) = false
        /\ PrimFloat.ltb 20%float (totalPercentage c) = true)
    /\ (calculateRiskLevel (c :: rest) t = Medium <->
        PrimFloat.ltb 30%float (totalPercentage c) = false
        /\ PrimFloat.ltb 20%float (totalPercentage c) = false
        /\ PrimFloat.ltb 10%float (totalPercentage c) = true).
Proof.
  intros c rest p' t Hle.
  split.
  - rewrite !calculateRiskLevel_cons. simpl totalPercentage.
    pose proof (fun k => float_ltb_leb_trans k (totalPercentage c) p') as Htr.
    destruct (PrimFloat.ltb 30 (totalPercentage c)) eqn:H30.
    { rewrite (Htr _ H30 Hle). simpl. lia. }
    destruct (PrimFloat.ltb 20 (totalPercentage c)) eqn:H20.
    { rewrite (Htr _ H20 Hle).
      destruct (PrimFloat.ltb 30 p'); simpl; lia. }
    destruct (PrimFloat.ltb 10 (totalPercentage c)) eqn:H10.
    { rewrite (Htr _ H10 Hle).
      destruct (PrimFloat.ltb 30 p'), (PrimFloat.ltb 20 p'); simpl; lia. }
    simpl. lia.
  - split; [reflexivity|].
    rewrite calculateRiskLevel_cons.
    destruct (PrimFloat.ltb 30 (totalPercentage c)),
      (PrimFloat.ltb 20 (totalPercentage c)),
      (PrimFloat.ltb 10 (totalPercentage c));
      repeat split; intros; try reflexivity; try discriminate;
      repeat match goal with H : _ /\ _ |- _ => destruct H end;
      try discriminate.
Qed.

(** An instance: raising the first cluster from 15% to 25% moves the level
    from Medium to High. *)
Lemma calculateRiskLevel_monotone_witness :
  (risk_rank (calculateRiskLevel [sample_cluster "A" 3 15%float false] 15%float)
   <= risk_rank (calculateRiskLevel
                   [with_percentage (sample_cluster "A" 3 15%float false) 25%float]
                   15%float))%nat.
Proof.
  apply (proj1 (calculateRiskLevel_monotone
                  (sample_cluster "A" 3 15%float false) [] 25%float 15%float eq_refl)).
Defined.

End ClusterProperties.

(** ** The JavaScript map *)

Section JSMapFacts.
Context {V : Type}.
Implicit Types (m : JSMap.t V) (k : string) (v : V).

Lemma JSMap_get_set_eq k v m : JSMap.get k (JSMap.set k v m) = Some v.
Proof.
  induction m as [|[k' v'] m IH]; simpl.
  - rewrite String.eqb_refl. reflexivity.
  - destruct (String.eqb k' k) eqn:E; simpl; rewrite E; auto.
Qed.

Lemma JSMap_get_set_ne k k' v m :
  k <> k' -> JSMap.get k' (JSMap.set k v m) = JSMap.get k' m.
Proof.
  intros Hne. induction m as [|[k0 v0] m IH]; simpl.
  - destruct (String.eqb k k') eqn:E; [|reflexivity].
    apply String.eqb_eq in E. contradiction.
  - destruct (String.eqb k0 k) eqn:E; simpl.
    + apply String.eqb_eq in E. subst k0.
      destruct (String.eqb k k') eqn:E'; [|reflexivity].
      apply String.eqb_eq in E'. contradiction.
    + rewrite IH. reflexivity.
Qed.

Lemma JSMap_set_set k v1 v2 m :
  JSMap.set k v2 (JSMap.set k v1 m) = JSMap.set k v2 m.
Proof.
  induction m as [|[k0 v0] m IH]; simpl.
  - rewrite String.eqb_refl. reflexivity.
  - destruct (String.eqb k0 k) eqn:E; simpl; rewrite E; [reflexivity|].
    rewrite IH. reflexivity.
Qed.

Lemma JSMap_get_None_keys k m :
  JSMap.get k m = None <-> ~ In k (JSMap.keys m).
Proof.
  induction m as [|[k0 v0] m IH]; simpl.
  - tauto.
  - destruct (String.eqb k0 k) eqn:E.
    + apply String.eqb_eq in E. split; [discriminate|]. intros Hn. tauto.
    + apply String.eqb_neq in E. rewrite IH. tauto.
Qed.

Lemma JSMap_get_In k v m : JSMap.get k m = Some v -> In (k, v) m.
Proof.
  induction m as [|[k0 v0] m IH]; simpl; [discriminate|].
  destruct (String.eqb k0 k) eqn:E.
  - apply String.eqb_eq in E. intros [= ->]. subst. auto.
  - auto.
Qed.

Lemma JSMap_In_get k v m :
  List.NoDup (JSMap.keys m) -> In (k, v) m -> JSMap.get k m = Some v.
Proof.
  induction m as [|[k0 v0] m IH]; simpl; [tauto|].
  intros Hnd [Heq|Hin].
  - injection Heq as -> ->. rewrite String.eqb_refl. reflexivity.
  - apply NoDup_cons_iff in Hnd as [Hk0 Hnd].
    destruct (String.eqb k0 k) eqn:E.
    + apply String.eqb_eq in E. subst k0. exfalso. apply Hk0.
      change k with (fst (k, v)). apply in_map. exact Hin.
    + apply IH; assumption.
Qed.

(** [set] on a present key replaces the value where it stands. *)
Lemma JSMap_set_present k v v0 m :
  JSMap.get k m = Some v0 ->
  JSMap.keys (JSMap.set k v m) = JSMap.keys m
  /\ exists l1 l2, JSMap.values m = l1 ++ v0 :: l2
                   /\ JSMap.values (JSMap.set k v m) = l1 ++ v :: l2.
Proof.
  induction m as [|[k0 w] m IH]; simpl; [discriminate|].
  destruct (String.eqb k0 k) eqn:E.
  - intros [= ->]. split; [reflexivity|]. exists [], (JSMap.values m). auto.
  - intros Hget. destruct (IH Hget) as (Hk & l1 & l2 & H1 & H2).
    split; [simpl; f_equal; exact Hk|].
    exists (w :: l1), l2. simpl. unfold JSMap.values in *. rewrite H1, H2. auto.
Qed.

(** [set] on an absent key appends the entry. *)
Lemma JSMap_set_absent k v m :
  JSMap.get k m = None -> JSMap.set k v m = m ++ [(k, v)].
Proof.
  induction m as [|[k0 w] m IH]; simpl; [reflexivity|].
  destruct (String.eqb k0 k) eqn:E; [discriminate|].
  intros Hget. rewrite (IH Hget). reflexivity.
Qed.

End JSMapFacts.

(** ** [Array.prototype.sort] returns a permutation *)

Section SortFacts.
Context {A : Type} (compareFn : A -> A -> float).

Lemma sort_insert_Permutation (x : A) (l : list A) :
  Permutation (JS.sort_insert compareFn x l) (x :: l).
Proof.
  induction l as [|y l IH]; simpl.
  - reflexivity.
  - destruct (PrimFloat.ltb 0 (compareFn x y)).
    + rewrite IH. apply perm_swap.
    + reflexivity.
Qed.

Lemma sort_Permutation (l : list A) : Permutation (JS.sort compareFn l) l.
Proof.
  induction l as [|x l IH]; simpl.
  - reflexivity.
  - rewrite sort_insert_Permutation, IH. reflexivity.
Qed.

End SortFacts.

(** ** Grouping holders by funder *)

Section GroupProperties.
Import ClusterAnalysis.
Variable fundingSources : gmap string FundingSource.

Lemma members_funded_by_snoc (k : string) (hs : list HolderInfo) (h : HolderInfo) :
  members_funded_by fundingSources k (hs ++ [h]) =
  members_funded_by fundingSources k hs ++
  match fundingSources !! address h with
  | Some f => if String.eqb (fs_funder f) k then [cluster_holder h f] else []
  | None => []
  end.
Proof.
  unfold members_funded_by. rewrite flat_map_app. simpl.
  rewrite app_nil_r. reflexivity.
Qed.

Lemma resolved_members_snoc (hs : list HolderInfo) (h : HolderInfo) :
  resolved_members fundingSources (hs ++ [h]) =
  resolved_members fundingSources hs ++
  match fundingSources !! address h with
  | Some f => [cluster_holder h f]
  | None => []
  end.
Proof.
  unfold resolved_members. rewrite flat_map_app. simpl.
  rewrite app_nil_r. reflexivity.
Qed.

Lemma members_funded_by_In (hs : list HolderInfo) (h : HolderInfo) (f : FundingSource) :
  In h hs -> fundingSources !! address h = Some f ->
  In (cluster_holder h f) (members_funded_by fundingSources (fs_funder f) hs).
Proof.
  intros Hin Hf. unfold members_funded_by. apply in_flat_map.
  exists h. split; [exact Hin|].
  rewrite Hf, String.eqb_refl. left. reflexivity.
Qed.

Lemma members_funded_by_inv (k : string) (hs : list HolderInfo) (x : ClusterHolder) :
  In x (members_funded_by fundingSources k hs) ->
  exists h f, In h hs /\ fundingSources !! address h = Some f
              /\ fs_funder f = k /\ x = cluster_holder h f.
Proof.
  unfold members_funded_by. intros Hx.
  apply in_flat_map in Hx as (h & Hh & Hx).
  destruct (fundingSources !! address h) as [f|] eqn:Hf; [|contradiction].
  destruct (String.eqb (fs_funder f) k) eqn:E; [|contradiction].
  apply String.eqb_eq in E. destruct Hx as [<-|[]].
  exists h, f. auto.
Qed.

(** With a resolved funding source, one iteration is a single [set] under
    the funder's key. *)
Lemma group_step_resolved (m : JSMap.t ClusterInfo) (h : HolderInfo) (f : FundingSource) :
  fundingSources !! address h = Some f ->
  group_step fundingSources m h =
  JSMap.set (fs_funder f)
    (push_holder (default (new_cluster f) (JSMap.get (fs_funder f) m)) h f) m.
Proof.
  intros Hf. unfold group_step. rewrite Hf. unfold JSMap.has.
  destruct (JSMap.get (fs_funder f) m) as [c|] eqn:Hget; simpl.
  - rewrite Hget. reflexivity.
  - rewrite JSMap_get_set_eq, JSMap_set_set. reflexivity.
Qed.

Lemma group_step_unresolved (m : JSMap.t ClusterInfo) (h : HolderInfo) :
  fundingSources !! address h = None -> group_step fundingSources m h = m.
Proof. intros Hf. unfold group_step. rewrite Hf. reflexivity. Qed.

Lemma group_inv_empty : group_inv fundingSources [] JSMap.empty.
Proof.
  repeat split; simpl; try constructor; try discriminate; auto.
Qed.

Lemma group_inv_step (hs : list HolderInfo) (h : HolderInfo) (m : JSMap.t ClusterInfo) :
  group_inv fundingSources hs m ->
  group_inv fundingSources (hs ++ [h]) (group_step fundingSources m h).
Proof.
  intros (Hnd & Hget & Hnone & Hperm).
  destruct (fundingSources !! address h) as [f|] eqn:Hf.
  2:{ rewrite (group_step_unresolved m h Hf).
      split; [exact Hnd|]. split; [|split].
      - intros k c Hk. rewrite members_funded_by_snoc, Hf, app_nil_r.
        apply (Hget k c Hk).
      - intros k Hk. rewrite members_funded_by_snoc, Hf, app_nil_r. auto.
      - rewrite resolved_members_snoc, Hf, app_nil_r. exact Hperm. }
  rewrite (group_step_resolved m h f Hf).
  set (k0 := fs_funder f).
  set (c0 := default (new_cluster f) (JSMap.get k0 m)).
  assert (Hc0 : funder c0 = k0
                /\ holders c0 = members_funded_by fundingSources k0 hs
                /\ holderCount c0 = length (holders c0)
                /\ exists a f', fundingSources !! a = Some f' /\ fs_funder f' = k0
                     /\ isCEX c0 = fs_isCEX f' /\ isMixer c0 = fs_isMixer f').
  { unfold c0. destruct (JSMap.get k0 m) as [c|] eqn:Hk0; simpl.
    - destruct (Hget k0 c Hk0) as (? & ? & ? & ? & ?). tauto.
    - rewrite (Hnone k0 Hk0). repeat split.
      exists (address h), f. auto. }
  destruct Hc0 as (Hfun & Hhold & Hcount & Hflags).
  split; [|split; [|split]].
  - (* distinct keys *)
    destruct (JSMap.get k0 m) as [c|] eqn:Hk0.
    + rewrite (proj1 (JSMap_set_present k0 (push_holder c0 h f) c m Hk0)). exact Hnd.
    + rewrite (JSMap_set_absent k0 _ m Hk0). unfold JSMap.keys.
      rewrite map_app. simpl.
      apply (Permutation_NoDup (Permutation_cons_append _ _)).
      constructor; [|exact Hnd]. apply JSMap_get_None_keys. exact Hk0.
  - (* the cluster under each key *)
    intros k c Hk.
    rewrite members_funded_by_snoc, Hf. fold k0.
    destruct (String.eqb_spec k0 k) as [<-|Hne].
    + rewrite JSMap_get_set_eq in Hk. injection Hk as <-. simpl.
      rewrite Hhold, Hcount, length_app. simpl.
      repeat split; try assumption; try lia.
      intros Habs. apply app_eq_nil in Habs as [_ Habs]. discriminate.
      rewrite Hhold. lia.
    + rewrite JSMap_get_set_ne in Hk by exact Hne.
      rewrite app_nil_r. apply (Hget k c Hk).
  - (* funders without a cluster *)
    intros k Hk.
    rewrite members_funded_by_snoc, Hf. fold k0.
    destruct (String.eqb_spec k0 k) as [<-|Hne].
    + rewrite JSMap_get_set_eq in Hk. discriminate.
    + rewrite JSMap_get_set_ne in Hk by exact Hne.
      rewrite app_nil_r. auto.
  - (* the memberships together *)
    rewrite resolved_members_snoc, Hf, <- Hperm.
    destruct (JSMap.get k0 m) as [c|] eqn:Hk0.
    + destruct (JSMap_set_present k0 (push_holder c0 h f) c m Hk0)
        as (_ & l1 & l2 & H1 & H2).
      rewrite H1, H2, !flat_map_app. simpl.
      unfold c0. simpl. rewrite <- !app_assoc.
      do 2 apply Permutation_app_head.
      apply Permutation_app_comm.
    + rewrite (JSMap_set_absent k0 _ m Hk0). unfold JSMap.values.
      rewrite map_app, flat_map_app. simpl. reflexivity.
Qed.

Lemma group_loop_inv (hs : list HolderInfo) :
  group_inv fundingSources hs (group_loop fundingSources hs).
Proof.
  induction hs as [|h hs IH] using rev_ind.
  - apply group_inv_empty.
  - unfold group_loop. rewrite fold_left_app. simpl.
    apply group_inv_step. exact IH.
Qed.

Lemma group_inv_values_keys (hs : list HolderInfo) (m : JSMap.t ClusterInfo) :
  group_inv fundingSources hs m -> map funder (JSMap.values m) = JSMap.keys m.
Proof.
  intros (Hnd & Hget & _ & _).
  assert (Hall : forall k c, In (k, c) m -> funder c = k).
  { intros k c Hin. apply (Hget k c). apply JSMap_In_get; assumption. }
  clear Hnd Hget. unfold JSMap.values, JSMap.keys.
  induction m as [|[k c] m IH]; simpl; [reflexivity|].
  rewrite (Hall k c) by (left; reflexivity).
  rewrite IH; [reflexivity|]. intros k' c' Hin. apply Hall. right. exact Hin.
Qed.

Lemma group_inv_value (hs : list HolderInfo) (m : JSMap.t ClusterInfo) (c : ClusterInfo) :
  group_inv fundingSources hs m -> In c (JSMap.values m) ->
  JSMap.get (funder c) m = Some c.
Proof.
  intros (Hnd & Hget & _ & _) Hin.
  unfold JSMap.values in Hin. apply in_map_iff in Hin as ([k c'] & <- & Hin).
  simpl. pose proof (JSMap_In_get k c' m Hnd Hin) as Hk.
  destruct (Hget k c' Hk) as (-> & _). exact Hk.
Qed.

(** The clusters of [groupHoldersByFunder] are the values of the map,
    reordered. *)
Lemma groupHoldersByFunder_Permutation (hs : list HolderInfo) (totalSupply : Z) :
  Permutation (groupHoldersByFunder hs fundingSources totalSupply)
              (JSMap.values (group_loop fundingSources hs)).
Proof. unfold groupHoldersByFunder. apply sort_Permutation. Qed.

Lemma NoDup_map_injective_on {A B : Type} (g : A -> B) (l : list A) (x y : A) :
  List.NoDup (map g l) -> In x l -> In y l -> g x = g y -> x = y.
Proof.
  induction l as [|a l IH]; simpl; [tauto|].
  intros Hnd Hx Hy Hg. apply NoDup_cons_iff in Hnd as [Ha Hnd].
  destruct Hx as [->|Hx], Hy as [->|Hy]; auto.
  - exfalso. apply Ha. rewrite Hg. apply in_map. exact Hy.
  - exfalso. apply Ha. rewrite <- Hg. apply in_map. exact Hx.
Qed.

(** C1. For every list of holders and every map of resolved funding
    sources, the clusters of [groupHoldersByFunder] partition the holders
    that have a resolved funding source: the clusters have pairwise
    distinct funders; each cluster holds exactly the resolved holders
    funded by its funder (and at least one); every holder with a resolved
    funding source is a member of the cluster keyed by its funder; every
    member of a cluster is a holder of the list with a resolved funding
    source whose funder is the cluster's, so a holder without a resolved
    funding source is in no cluster; an address is a member of at most one
    cluster; and the memberships of all clusters together are, counted
    with multiplicity, the holders with a resolved funding source. *)
Theorem groupHoldersByFunder_partition :
  forall (hs : list HolderInfo) (totalSupply : Z),
    let clusters := groupHoldersByFunder hs fundingSources totalSupply in
    List.NoDup (map funder clusters)
    /\ (forall c, In c clusters ->
          holders c = members_funded_by fundingSources (funder c) hs
          /\ holders c <> [])
    /\ (forall h f, In h hs -> fundingSources !! address h = Some f ->
          exists c, In c clusters /\ funder c = fs_funder f
                    /\ In (cluster_holder h f) (holders c))
    /\ (forall c x, In c clusters -> In x (holders c) ->
          exists h f, In h hs /\ fundingSources !! address h = Some f
                      /\ fs_funder f = funder c /\ x = cluster_holder h f)
    /\ (forall h, In h hs -> fundingSources !! address h = None ->
          forall c x, In c clusters -> In x (holders c) ->
                      ch_address x <> address h)
    /\ (forall c1 c2 x1 x2, In c1 clusters -> In c2 clusters ->
          In x1 (holders c1) -> In x2 (holders c2) ->
          ch_address x1 = ch_address x2 -> c1 = c2)
    /\ Permutation (flat_map holders clusters)
                   (resolved_members fundingSources hs).
Proof.
  intros hs totalSupply clusters.
  pose proof (group_loop_inv hs) as Hinv.
  pose proof (groupHoldersByFunder_Permutation hs totalSupply) as Hsort.
  fold clusters in Hsort.
  set (m := group_loop fundingSources hs) in *.
  assert (Hin : forall c, In c clusters -> JSMap.get (funder c) m = Some c).
  { intros c Hc. apply (group_inv_value hs); [exact Hinv|].
    apply (Permutation_in _ Hsort). exact Hc. }
  destruct Hinv as (Hnd & Hget & Hnone & Hperm).
  assert (Hmembers : forall c x, In c clusters -> In x (holders c) ->
            exists h f, In h hs /\ fundingSources !! address h = Some f
                        /\ fs_funder f = funder c /\ x = cluster_holder h f).
  { intros c x Hc Hx. destruct (Hget _ c (Hin c Hc)) as (_ & Hh & _).
    rewrite Hh in Hx. apply members_funded_by_inv in Hx. exact Hx. }
  assert (Hdistinct : List.NoDup (map funder clusters)).
  { apply (Permutation_NoDup (Permutation_map funder (Permutation_sym Hsort))).
    rewrite (group_inv_values_keys hs m); [exact Hnd|].
    split; [exact Hnd|]. split; [exact Hget|]. split; [exact Hnone|exact Hperm]. }
  split; [exact Hdistinct|].
  split.
  { intros c Hc. destruct (Hget _ c (Hin c Hc)) as (_ & Hh & Hne & _). auto. }
  split.
  { intros h f Hh Hf.
    pose proof (members_funded_by_In hs h f Hh Hf) as Hmem.
    destruct (JSMap.get (fs_funder f) m) as [c|] eqn:Hk.
    - destruct (Hget _ c Hk) as (Hfun & Hhold & _).
      exists c. split; [|split; [exact Hfun|rewrite Hhold; exact Hmem]].
      apply (Permutation_in _ (Permutation_sym Hsort)).
      unfold JSMap.values. apply in_map_iff. exists (fs_funder f, c).
      split; [reflexivity|]. apply JSMap_get_In. exact Hk.
    - rewrite (Hnone _ Hk) in Hmem. contradiction. }
  split; [exact Hmembers|].
  split.
  { intros h Hh Hf c x Hc Hx Haddr.
    destruct (Hmembers c x Hc Hx) as (h' & f' & _ & Hf' & _ & ->).
    simpl in Haddr. rewrite Haddr, Hf in Hf'. discriminate. }
  split.
  { intros c1 c2 x1 x2 Hc1 Hc2 Hx1 Hx2 Haddr.
    destruct (Hmembers c1 x1 Hc1 Hx1) as (h1 & f1 & _ & Hf1 & Hk1 & ->).
    destruct (Hmembers c2 x2 Hc2 Hx2) as (h2 & f2 & _ & Hf2 & Hk2 & ->).
    simpl in Haddr. rewrite Haddr, Hf2 in Hf1. injection Hf1 as ->.
    apply (NoDup_map_injective_on funder clusters); try assumption.
    congruence. }
  rewrite <- Hperm. apply Permutation_flat_map. exact Hsort.
Qed.

(** The flags of every cluster are those of a funding source of its
    funder; when the funding sources carry the allowlist lookups, so do
    the clusters. *)
Lemma groupHoldersByFunder_flags (hs : list HolderInfo) (totalSupply : Z) :
  (forall a f, fundingSources !! a = Some f -> source_flags_from_allowlists f) ->
  forall c, In c (groupHoldersByFunder hs fundingSources totalSupply) ->
            flags_from_allowlists c.
Proof.
  intros Hsrc c Hc.
  pose proof (group_loop_inv hs) as Hinv.
  pose proof (group_inv_value hs _ c Hinv
                (Permutation_in _ (groupHoldersByFunder_Permutation hs totalSupply) Hc))
    as Hk.
  destruct Hinv as (_ & Hget & _ & _).
  destruct (Hget _ c Hk) as (_ & _ & _ & _ & a & f & Hf & Hfun & Hcex & Hmix).
  destruct (Hsrc a f Hf) as [H1 H2].
  unfold flags_from_allowlists. rewrite Hcex, Hmix, H1, H2, Hfun. auto.
Qed.

End GroupProperties.

(** A small holder list: two holders funded by one wallet, one by a
    second wallet, one without a resolved funding source. *)
Example groupHoldersByFunder_sample :
  let holder (a : string) (p : float) (r : nat) :=
    ClusterAnalysis.mkHolderInfo a 100 p r in
  let source (k : string) := ClusterAnalysis.fundingSource_of k "sig" 0 1%float in
  map (fun c => (ClusterAnalysis.funder c,
                 map ClusterAnalysis.ch_address (ClusterAnalysis.holders c),
                 ClusterAnalysis.totalPercentage c))
      (ClusterAnalysis.groupHoldersByFunder
         [holder "h1" 10%float 1%nat; holder "h2" 30%float 2%nat;
          holder "h3" 5%float 3%nat; holder "h4" 20%float 4%nat]
         (<["h1" := source "F1"]> (<["h2" := source "F2"]>
            (<["h4" := source "F1"]> ∅)))
         1000)
  = [ ("F1", ["h1"; "h4"], 30%float); ("F2", ["h2"], 30%float) ]%string.
Proof. vm_compute. reflexivity. Qed.


(** ** The retry helpers *)

Section RetryProperties.
Context {W H T : Type}.
Implicit Types (fn : Async W H T) (s : State W H) (e : Error).

Lemma sleep_slept (ms : float) s : sleep ms s = (Ok tt, slept ms s).
Proof. reflexivity. Qed.

(** *** The Developer Tracker helper *)

Lemma tracker_retry_loop_O fn (d : float) (i : nat) (last : Error) s :
  DeveloperTracker.retry_loop fn d 0 i last s = (Throw last, s).
Proof. reflexivity. Qed.

Lemma tracker_retry_loop_S fn (d : float) (n i : nat) (last : Error) s :
  DeveloperTracker.retry_loop fn d (S n) i last s =
  match fn s with
  | (Ok v, s') => (Ok v, s')
  | (Throw e, s') =>
      if DeveloperTracker.isRateLimit e
      then DeveloperTracker.retry_loop fn d n (S i) e
             (slept (d * Math_pow2 i)%float s')
      else (Throw e, s')
  end.
Proof.
  simpl. unfold try_catch. destruct (fn s) as [[v|e] s']; [reflexivity|].
  destruct (DeveloperTracker.isRateLimit e); reflexivity.
Qed.

Lemma tracker_retry_loop_calls fn (d : float) :
  preserves_calls fn ->
  forall (n i : nat) (last : Error) s,
    (calls (snd (DeveloperTracker.retry_loop (tick fn) d n i last s))
     <= calls s + n)%nat.
Proof.
  intros Hfn n. induction n as [|n IH]; intros i last s.
  - simpl. lia.
  - rewrite tracker_retry_loop_S. unfold tick at 1.
    pose proof (Hfn (mkState (world s) (heap s) (timers s) (S (calls s)))) as Hc.
    destruct (fn _) as [[v|e] s']; simpl in Hc |- *; [lia|].
    destruct (DeveloperTracker.isRateLimit e); simpl; [|lia].
    specialize (IH (S i) e (slept (d * Math_pow2 i)%float s')).
    simpl in IH. lia.
Qed.

Lemma tracker_retry_loop_heap fn (d : float) :
  rejects_without_mutation fn ->
  forall (n i : nat) (last : Error) s e s',
    DeveloperTracker.retry_loop fn d n i last s = (Throw e, s') ->
    heap s' = heap s.
Proof.
  intros Hfn n. induction n as [|n IH]; intros i last s e s' Hrun.
  - simpl in Hrun. injection Hrun as _ <-. reflexivity.
  - rewrite tracker_retry_loop_S in Hrun.
    destruct (fn s) as [[v|e1] s1] eqn:Hcall; [discriminate|].
    pose proof (Hfn s e1 s1 Hcall) as Hheap.
    destruct (DeveloperTracker.isRateLimit e1).
    + apply IH in Hrun. simpl in Hrun. congruence.
    + injection Hrun as _ <-. exact Hheap.
Qed.

(** *** The cluster analysis helper *)

Variable Math_random : W -> float * W.

Lemma cluster_retry_loop_S fn (d : float) (n i : nat) (last : Error) s :
  ClusterAnalysis.retry_loop Math_random fn d (S n) i last s =
  match fn s with
  | (Ok v, s') => (Ok v, s')
  | (Throw e, s') =>
      if ClusterAnalysis.isRateLimit e
      then ClusterAnalysis.retry_loop Math_random fn d n (S i) e
             (slept (d * Math_pow2 i + fst (drawn Math_random s') * 1000)%float
                    (snd (drawn Math_random s')))
      else if ClusterAnalysis.isTimeout e
      then ClusterAnalysis.retry_loop Math_random fn d n (S i) e
             (slept (d * Math_pow2 i)%float s')
      else (Throw e, s')
  end.
Proof.
  simpl. unfold try_catch. destruct (fn s) as [[v|e] s']; [reflexivity|].
  destruct (ClusterAnalysis.isRateLimit e).
  - unfold await, ClusterAnalysis.random, drawn.
    destruct (Math_random (world s')) as [r w']. reflexivity.
  - destruct (ClusterAnalysis.isTimeout e); reflexivity.
Qed.

Lemma cluster_retry_loop_calls fn (d : float) :
  preserves_calls fn ->
  forall (n i : nat) (last : Error) s,
    (calls (snd (ClusterAnalysis.retry_loop Math_random (tick fn) d n i last s))
     <= calls s + n)%nat.
Proof.
  intros Hfn n. induction n as [|n IH]; intros i last s.
  - simpl. lia.
  - rewrite cluster_retry_loop_S. unfold tick at 1.
    pose proof (Hfn (mkState (world s) (heap s) (timers s) (S (calls s)))) as Hc.
    destruct (fn _) as [[v|e] s']; simpl in Hc |- *; [lia|].
    destruct (ClusterAnalysis.isRateLimit e).
    + match goal with
      | |- context [ClusterAnalysis.retry_loop _ _ _ _ _ _ ?st] =>
          specialize (IH (S i) e st)
      end.
      simpl in IH. lia.
    + destruct (ClusterAnalysis.isTimeout e); simpl; [|lia].
      specialize (IH (S i) e (slept (d * Math_pow2 i)%float s')).
      simpl in IH. lia.
Qed.

End RetryProperties.

(** C8 (as amended).  Every call wrapped by a retry helper is attempted at
    most 3 times.  At each attempt, a success is returned at once; the
    Developer Tracker helper retries a rate-limit error ("429" or "Too
    Many Requests" in the message) after sleeping [initialDelay * 2^i] and
    propagates every other error immediately, timeouts included; the
    cluster-analysis helper retries a rate-limit error after sleeping
    [baseDelay * 2^i] plus a random jitter, retries a timeout error
    ("timeout" or "ETIMEDOUT") after sleeping [baseDelay * 2^i], and
    propagates every other error immediately; when no attempt is left the
    last error is thrown. *)
Theorem retryWithBackoff_policy :
  forall {W H T : Type} (Math_random : W -> float * W) (fn : Async W H T)
         (s : State W H),
    preserves_calls fn ->
    (calls (snd (DeveloperTracker.retryWithBackoff_default (tick fn) s))
     <= calls s + 3)%nat
    /\ (calls (snd (ClusterAnalysis.retryWithBackoff_default Math_random (tick fn) s))
        <= calls s + 3)%nat
    /\ (forall d n i last s0 v s1,
          fn s0 = (Ok v, s1) ->
          DeveloperTracker.retry_loop fn d (S n) i last s0 = (Ok v, s1)
          /\ ClusterAnalysis.retry_loop Math_random fn d (S n) i last s0 = (Ok v, s1))
    /\ (forall d n i last s0 e s1,
          fn s0 = (Throw e, s1) ->
          DeveloperTracker.retry_loop fn d (S n) i last s0 =
            if DeveloperTracker.isRateLimit e
            then DeveloperTracker.retry_loop fn d n (S i) e
                   (slept (d * Math_pow2 i)%float s1)
            else (Throw e, s1))
    /\ (forall d n i last s0 e s1,
          fn s0 = (Throw e, s1) ->
          ClusterAnalysis.retry_loop Math_random fn d (S n) i last s0 =
            if ClusterAnalysis.isRateLimit e
            then ClusterAnalysis.retry_loop Math_random fn d n (S i) e
                   (slept (d * Math_pow2 i
                           + fst (drawn Math_random s1) * 1000)%float
                          (snd (drawn Math_random s1)))
            else if ClusterAnalysis.isTimeout e
            then ClusterAnalysis.retry_loop Math_random fn d n (S i) e
                   (slept (d * Math_pow2 i)%float s1)
            else (Throw e, s1))
    /\ (forall d i last s0,
          DeveloperTracker.retry_loop fn d 0 i last s0 = (Throw last, s0)
          /\ ClusterAnalysis.retry_loop Math_random fn d 0 i last s0 = (Throw last, s0)).
Proof.
  intros W H T Math_random fn s Hfn.
  split; [apply (tracker_retry_loop_calls fn _ Hfn)|].
  split; [apply (cluster_retry_loop_calls Math_random fn _ Hfn)|].
  split.
  { intros d n i last s0 v s1 Hcall.
    rewrite tracker_retry_loop_S, cluster_retry_loop_S, Hcall. auto. }
  split.
  { intros d n i last s0 e s1 Hcall.
    rewrite tracker_retry_loop_S, Hcall. reflexivity. }
  split.
  { intros d n i last s0 e s1 Hcall.
    rewrite cluster_retry_loop_S, Hcall. reflexivity. }
  intros d i last s0. split; reflexivity.
Qed.

(** An instance: a call that is rate limited every time is attempted three
    times. *)
Lemma retryWithBackoff_policy_witness :
  (calls (snd (DeveloperTracker.retryWithBackoff_default (T := unit)
                 (tick (always_fails "429 Too Many Requests"))
                 (mkState [0.5%float] tt [] 0%nat)))
   <= 0 + 3)%nat.
Proof.
  apply (proj1 (retryWithBackoff_policy scripted_random
                  (always_fails "429 Too Many Requests")
                  (mkState [0.5%float] tt [] 0%nat)
                  (fun _ => eq_refl))).
Defined.

(** Three rate-limited attempts: the delays double, then the last error is
    thrown. *)
Example tracker_retry_rate_limited :
  DeveloperTracker.retryWithBackoff_default (T := unit)
    (tick (always_fails "429 Too Many Requests")) (mkState tt tt [] 0%nat)
  = (Throw (mkError (Some "429 Too Many Requests"%string)),
     mkState tt tt [1000; 2000; 4000]%float 3%nat).
Proof. vm_compute. reflexivity. Qed.

Example cluster_retry_rate_limited :
  ClusterAnalysis.retryWithBackoff_default (T := unit) scripted_random
    (tick (always_fails "Server responded with 429")) (mkState [0.5; 0.25]%float tt [] 0%nat)
  = (Throw (mkError (Some "Server responded with 429"%string)),
     mkState [] tt [1500; 2250; 4000]%float 3%nat).
Proof. vm_compute. reflexivity. Qed.

(** C8 (counterexample to the claim as stated).  A timeout error is a
    retryable error of the cluster-analysis helper, which attempts the call
    three times with delays 1000, 2000 and 4000; the Developer Tracker
    helper does not retry it: one attempt, no delay, the error propagates
    immediately. *)
Lemma tracker_retry_ignores_timeouts :
  let e := mkError (Some "connect ETIMEDOUT 10.0.0.1:443"%string) in
  ClusterAnalysis.isTimeout e = true
  /\ DeveloperTracker.isRateLimit e = false
  /\ DeveloperTracker.retryWithBackoff_default (T := unit) (tick (reject e))
       (mkState tt tt [] 0%nat)
     = (Throw e, mkState tt tt [] 1%nat)
  /\ ClusterAnalysis.retryWithBackoff_default (T := unit) scripted_random
       (tick (reject e)) (mkState [] tt [] 0%nat)
     = (Throw e, mkState [] tt [1000; 2000; 4000]%float 3%nat).
Proof. repeat split; vm_compute; reflexivity. Qed.

(** ** Lifecycle classification of discovered tokens *)

Section LifecycleProperties.
Import DeveloperTracker.
Context {W : Type}.
Variable PublicKey_valid : string -> bool.
Variable getMint : PublicKey -> TokenProgram -> W -> Outcome Mint * W.
Variable getTokenLargestAccounts :
  PublicKey -> W -> Outcome (list TokenAccountBalance) * W.

Local Abbreviation check_callback :=
  (check_callback PublicKey_valid getMint getTokenLargestAccounts).
Local Abbreviation check_token :=
  (check_token PublicKey_valid getMint getTokenLargestAccounts).
Local Abbreviation getMint_any := (getMint_any (H := Tokens) getMint).

(** A gateway call frames the object store, the timers and the counter. *)
Lemma getMint_any_frame (pk : PublicKey) (s s' : State W Tokens) (r : Outcome Mint) :
  getMint_any pk s = (r, s') ->
  heap s' = heap s /\ timers s' = timers s /\ calls s' = calls s.
Proof.
  unfold DeveloperTracker.getMint_any, try_catch, gateway. simpl.
  destruct (getMint pk TOKEN_2022_PROGRAM_ID (world s)) as [[m|e] w1]; simpl.
  - intros [= <- <-]. auto.
  - destruct (getMint pk TOKEN_PROGRAM_ID w1) as [r2 w2]. intros [= <- <-]. auto.
Qed.

Lemma update_token_run (i : nat) (f : DeployedToken -> DeployedToken)
    (s : State W Tokens) :
  update_token i f s =
  (Ok tt, mkState (world s) (alter f i (heap s)) (timers s) (calls s)).
Proof. reflexivity. Qed.

(** The callback mutates the token only on a path that then returns:
    when it rejects, the array is as it was. *)
Lemma check_callback_rejects_without_mutation (i : nat) :
  rejects_without_mutation (check_callback i).
Proof.
  intros s e s'. unfold DeveloperTracker.check_callback, await, load.
  destruct (heap s !! i) as [token|]; [|intros [= _ <-]; reflexivity].
  unfold new_PublicKey.
  destruct (PublicKey_valid (address token)); [|intros [= _ <-]; reflexivity].
  unfold resolve at 1. rewrite sleep_slept.
  destruct (getMint_any (address token) (slept requestDelay s))
    as [[mintInfo|e1] s1] eqn:Hmint;
    pose proof (getMint_any_frame _ _ _ _ Hmint) as (Hh & _ & _); simpl in Hh.
  2:{ intros [= _ <-]. exact Hh. }
  destruct (match mint_mintAuthority mintInfo with
            | Some authority => negb (PublicKey_equals authority PUMPFUN_MINT_AUTHORITY)
            | None => false
            end); [rewrite update_token_run; discriminate|].
  destruct (PrimFloat.eqb _ _); [rewrite update_token_run; discriminate|].
  rewrite sleep_slept. unfold gateway. simpl.
  destruct (getTokenLargestAccounts (address token) (world s1)) as [[largest|e2] w2].
  - destruct largest as [|top rest]; [rewrite update_token_run; discriminate|].
    destruct (PrimFloat.ltb 95 _); [rewrite update_token_run; discriminate|].
    destruct (PrimFloat.ltb 80 _); rewrite update_token_run; discriminate.
  - intros [= _ <-]. simpl. exact Hh.
Qed.

Lemma check_token_ok (i : nat) (s s' : State W Tokens) :
  check_callback i s = (Ok tt, s') -> check_token i s = (Ok tt, s').
Proof.
  intros Hcb. unfold DeveloperTracker.check_token, try_catch,
    retryWithBackoff_default, retryWithBackoff.
  rewrite tracker_retry_loop_S, Hcb. reflexivity.
Qed.

Lemma authority_test_spec (m : Mint) :
  match mint_mintAuthority m with
  | Some authority => negb (PublicKey_equals authority PUMPFUN_MINT_AUTHORITY)
  | None => false
  end = true <-> authority_active_not_shared m.
Proof.
  unfold authority_active_not_shared, PublicKey_equals.
  destruct (mint_mintAuthority m) as [a|].
  - rewrite negb_true_iff, String.eqb_neq. split.
    + intros Hne. exists a. auto.
    + intros (a' & [= <-] & Hne). exact Hne.
  - split; [discriminate|]. intros (a & Ha & _). discriminate.
Qed.

Lemma top_holder_above_nil (t : float) (m : Mint) : ~ top_holder_above t m [].
Proof. intros (top & rest & Hl & _). discriminate. Qed.

Lemma top_holder_above_cons (t : float) (m : Mint) (top : TokenAccountBalance)
    (rest : list TokenAccountBalance) :
  top_holder_above t m (top :: rest) <->
  PrimFloat.ltb t (topHolderPercentage (tab_amount top) (mint_supply m)) = true.
Proof.
  unfold top_holder_above. split.
  - intros (top' & rest' & [= <- <-] & Hlt). exact Hlt.
  - intros Hlt. exists top, rest. auto.
Qed.

(** One run of the callback on a token whose mint state and list of
    largest holders the gateway returns in that run. *)
Lemma check_callback_classification (i : nat) (s s2 : State W Tokens)
    (token : DeployedToken) (mintInfo : Mint)
    (largest : list TokenAccountBalance) (w3 : W) :
  heap s !! i = Some token ->
  PublicKey_valid (address token) = true ->
  getMint_any (address token) (slept requestDelay s) = (Ok mintInfo, s2) ->
  getTokenLargestAccounts (address token) (world s2) = (Ok largest, w3) ->
  exists f s',
    check_callback i s = (Ok tt, s')
    /\ heap s' = alter f i (heap s)
    /\ (status (f token) = Rugged <->
        authority_active_not_shared mintInfo \/ supply_is_zero mintInfo
        \/ largest = [] \/ top_holder_above 95%float mintInfo largest)
    /\ (status (f token) = Dead <->
        ~ authority_active_not_shared mintInfo /\ ~ supply_is_zero mintInfo
        /\ top_holder_above 80%float mintInfo largest
        /\ ~ top_holder_above 95%float mintInfo largest)
    /\ (status (f token) = Active <->
        ~ authority_active_not_shared mintInfo /\ ~ supply_is_zero mintInfo
        /\ largest <> []
        /\ ~ top_holder_above 80%float mintInfo largest
        /\ ~ top_holder_above 95%float mintInfo largest)
    /\ (status (f token) = Rugged -> isRugged (f token) = true).
Proof.
  intros Htok Hvalid Hmint Hlargest.
  pose proof (getMint_any_frame _ _ _ _ Hmint) as (Hh & _ & _). simpl in Hh.
  pose proof (authority_test_spec mintInfo) as Hauth.
  unfold DeveloperTracker.check_callback, await, load. rewrite Htok.
  unfold new_PublicKey. rewrite Hvalid. unfold resolve at 1.
  rewrite sleep_slept, Hmint.
  unfold supply_is_zero.
  destruct (match mint_mintAuthority mintInfo with
            | Some authority =>
                negb (PublicKey_equals authority PUMPFUN_MINT_AUTHORITY)
            | None => false
            end) eqn:Ha.
  { exists mark_rugged. rewrite update_token_run. eexists.
    split; [reflexivity|]. split; [cbn [heap]; rewrite Hh; reflexivity|].
    simpl. intuition discriminate. }
  assert (Hna : ~ authority_active_not_shared mintInfo).
  { intros Habs. apply Hauth in Habs. discriminate. }
  destruct (PrimFloat.eqb (Number_of_bigint (mint_supply mintInfo)) 0) eqn:Hz.
  { exists mark_rugged. rewrite update_token_run. eexists.
    split; [reflexivity|]. split; [cbn [heap]; rewrite Hh; reflexivity|].
    simpl. intuition discriminate. }
  rewrite sleep_slept. unfold gateway. simpl. rewrite Hlargest.
  destruct largest as [|top rest].
  { exists mark_rugged. rewrite update_token_run. eexists.
    split; [reflexivity|]. split; [cbn [heap]; rewrite Hh; reflexivity|].
    pose proof (top_holder_above_nil 80 mintInfo).
    pose proof (top_holder_above_nil 95 mintInfo).
    simpl. intuition (try discriminate; try congruence). }
  pose proof (top_holder_above_cons 95 mintInfo top rest) as H95.
  pose proof (top_holder_above_cons 80 mintInfo top rest) as H80.
  destruct (PrimFloat.ltb 95 _) eqn:E95.
  { exists mark_rugged. rewrite update_token_run. eexists.
    split; [reflexivity|]. split; [cbn [heap]; rewrite Hh; reflexivity|].
    simpl. intuition (try discriminate; try congruence). }
  destruct (PrimFloat.ltb 80 _) eqn:E80.
  { exists (mark Dead 1). rewrite update_token_run. eexists.
    split; [reflexivity|]. split; [cbn [heap]; rewrite Hh; reflexivity|].
    simpl. intuition (try discriminate; try congruence). }
  exists (mark Active 10). rewrite update_token_run. eexists.
  split; [reflexivity|]. split; [cbn [heap]; rewrite Hh; reflexivity|].
  simpl. intuition (try discriminate; try congruence).
Qed.

(** The attempts of the retry helper: the rejected attempts before
    attempt [k] leave the array as it was, and when attempt [k] is one of
    the attempts the loop may still make and resolves, the loop resolves
    with its result. *)
Lemma attempt_start_heap (fn : Async W Tokens unit) (d : float) :
  rejects_without_mutation fn ->
  forall (k i : nat) (s s_k : State W Tokens),
    attempt_start fn d i k s = Some s_k -> heap s_k = heap s.
Proof.
  intros Hfn k. induction k as [|k IH]; intros i s s_k; simpl.
  - intros [= <-]. reflexivity.
  - destruct (fn s) as [[v|e] s1] eqn:Hcall; [discriminate|].
    destruct (isRateLimit e); [|discriminate].
    intros Hk. rewrite (IH _ _ _ Hk). simpl. apply (Hfn s e s1 Hcall).
Qed.

Lemma retry_loop_attempt (fn : Async W Tokens unit) (d : float) :
  forall (k n i : nat) (last : Error) (s s_k s' : State W Tokens) (v : unit),
    attempt_start fn d i k s = Some s_k ->
    (k < n)%nat ->
    fn s_k = (Ok v, s') ->
    retry_loop fn d n i last s = (Ok v, s').
Proof.
  intros k. induction k as [|k IH]; intros n i last s s_k s' v; simpl.
  - intros [= <-] Hn Hcall. destruct n as [|n]; [lia|].
    rewrite tracker_retry_loop_S, Hcall. reflexivity.
  - destruct (fn s) as [[v0|e] s1] eqn:Hcall; [discriminate|].
    destruct (isRateLimit e) eqn:Hrate; [|discriminate].
    intros Hk Hn Hok. destruct n as [|n]; [lia|].
    rewrite tracker_retry_loop_S, Hcall, Hrate.
    apply (IH n (S i) e _ s_k s' v Hk); [lia|exact Hok].
Qed.

(** C3 (as amended).  For a discovered token whose mint state and list of
    largest holders are returned by the gateway, on the first attempt or
    on one of the two retries that follow rate-limited attempts, the
    classifier marks the token Rugged exactly when the mint authority is
    still active and is not the Pump.fun authority, or the supply is
    zero, or the list of largest holders is empty, or the largest holder
    has more than 95% of the supply; Dead exactly when none of the first
    two holds and the largest holder has more than 80% and at most 95%;
    Active otherwise.  A Rugged token also has [isRugged] set; no other
    token of the array is touched. *)
Theorem checkTokensLiquidity_classification :
  forall (i k : nat) (s s_k s2 : State W Tokens) (token : DeployedToken)
         (mintInfo : Mint) (largest : list TokenAccountBalance) (w3 : W),
    heap s !! i = Some token ->
    PublicKey_valid (address token) = true ->
    (k < 3)%nat ->
    attempt_start (check_callback i) 1000%float 0 k s = Some s_k ->
    getMint_any (address token) (slept requestDelay s_k) = (Ok mintInfo, s2) ->
    getTokenLargestAccounts (address token) (world s2) = (Ok largest, w3) ->
    exists (s' : State W Tokens) (token' : DeployedToken),
      check_token i s = (Ok tt, s')
      /\ heap s' !! i = Some token'
      /\ (forall j, j <> i -> heap s' !! j = heap s !! j)
      /\ (status token' = Rugged <->
          authority_active_not_shared mintInfo \/ supply_is_zero mintInfo
          \/ largest = [] \/ top_holder_above 95%float mintInfo largest)
      /\ (status token' = Dead <->
          ~ authority_active_not_shared mintInfo /\ ~ supply_is_zero mintInfo
          /\ top_holder_above 80%float mintInfo largest
          /\ ~ top_holder_above 95%float mintInfo largest)
      /\ (status token' = Active <->
          ~ authority_active_not_shared mintInfo /\ ~ supply_is_zero mintInfo
          /\ largest <> []
          /\ ~ top_holder_above 80%float mintInfo largest
          /\ ~ top_holder_above 95%float mintInfo largest)
      /\ (status token' = Rugged -> isRugged token' = true).
Proof.
  intros i k s s_k s2 token mintInfo largest w3 Htok Hvalid Hk Hstart Hmint Hlargest.
  pose proof (attempt_start_heap (check_callback i) 1000%float
                (check_callback_rejects_without_mutation i) k 0%nat s s_k Hstart)
    as Hsame.
  assert (Htok_k : heap s_k !! i = Some token) by (rewrite Hsame; exact Htok).
  destruct (check_callback_classification i s_k s2 token mintInfo largest w3
              Htok_k Hvalid Hmint Hlargest)
    as (f & s' & Hcb & Hheap & HR & HD & HA & HI).
  exists s', (f token).
  split.
  { unfold DeveloperTracker.check_token, try_catch,
      retryWithBackoff_default, retryWithBackoff.
    rewrite (retry_loop_attempt (check_callback i) 1000%float k 3 0%nat
               (mkError None) s s_k s' tt Hstart Hk Hcb).
    reflexivity. }
  rewrite Hheap, Hsame. split.
  { rewrite list_lookup_alter_eq, Htok. reflexivity. }
  split.
  { intros j Hj. apply list_lookup_alter_ne. auto. }
  auto.
Qed.

Lemma counts_as_rugged_mark_Dead (t : DeployedToken) (l : Z) :
  counts_as_rugged (mark Dead l t) = isRugged t.
Proof. unfold counts_as_rugged. simpl. apply orb_false_r. Qed.

Lemma ruggedCount_alter_le (f : DeployedToken -> DeployedToken) (l : list DeployedToken)
    (i : nat) :
  (forall t, counts_as_rugged (f t) = true -> counts_as_rugged t = true) ->
  (ruggedCount (alter f i l) <= ruggedCount l)%nat.
Proof.
  intros Hf. unfold ruggedCount. revert i.
  induction l as [|t l IH]; intros i.
  - destruct i; simpl; lia.
  - destruct i as [|i]; simpl.
    + specialize (Hf t).
      destruct (counts_as_rugged (f t)), (counts_as_rugged t); simpl; try lia;
        discriminate Hf; reflexivity.
    + specialize (IH i). change (list_alter f i l) with (alter f i l).
      destruct (counts_as_rugged t); simpl; lia.
Qed.

Lemma ruggedCount_alter_eq (f : DeployedToken -> DeployedToken) (l : list DeployedToken)
    (i : nat) (t : DeployedToken) :
  l !! i = Some t -> counts_as_rugged (f t) = counts_as_rugged t ->
  ruggedCount (alter f i l) = ruggedCount l.
Proof.
  unfold ruggedCount. revert i.
  induction l as [|x l IH]; intros i.
  - destruct i; discriminate.
  - destruct i as [|i]; simpl.
    + intros [= ->] ->. destruct (counts_as_rugged t); reflexivity.
    + intros Hl Hf. specialize (IH i Hl Hf).
      change (list_alter f i l) with (alter f i l).
      destruct (counts_as_rugged x); simpl; lia.
Qed.

Lemma winRate_alter_eq (f : DeployedToken -> DeployedToken) (l : list DeployedToken)
    (i : nat) :
  ruggedCount (alter f i l) = ruggedCount l ->
  winRate (alter f i l) = winRate l.
Proof.
  intros Hr. unfold winRate. rewrite Hr, length_alter.
  destruct l as [|x l]; [reflexivity|]. destruct i; reflexivity.
Qed.

(** C10. When the lifecycle check of a discovered token fails even after
    all retries, the token is given status Dead (liquidity value 0) and
    its [isRugged] flag stays false; no other token is touched.  The
    failure therefore never increases the deployer's [ruggedCount], and
    for a token that was not counted as rugged (as every discovered token
    is before its check) it leaves [ruggedCount] and the win rate
    unchanged. *)
Theorem failed_check_marks_dead_not_rugged :
  forall (i : nat) (s s1 : State W Tokens) (token : DeployedToken) (e : Error),
    heap s !! i = Some token ->
    counts_as_rugged token = false ->
    retryWithBackoff_default (check_callback i) s = (Throw e, s1) ->
    exists (s' : State W Tokens) (token' : DeployedToken),
      check_token i s = (Ok tt, s')
      /\ heap s' !! i = Some token'
      /\ status token' = Dead
      /\ isRugged token' = false
      /\ liquidityValue token' = 0
      /\ (forall j, j <> i -> heap s' !! j = heap s !! j)
      /\ (ruggedCount (heap s') <= ruggedCount (heap s))%nat
      /\ ruggedCount (heap s') = ruggedCount (heap s)
      /\ winRate (heap s') = winRate (heap s).
Proof.
  intros i s s1 token e Htok Hfresh Hfail.
  assert (Hheap : heap s1 = heap s).
  { apply (tracker_retry_loop_heap (check_callback i) 1000%float
             (check_callback_rejects_without_mutation i) 3 0 (mkError None) s e s1).
    exact Hfail. }
  assert (Hflag : isRugged token = false).
  { unfold counts_as_rugged in Hfresh. apply orb_false_iff in Hfresh. tauto. }
  exists (mkState (world s1) (alter (mark Dead 0) i (heap s)) (timers s1) (calls s1)),
    (mark Dead 0 token).
  split.
  { unfold DeveloperTracker.check_token, try_catch. rewrite Hfail.
    rewrite update_token_run, Hheap. reflexivity. }
  cbn [heap].
  assert (Hcount : ruggedCount (alter (mark Dead 0) i (heap s)) = ruggedCount (heap s)).
  { apply (ruggedCount_alter_eq _ _ _ token Htok).
    rewrite counts_as_rugged_mark_Dead, Hfresh. exact Hflag. }
  split; [rewrite list_lookup_alter_eq, Htok; reflexivity|].
  split; [reflexivity|].
  split; [exact Hflag|].
  split; [reflexivity|].
  split; [intros j Hj; apply list_lookup_alter_ne; auto|].
  split; [rewrite Hcount; lia|].
  split; [exact Hcount|].
  apply winRate_alter_eq. exact Hcount.
Qed.

(** Whatever the token was before, a failed check does not add to
    [ruggedCount]. *)
Lemma failed_check_ruggedCount_le (i : nat) (s s1 : State W Tokens) (e : Error) :
  retryWithBackoff_default (check_callback i) s = (Throw e, s1) ->
  (ruggedCount (heap (snd (check_token i s))) <= ruggedCount (heap s))%nat.
Proof.
  intros Hfail.
  assert (Hheap : heap s1 = heap s).
  { apply (tracker_retry_loop_heap (check_callback i) 1000%float
             (check_callback_rejects_without_mutation i) 3 0 (mkError None) s e s1).
    exact Hfail. }
  unfold DeveloperTracker.check_token, try_catch. rewrite Hfail.
  rewrite update_token_run, Hheap. cbn [snd heap].
  apply ruggedCount_alter_le. intros t.
  rewrite counts_as_rugged_mark_Dead. unfold counts_as_rugged.
  intros ->. reflexivity.
Qed.

(** *** The loop over the tokens

    Each iteration touches its own token only, so the token at index [i]
    is classified by iteration [i] and by no other. *)

Lemma check_callback_frame (i : nat) (s : State W Tokens) (r : Outcome unit)
    (s' : State W Tokens) :
  check_callback i s = (r, s') -> only_token_changed i s s'.
Proof.
  unfold DeveloperTracker.check_callback, await, load, only_token_changed.
  destruct (heap s !! i) as [token|]; [|intros [= _ <-]; reflexivity].
  unfold new_PublicKey.
  destruct (PublicKey_valid (address token)); [|intros [= _ <-]; reflexivity].
  unfold resolve at 1. rewrite sleep_slept.
  destruct (getMint_any (address token) (slept requestDelay s))
    as [[mintInfo|e1] s1] eqn:Hmint;
    pose proof (getMint_any_frame _ _ _ _ Hmint) as (Hh & _ & _); simpl in Hh.
  2:{ intros [= _ <-] j Hj. rewrite Hh. reflexivity. }
  assert (Hupd : forall f (st : State W Tokens) r0 s0,
             heap st = heap s ->
             update_token i f st = (r0, s0) ->
             forall j, j <> i -> heap s0 !! j = heap s !! j).
  { intros f st r0 s0 Hst. rewrite update_token_run. intros [= _ <-] j Hj.
    cbn [heap]. rewrite Hst. apply list_lookup_alter_ne. auto. }
  destruct (match mint_mintAuthority mintInfo with
            | Some authority => negb (PublicKey_equals authority PUMPFUN_MINT_AUTHORITY)
            | None => false
            end); [apply Hupd; exact Hh|].
  destruct (PrimFloat.eqb _ _); [apply Hupd; exact Hh|].
  rewrite sleep_slept. unfold gateway. simpl.
  destruct (getTokenLargestAccounts (address token) (world s1)) as [[largest|e2] w2].
  - destruct largest as [|top rest]; [apply Hupd; exact Hh|].
    destruct (PrimFloat.ltb 95 _); [apply Hupd; exact Hh|].
    destruct (PrimFloat.ltb 80 _); apply Hupd; exact Hh.
  - intros [= _ <-] j Hj. simpl. rewrite Hh. reflexivity.
Qed.

Lemma tracker_retry_loop_frame (i : nat) (fn : Async W Tokens unit) (d : float) :
  (forall s r s', fn s = (r, s') -> only_token_changed i s s') ->
  forall (n k : nat) (last : Error) s r s',
    DeveloperTracker.retry_loop fn d n k last s = (r, s') ->
    only_token_changed i s s'.
Proof.
  intros Hfn n. induction n as [|n IH]; intros k last s r s' Hrun.
  - simpl in Hrun. injection Hrun as _ <-. intros j _. reflexivity.
  - rewrite tracker_retry_loop_S in Hrun.
    destruct (fn s) as [[v|e1] s1] eqn:Hcall;
      pose proof (Hfn s _ s1 Hcall) as Hframe.
    + injection Hrun as _ <-. exact Hframe.
    + destruct (DeveloperTracker.isRateLimit e1).
      * apply IH in Hrun. intros j Hj.
        rewrite (Hrun j Hj). simpl. apply Hframe. exact Hj.
      * injection Hrun as _ <-. exact Hframe.
Qed.

(** An iteration always completes and touches [tokens[i]] only. *)
Lemma check_token_total (i : nat) (s : State W Tokens) :
  exists s', check_token i s = (Ok tt, s') /\ only_token_changed i s s'.
Proof.
  unfold DeveloperTracker.check_token, try_catch.
  destruct (retryWithBackoff_default (check_callback i) s) as [[[]|e] s1] eqn:Hrun;
    pose proof (tracker_retry_loop_frame i (check_callback i) 1000%float
                  (check_callback_frame i) 3 0 (mkError None) s _ s1 Hrun) as Hframe.
  - exists s1. auto.
  - rewrite update_token_run. eexists. split; [reflexivity|].
    intros j Hj. cbn [heap]. rewrite list_lookup_alter_ne by auto.
    apply Hframe. exact Hj.
Qed.

Lemma check_loop_frame (indices : list nat) (s : State W Tokens) :
  fst (check_loop PublicKey_valid getMint getTokenLargestAccounts indices s) = Ok tt
  /\ forall j, ~ In j indices ->
       heap (snd (check_loop PublicKey_valid getMint getTokenLargestAccounts indices s)) !! j
       = heap s !! j.
Proof.
  revert s. induction indices as [|i rest IH]; intros s.
  - simpl. auto.
  - simpl. unfold await.
    destruct (check_token_total i s) as (s1 & Hstep & Hframe). rewrite Hstep.
    destruct (IH s1) as (Hok & Hrest). split; [exact Hok|].
    intros j Hj. rewrite Hrest by (intros Hin; apply Hj; right; exact Hin).
    apply Hframe. intros ->. apply Hj. left. reflexivity.
Qed.

(** [checkTokensLiquidity] resolves, and the token it leaves at index [i]
    is the one iteration [i] produced, started on a state in which
    [tokens[i]] was still the discovered token. *)
Lemma checkTokensLiquidity_each_token (s : State W Tokens) (i : nat)
    (token : DeployedToken) :
  heap s !! i = Some token ->
  fst (checkTokensLiquidity PublicKey_valid getMint getTokenLargestAccounts s) = Ok tt
  /\ exists s_i s_i',
       heap s_i !! i = Some token
       /\ check_token i s_i = (Ok tt, s_i')
       /\ heap (snd (checkTokensLiquidity PublicKey_valid getMint
                       getTokenLargestAccounts s)) !! i
          = heap s_i' !! i.
Proof.
  intros Htok. unfold checkTokensLiquidity, await, load.
  split; [apply check_loop_frame|].
  assert (Hi : (0 <= i < 0 + length (heap s))%nat).
  { apply lookup_lt_Some in Htok. lia. }
  revert Hi Htok. generalize (length (heap s)) as n. generalize 0%nat as a.
  intros a n. revert a s. induction n as [|n IH]; intros a s Hi Htok; [lia|].
  simpl. unfold await.
  destruct (check_token_total a s) as (s1 & Hstep & Hframe). rewrite Hstep.
  destruct (Nat.eq_dec i a) as [->|Hne].
  - exists s, s1. split; [exact Htok|]. split; [exact Hstep|].
    apply check_loop_frame. rewrite in_seq. lia.
  - apply IH; [lia|]. rewrite (Hframe i Hne). exact Htok.
Qed.

End LifecycleProperties.

(** *** The classifier on sample gateways *)

(** An instance: the mint lookup is rate limited during the first two
    attempts and answers on the third; the largest holder has 960 of a
    supply of 1000, and the token is marked Rugged. *)
Lemma checkTokensLiquidity_classification_witness :
  exists s' token',
    DeveloperTracker.check_token (fun _ => true) (rate_limited_getMint 4 1000)
      (counted_largestAccounts [960; 40]) 0
      (mkState 0%nat [sample_token] [] 0%nat) = (Ok tt, s')
    /\ heap s' !! 0%nat = Some token'
    /\ DeveloperTracker.status token' = DeveloperTracker.Rugged.
Proof.
  destruct (checkTokensLiquidity_classification (fun _ => true)
              (rate_limited_getMint 4 1000) (counted_largestAccounts [960; 40])
              0 2
              (mkState 0%nat [sample_token] [] 0%nat)
              (mkState 4%nat [sample_token] [300; 1000; 300; 2000]%float 0%nat)
              (mkState 5%nat [sample_token] [300; 1000; 300; 2000; 300]%float 0%nat)
              sample_token (mkMint None None 1000 6)
              (map (mkTokenAccountBalance "holder") [960; 40]) 6%nat
              eq_refl eq_refl ltac:(lia) eq_refl eq_refl eq_refl)
    as (s' & token' & Hrun & Hlook & _ & Hrugged & _).
  exists s', token'. split; [exact Hrun|]. split; [exact Hlook|].
  apply Hrugged. right. right. right.
  exists (mkTokenAccountBalance "holder" 960), [mkTokenAccountBalance "holder" 40].
  split; reflexivity.
Defined.

(** The three outcomes of the holder test: 96% Rugged, 90% Dead, 95% Dead
    (the bound is strict), 80% Active. *)
Example checkTokensLiquidity_samples :
  map (fun top =>
         map DeveloperTracker.status
           (heap (snd (DeveloperTracker.checkTokensLiquidity (fun _ => true)
                         (sample_getMint 1000) (sample_largestAccounts [top])
                         (mkState tt [sample_token] [] 0%nat)))))
      [960; 900; 950; 800]
  = [ [DeveloperTracker.Rugged]; [DeveloperTracker.Dead];
      [DeveloperTracker.Dead]; [DeveloperTracker.Active] ].
Proof. vm_compute. reflexivity. Qed.

(** C3 (counterexample to the claim as stated).  The mint authority is
    revoked, the supply is 1000 (not zero) and the gateway returns an
    empty list of largest holders, so no holder controls more than 95% of
    the supply; the token is marked Rugged all the same. *)
Lemma lifecycle_empty_holder_list_is_rugged :
  let mintInfo := mkMint None None 1000 6 in
  mint_mintAuthority mintInfo = None
  /\ PrimFloat.eqb (Number_of_bigint (mint_supply mintInfo)) 0%float = false
  /\ sample_largestAccounts [] "Mint1111111111111111111111111111111111111111"%string tt
     = (Ok [], tt)
  /\ heap (snd (DeveloperTracker.check_token (fun _ => true) (sample_getMint 1000)
                  (sample_largestAccounts []) 0
                  (mkState tt [sample_token] [] 0%nat)))
     = [DeveloperTracker.mark_rugged sample_token]
  /\ DeveloperTracker.status (DeveloperTracker.mark_rugged sample_token)
     = DeveloperTracker.Rugged.
Proof. repeat split; vm_compute; reflexivity. Qed.

(** An instance: both mint lookups fail with an error that is not retried. *)
Lemma failed_check_marks_dead_not_rugged_witness :
  exists s' token',
    DeveloperTracker.check_token (fun _ => true) (failing_getMint "fetch failed")
      (sample_largestAccounts [900]) 0
      (mkState tt [sample_token] [] 0%nat) = (Ok tt, s')
    /\ heap s' !! 0%nat = Some token'
    /\ DeveloperTracker.status token' = DeveloperTracker.Dead
    /\ DeveloperTracker.isRugged token' = false.
Proof.
  destruct (failed_check_marks_dead_not_rugged (fun _ => true)
              (failing_getMint "fetch failed") (sample_largestAccounts [900]) 0
              (mkState tt [sample_token] [] 0%nat)
              (mkState tt [sample_token] [DeveloperTracker.requestDelay] 0%nat)
              sample_token (mkError (Some "fetch failed"%string))
              eq_refl eq_refl eq_refl)
    as (s' & token' & Hrun & Hlook & Hst & Hrug & _).
  exists s', token'. repeat split; assumption.
Defined.

(** A rate-limited gateway: three attempts per token, then Dead; neither
    token is counted as rugged and the win rate stays 100. *)
Example checkTokensLiquidity_rate_limited :
  let s' := snd (DeveloperTracker.checkTokensLiquidity (fun _ => true)
                   (failing_getMint "429 Too Many Requests")
                   (sample_largestAccounts [900])
                   (mkState tt [sample_token; sample_token] [] 0%nat)) in
  map DeveloperTracker.status (heap s')
    = [DeveloperTracker.Dead; DeveloperTracker.Dead]
  /\ map DeveloperTracker.isRugged (heap s') = [false; false]
  /\ DeveloperTracker.ruggedCount (heap s') = 0%nat
  /\ DeveloperTracker.winRate (heap s') = 100%float
  /\ timers s' = [300; 1000; 300; 2000; 300; 4000;
                  300; 1000; 300; 2000; 300; 4000]%float.
Proof. repeat split; vm_compute; reflexivity. Qed.


(** ** Deployer identification *)

Section FindDeployerProperties.
Import DeveloperTracker.
Context {W H : Type}.
Variable getMint : PublicKey -> TokenProgram -> W -> Outcome Mint * W.
Variable getSignaturesForAddress :
  PublicKey -> Z -> W -> Outcome (list ConfirmedSignatureInfo) * W.
Variable getParsedTransaction :
  string -> W -> Outcome (option ParsedTransactionWithMeta) * W.
Variable getPumpfunCreatorFromAPI : string -> W -> Outcome (option string) * W.

Local Abbreviation findDeployer :=
  (findDeployer (H := H) getMint getSignaturesForAddress getParsedTransaction
     getPumpfunCreatorFromAPI).

(** Method 1 never rejects. *)
Lemma deployer_from_mintAuthority_resolves (pk : PublicKey) (s : State W H) :
  exists r s', deployer_from_mintAuthority getMint pk s = (Ok r, s').
Proof.
  unfold deployer_from_mintAuthority, try_catch, await, getMint_any, try_catch,
    gateway, resolve.
  destruct (getMint pk TOKEN_2022_PROGRAM_ID (world s)) as [[m|e] w1]; simpl.
  - destruct (mint_mintAuthority m) as [a|]; [|eauto].
    destruct (negb (PublicKey_equals a PUMPFUN_MINT_AUTHORITY)); eauto.
  - destruct (getMint pk TOKEN_PROGRAM_ID w1) as [[m|e2] w2]; simpl; [|eauto].
    destruct (mint_mintAuthority m) as [a|]; [|eauto].
    destruct (negb (PublicKey_equals a PUMPFUN_MINT_AUTHORITY)); eauto.
Qed.

Lemma deployer_from_pumpfun_resolves (pk : PublicKey) (msg : Message) (s : State W H) :
  exists r s', deployer_from_pumpfun getPumpfunCreatorFromAPI pk msg s = (Ok r, s').
Proof.
  unfold deployer_from_pumpfun, try_catch, await, gateway, resolve.
  destruct (getPumpfunCreatorFromAPI pk (world s)) as [[c|e] w1]; simpl.
  - destruct (truthy c); eauto.
  - eauto.
Qed.

(** [findDeployer] never rejects: its outer [catch] turns every failure
    into [null]. *)
Lemma findDeployer_never_rejects (pk : PublicKey) (s : State W H) :
  exists r s', findDeployer pk s = (Ok r, s').
Proof.
  unfold DeveloperTracker.findDeployer, try_catch.
  match goal with |- context [match ?c s with _ => _ end] => destruct (c s) as [[r|e] s'] end;
    unfold resolve; eauto.
Qed.

(** A mint authority that is set and is not the Pump.fun authority is
    returned directly. *)
Lemma findDeployer_mintAuthority (pk : PublicKey) (m : Mint) (a : PublicKey)
    (s : State W H) :
  returns (getMint pk TOKEN_2022_PROGRAM_ID) m ->
  mint_mintAuthority m = Some a -> a <> PUMPFUN_MINT_AUTHORITY ->
  exists s', findDeployer pk s = (Ok (Some a), s').
Proof.
  intros Hmint Ha Hne.
  destruct (Hmint (world s)) as (w1 & Hm).
  unfold DeveloperTracker.findDeployer, try_catch, await,
    deployer_from_mintAuthority, try_catch, await, getMint_any, try_catch, gateway.
  rewrite Hm. simpl. rewrite Ha.
  unfold PublicKey_equals. apply String.eqb_neq in Hne. rewrite Hne. simpl.
  unfold resolve. eauto.
Qed.

(** A [null] result means that, after the mint-authority check, the
    creation transaction gave no deployer. *)
Lemma findDeployer_null_inv (pk : PublicKey) (s s' : State W H) :
  findDeployer pk s = (Ok None, s') ->
  no_usable_creation_transaction getSignaturesForAddress getParsedTransaction pk
    (world (snd (deployer_from_mintAuthority getMint pk s))).
Proof.
  unfold DeveloperTracker.findDeployer, try_catch, await,
    no_usable_creation_transaction.
  destruct (deployer_from_mintAuthority_resolves pk s) as (r1 & s1 & H1).
  rewrite H1. cbn [snd].
  destruct r1 as [authority|]; [unfold resolve; discriminate|].
  unfold gateway.
  destruct (getSignaturesForAddress pk 1000 (world s1)) as [[sigs|e] w2]; [|trivial].
  destruct (last sigs) as [creation|]; [|trivial].
  cbn [world heap timers calls].
  destruct (getParsedTransaction (sig_signature creation) w2) as [[[tx|]|e] w3];
    [|trivial|trivial].
  destruct (tx_transaction tx) as [msg|]; [|trivial].
  destruct (existsb isPumpfun_instruction (msg_instructions msg)).
  - match goal with
    | |- context [deployer_from_pumpfun ?api ?p ?m ?st] =>
        destruct (deployer_from_pumpfun_resolves p m st) as (r & s4 & Hp)
    end.
    rewrite Hp. destruct r as [creator|]; [unfold resolve; discriminate|].
    destruct (msg_accountKeys msg) as [|feePayer rest]; [reflexivity|].
    unfold resolve. discriminate.
  - unfold resolve at 1.
    destruct (msg_accountKeys msg) as [|feePayer rest]; [reflexivity|].
    unfold resolve. discriminate.
Qed.

(** A [null] result also means that the mint-authority check gave no
    deployer. *)
Lemma findDeployer_null_method1 (pk : PublicKey) (s s' : State W H) :
  findDeployer pk s = (Ok None, s') ->
  fst (deployer_from_mintAuthority getMint pk s) = Ok None.
Proof.
  unfold DeveloperTracker.findDeployer, try_catch, await.
  destruct (deployer_from_mintAuthority_resolves pk s) as (r1 & s1 & H1).
  rewrite H1. cbn [fst].
  destruct r1 as [authority|]; [unfold resolve; discriminate|reflexivity].
Qed.

(** C7 (as amended).  [findDeployer] never rejects, whatever the gateway
    answers.  It returns [null] only when the mint-authority check gave no
    deployer and, in the state that check left, the signature scan fails
    or returns no signature, or the transaction of the oldest returned
    signature cannot be fetched, is [null], has no transaction body or
    lists no account key.  So whenever, after the mint-authority check,
    the signature scan succeeds with at least one signature and the
    transaction of the oldest one is returned with a transaction body
    that lists at least one account key, some deployer address is
    returned, whether or not the mint-authority check succeeded. *)
Theorem findDeployer_resolves :
  forall (pk : PublicKey),
    (forall s, exists r s', findDeployer pk s = (Ok r, s'))
    /\ (forall s s',
          findDeployer pk s = (Ok None, s') ->
          fst (deployer_from_mintAuthority getMint pk s) = Ok None
          /\ no_usable_creation_transaction getSignaturesForAddress
               getParsedTransaction pk
               (world (snd (deployer_from_mintAuthority getMint pk s))))
    /\ (forall (s : State W H) (sigs : list ConfirmedSignatureInfo) (w2 : W)
               (creation : ConfirmedSignatureInfo)
               (tx : ParsedTransactionWithMeta) (w3 : W) (msg : Message),
          getSignaturesForAddress pk 1000
            (world (snd (deployer_from_mintAuthority getMint pk s)))
          = (Ok sigs, w2) ->
          last sigs = Some creation ->
          getParsedTransaction (sig_signature creation) w2 = (Ok (Some tx), w3) ->
          tx_transaction tx = Some msg ->
          msg_accountKeys msg <> [] ->
          exists deployer s', findDeployer pk s = (Ok (Some deployer), s')).
Proof.
  intros pk.
  split; [intros s; apply findDeployer_never_rejects|].
  split.
  { intros s s' Hnull.
    split; [apply (findDeployer_null_method1 pk s s' Hnull)
           |apply (findDeployer_null_inv pk s s' Hnull)]. }
  intros s sigs w2 creation tx w3 msg Hsigs Hlast Htx Hmsg Hkeys.
  destruct (findDeployer_never_rejects pk s) as (r & s' & Hrun).
  destruct r as [deployer|]; [eauto|].
  exfalso. apply Hkeys.
  pose proof (findDeployer_null_inv pk s s' Hrun) as Hno.
  unfold no_usable_creation_transaction in Hno.
  rewrite Hsigs, Hlast, Htx, Hmsg in Hno. exact Hno.
Qed.

End FindDeployerProperties.

(** An instance: one signature whose transaction the gateway returns; the
    fee payer is the deployer. *)
Lemma findDeployer_resolves_witness :
  exists deployer s',
    DeveloperTracker.findDeployer (H := unit) (sample_getMint 1000) one_signature
      transaction_available no_creator_api
      "Mint1111111111111111111111111111111111111111" (mkState tt tt [] 0%nat)
    = (Ok (Some deployer), s').
Proof.
  apply (proj2 (proj2 (findDeployer_resolves (H := unit) (sample_getMint 1000)
                         one_signature transaction_available no_creator_api
                         "Mint1111111111111111111111111111111111111111"%string))
           (mkState tt tt [] 0%nat)
           [mkSignatureInfo "5creation" (Some 1700000000)] tt
           (mkSignatureInfo "5creation" (Some 1700000000))
           sample_transaction tt
           (mkMessage
              [mkAccount "Payer111" true true; mkAccount "Mint1111" false true]
              [mkInstruction "11111111111111111111111111111111"])
           eq_refl eq_refl eq_refl eq_refl).
  discriminate.
Defined.

Example findDeployer_fee_payer :
  DeveloperTracker.findDeployer (H := unit) (sample_getMint 1000) one_signature
    transaction_available no_creator_api
    "Mint1111111111111111111111111111111111111111" (mkState tt tt [] 0%nat)
  = (Ok (Some "Payer111"%string), mkState tt tt [] 0%nat).
Proof. reflexivity. Qed.

(** C7 (counterexample to the claim as stated).  The mint-authority check
    succeeds (the authority is revoked), the signature scan succeeds and
    returns one signature, but the gateway does not return the
    transaction of that signature: [findDeployer] returns [null]. *)
Lemma findDeployer_null_despite_signature :
  sample_getMint 1000 "Mint1111111111111111111111111111111111111111"%string
    TOKEN_2022_PROGRAM_ID tt = (Ok (mkMint None None 1000 6), tt)
  /\ one_signature "Mint1111111111111111111111111111111111111111"%string 1000 tt
     = (Ok [mkSignatureInfo "5creation" (Some 1700000000)], tt)
  /\ DeveloperTracker.findDeployer (H := unit) (sample_getMint 1000) one_signature
       transaction_unavailable no_creator_api
       "Mint1111111111111111111111111111111111111111" (mkState tt tt [] 0%nat)
     = (Ok None, mkState tt tt [] 0%nat).
Proof. repeat split. Qed.


(** * Further properties *)

(** ** The risk aggregator and the audit *)

Section AuditorMore.
Import Auditor.

Lemma calculateRiskScore_level (a : AuthorityStatus) (m : MetadataInfo)
    (l : option LiquidityInfo) :
  level (calculateRiskScore a m l) =
  if 80 <=? score (calculateRiskScore a m l) then Safe
  else if 50 <=? score (calculateRiskScore a m l) then Caution
  else RugPullRisk.
Proof.
  unfold calculateRiskScore.
  destruct (isActive (mintAuthority a)), (isActive (freezeAuthority a)),
    (isMutable m); destruct l as [li|]; try destruct (riskLevel li);
    reflexivity.
Qed.

Lemma calculateRiskScore_score_total (a : AuthorityStatus) (m : MetadataInfo)
    (l : option LiquidityInfo) :
  score (calculateRiskScore a m l) = Z.max 0 (100 - total_penalty a m l).
Proof.
  rewrite calculateRiskScore_score. unfold total_penalty. f_equal. lia.
Qed.

(** The level is read off the total penalty: Safe up to 20, Caution up to
    50, Rug Pull Risk above.  In particular a token whose mint authority
    is active is never Safe, and it is Rug Pull Risk as soon as any other
    penalty applies. *)
Theorem calculateRiskScore_level_by_penalty :
  forall (a : AuthorityStatus) (m : MetadataInfo) (l : option LiquidityInfo),
    (level (calculateRiskScore a m l) = Safe <-> total_penalty a m l <= 20)
    /\ (level (calculateRiskScore a m l) = Caution <->
        20 < total_penalty a m l <= 50)
    /\ (level (calculateRiskScore a m l) = RugPullRisk <-> 50 < total_penalty a m l)
    /\ (isActive (mintAuthority a) = true ->
        level (calculateRiskScore a m l) <> Safe
        /\ (level (calculateRiskScore a m l) = RugPullRisk <->
            isActive (freezeAuthority a) = true \/ isMutable m = true
            \/ 0 < liquidity_penalty l)).
Proof.
  intros a m l.
  rewrite calculateRiskScore_level, calculateRiskScore_score_total.
  destruct (penalties_nonneg a m l) as (Hm & Hf & Hd & Hl).
  assert (Hlevel :
            ((if 80 <=? Z.max 0 (100 - total_penalty a m l) then Safe
              else if 50 <=? Z.max 0 (100 - total_penalty a m l) then Caution
              else RugPullRisk) = Safe <-> total_penalty a m l <= 20)
            /\ ((if 80 <=? Z.max 0 (100 - total_penalty a m l) then Safe
                 else if 50 <=? Z.max 0 (100 - total_penalty a m l) then Caution
                 else RugPullRisk) = Caution <-> 20 < total_penalty a m l <= 50)
            /\ ((if 80 <=? Z.max 0 (100 - total_penalty a m l) then Safe
                 else if 50 <=? Z.max 0 (100 - total_penalty a m l) then Caution
                 else RugPullRisk) = RugPullRisk <-> 50 < total_penalty a m l)).
  { destruct (Z.leb_spec 80 (Z.max 0 (100 - total_penalty a m l)));
      destruct (Z.leb_spec 50 (Z.max 0 (100 - total_penalty a m l)));
      repeat split; intros; try discriminate; try reflexivity; try lia. }
  destruct Hlevel as (HS & HC & HR).
  split; [exact HS|]. split; [exact HC|]. split; [exact HR|].
  intros Hmint.
  assert (Hp : mint_penalty a = 50) by (unfold mint_penalty; rewrite Hmint; reflexivity).
  split.
  - rewrite HS. unfold total_penalty. lia.
  - rewrite HR. unfold total_penalty. rewrite Hp.
    unfold freeze_penalty, metadata_penalty,
      Config.riskScoring.penalties.freezeAuthorityActive,
      Config.riskScoring.penalties.metadataMutable in *.
    destruct (isActive (freezeAuthority a)), (isMutable m);
      split; intros; try lia; auto;
      repeat match goal with H : _ \/ _ |- _ => destruct H end;
      try discriminate; lia.
Qed.

Lemma calculateRiskScore_warnings (a : AuthorityStatus) (m : MetadataInfo)
    (l : option LiquidityInfo) :
  warnings (calculateRiskScore a m l) =
    [ (if isActive (mintAuthority a) then warn_mint_active else warn_mint_revoked);
      (if isActive (freezeAuthority a) then warn_freeze_active else warn_freeze_revoked);
      (if isMutable m then warn_metadata_mutable else warn_metadata_immutable) ]
    ++ match l with
       | Some li => liquidity_warnings li
       | None => []
       end.
Proof.
  unfold calculateRiskScore.
  destruct (isActive (mintAuthority a)), (isActive (freezeAuthority a)),
    (isMutable m); destruct l as [li|]; try destruct (riskLevel li);
    reflexivity.
Qed.

(** One warning per check, whatever its outcome, in the order mint
    authority, freeze authority, metadata, then the warnings of the
    liquidity signal: the list is never empty and names every check. *)
Theorem calculateRiskScore_warnings_trail :
  forall (a : AuthorityStatus) (m : MetadataInfo) (l : option LiquidityInfo),
    warnings (calculateRiskScore a m l) =
      [ (if isActive (mintAuthority a) then warn_mint_active else warn_mint_revoked);
        (if isActive (freezeAuthority a) then warn_freeze_active else warn_freeze_revoked);
        (if isMutable m then warn_metadata_mutable else warn_metadata_immutable) ]
      ++ match l with
         | Some li => liquidity_warnings li
         | None => []
         end
    /\ (3 <= length (warnings (calculateRiskScore a m l)))%nat.
Proof.
  intros a m l. split; [apply calculateRiskScore_warnings|].
  rewrite calculateRiskScore_warnings, length_app. simpl. lia.
Qed.

(** A finding that is present in one input and in a second one as well,
    with a liquidity penalty at least as large, never gives the second
    input a higher score or a better level. *)
Theorem calculateRiskScore_monotone :
  forall (a a' : AuthorityStatus) (m m' : MetadataInfo)
         (l l' : option LiquidityInfo),
    (isActive (mintAuthority a) = true -> isActive (mintAuthority a') = true) ->
    (isActive (freezeAuthority a) = true -> isActive (freezeAuthority a') = true) ->
    (isMutable m = true -> isMutable m' = true) ->
    liquidity_penalty l <= liquidity_penalty l' ->
    score (calculateRiskScore a' m' l') <= score (calculateRiskScore a m l)
    /\ (level_rank (level (calculateRiskScore a m l))
        <= level_rank (level (calculateRiskScore a' m' l')))%nat.
Proof.
  intros a a' m m' l l' Hmint Hfreeze Hmeta Hliq.
  assert (Hp : total_penalty a m l <= total_penalty a' m' l').
  { unfold total_penalty, mint_penalty, freeze_penalty, metadata_penalty,
      Config.riskScoring.penalties.mintAuthorityActive,
      Config.riskScoring.penalties.freezeAuthorityActive,
      Config.riskScoring.penalties.metadataMutable.
    destruct (isActive (mintAuthority a)), (isActive (mintAuthority a'));
      try (discriminate Hmint; reflexivity);
      destruct (isActive (freezeAuthority a)), (isActive (freezeAuthority a'));
      try (discriminate Hfreeze; reflexivity);
      destruct (isMutable m), (isMutable m');
      try (discriminate Hmeta; reflexivity); lia. }
  rewrite !calculateRiskScore_level, !calculateRiskScore_score_total.
  split; [lia|].
  destruct (Z.leb_spec 80 (Z.max 0 (100 - total_penalty a m l)));
    destruct (Z.leb_spec 50 (Z.max 0 (100 - total_penalty a m l)));
    destruct (Z.leb_spec 80 (Z.max 0 (100 - total_penalty a' m' l')));
    destruct (Z.leb_spec 50 (Z.max 0 (100 - total_penalty a' m' l')));
    simpl; lia.
Qed.

(** An instance: a mutable token scores no higher once its freeze authority
    is active as well. *)
Lemma calculateRiskScore_monotone_witness :
  score (calculateRiskScore
           (mkAuthorityStatus (mkAuthority false None) (mkAuthority true None))
           (mkMetadataInfo true None None) None)
  <= score (calculateRiskScore
              (mkAuthorityStatus (mkAuthority false None) (mkAuthority false None))
              (mkMetadataInfo true None None) None).
Proof.
  apply (proj1 (calculateRiskScore_monotone
                  (mkAuthorityStatus (mkAuthority false None) (mkAuthority false None))
                  (mkAuthorityStatus (mkAuthority false None) (mkAuthority true None))
                  (mkMetadataInfo true None None) (mkMetadataInfo true None None)
                  None None
                  (fun H => H) ltac:(discriminate) (fun H => H) ltac:(reflexivity))).
Defined.

(** The badge the bot shows for the score and the badge it shows for the
    level of the same assessment always belong to the same tier, although
    the bot repeats the thresholds 80 and 50 of [config.ts]. *)
Theorem bot_badges_agree :
  forall (a : AuthorityStatus) (m : MetadataInfo) (l : option LiquidityInfo),
    let r := calculateRiskScore a m l in
    (TelegramBot.getScoreEmoji (score r) = "🛡️"%string <->
     TelegramBot.getRiskEmoji (level r) = "✅"%string)
    /\ (TelegramBot.getScoreEmoji (score r) = "🚨"%string <->
        TelegramBot.getRiskEmoji (level r) = "🚨"%string)
    /\ (TelegramBot.getScoreEmoji (score r) = "⚠️"%string <->
        TelegramBot.getRiskEmoji (level r) = "⚠️"%string).
Proof.
  intros a m l r. unfold r. rewrite calculateRiskScore_level.
  unfold TelegramBot.getScoreEmoji, TelegramBot.getRiskEmoji.
  destruct (80 <=? score (calculateRiskScore a m l));
    [|destruct (50 <=? score (calculateRiskScore a m l))];
    repeat split; intros; try reflexivity; try discriminate.
Qed.

Section AuditMore.
Context {W H : Type}.
Variable PublicKey_valid : string -> bool.
Variable getMint : PublicKey -> TokenProgram -> W -> Outcome Mint * W.
Variable fetchMetadata : PublicKey -> W -> Outcome Metadata * W.
Variable getTokenInfo : PublicKey -> Async W H TokenInfo.
Variable toISOString_now : W -> string.
Variable this_cluster : string.

Local Abbreviation auditToken :=
  (auditToken PublicKey_valid getMint fetchMetadata getTokenInfo
     toISOString_now this_cluster).

(** [checkAuthorities] asks the Token-2022 program first and the SPL Token
    program only when that fails; it reports an authority as active
    exactly when the mint account names one; it rejects only when both
    lookups fail, with the message of the second failure behind a fixed
    prefix. *)
Theorem checkAuthorities_fallback :
  forall (mint : PublicKey) (s : State W H),
    match getMint mint TOKEN_2022_PROGRAM_ID (world s) with
    | (Ok m, w1) =>
        checkAuthorities getMint mint s
        = (Ok (authority_status_of m), mkState w1 (heap s) (timers s) (calls s))
    | (Throw _, w1) =>
        match getMint mint TOKEN_PROGRAM_ID w1 with
        | (Ok m, w2) =>
            checkAuthorities getMint mint s
            = (Ok (authority_status_of m), mkState w2 (heap s) (timers s) (calls s))
        | (Throw e, w2) =>
            checkAuthorities getMint mint s
            = (Throw (mkError (Some ("Failed to check authorities: " ++
                                     match message e with
                                     | Some msg => msg
                                     | None => "{}"
                                     end)%string)),
               mkState w2 (heap s) (timers s) (calls s))
        end
    end
    /\ (forall r s', checkAuthorities getMint mint s = (Ok r, s') ->
          (isActive (mintAuthority r) = true <-> address (mintAuthority r) <> None)
          /\ (isActive (freezeAuthority r) = true <->
              address (freezeAuthority r) <> None)).
Proof.
  intros mint s.
  assert (Hflags : forall m,
             (isActive (mintAuthority (authority_status_of m)) = true <->
              address (mintAuthority (authority_status_of m)) <> None)
             /\ (isActive (freezeAuthority (authority_status_of m)) = true <->
                 address (freezeAuthority (authority_status_of m)) <> None)).
  { intros m. unfold authority_status_of. simpl.
    destruct (mint_mintAuthority m), (mint_freezeAuthority m);
      intuition congruence. }
  unfold checkAuthorities, try_catch, await, gateway, resolve, reject.
  destruct (getMint mint TOKEN_2022_PROGRAM_ID (world s)) as [[m|e1] w1]; simpl.
  - split; [reflexivity|]. intros r s' [= <- _]. apply Hflags.
  - destruct (getMint mint TOKEN_PROGRAM_ID w1) as [[m|e2] w2]; simpl.
    + split; [reflexivity|]. intros r s' [= <- _]. apply Hflags.
    + split; [reflexivity|]. intros r s'. discriminate.
Qed.

(** An address the key constructor refuses is rejected before any gateway
    call: the state is untouched, and the message is the constructor's
    behind the audit prefix, that is Non-base58 character for an address
    with a character outside the base58 alphabet and Invalid public key
    input for any other refused address. *)
Theorem auditToken_rejects_malformed_address :
  forall (tokenAddress : string) (s : State W H),
    PublicKey_valid tokenAddress = false ->
    auditToken tokenAddress s
    = (Throw (mkError (Some ("Failed to audit token: " ++
                             (if is_base58 tokenAddress
                              then "Invalid public key input"
                              else "Non-base58 character"))%string)), s).
Proof.
  intros tokenAddress s Hinvalid.
  unfold Auditor.auditToken, try_catch, await, new_PublicKey.
  rewrite Hinvalid. reflexivity.
Qed.

(** A completed audit reports [success], carries the assessment of the
    authority and metadata facts it returns, and, the liquidity analysis
    being switched off, scores between 20 and 100 with exactly three
    warnings, all of which the bot shows. *)
Theorem auditToken_result_consistent :
  forall (tokenAddress : string) (s s' : State W H) (r : AuditResult),
    auditToken tokenAddress s = (Ok r, s') ->
    success r = true
    /\ liquidityInfo r = None
    /\ riskAssessment r = calculateRiskScore (authorityStatus r) (metadataInfo r) None
    /\ 20 <= score (riskAssessment r) <= 100
    /\ length (warnings (riskAssessment r)) = 3%nat
    /\ TelegramBot.shown_warnings (riskAssessment r) = warnings (riskAssessment r).
Proof.
  intros tokenAddress s s' r.
  unfold Auditor.auditToken, try_catch, await, new_PublicKey.
  destruct (PublicKey_valid tokenAddress); [|discriminate].
  unfold resolve at 1.
  destruct (getTokenInfo tokenAddress s) as [[ti|e1] s1]; [|discriminate].
  destruct (checkAuthorities getMint tokenAddress s1) as [[au|e2] s2]; [|discriminate].
  destruct (checkMetadata_resolves fetchMetadata tokenAddress s2) as (mi & s3 & Hmd).
  rewrite Hmd. intros [= <- _]. cbn [success liquidityInfo riskAssessment
                                      authorityStatus metadataInfo].
  split; [reflexivity|]. split; [reflexivity|]. split; [reflexivity|].
  rewrite calculateRiskScore_warnings, calculateRiskScore_score_total.
  unfold TelegramBot.shown_warnings.
  rewrite calculateRiskScore_warnings.
  destruct (penalties_nonneg au mi None) as (Hm & Hf & Hd & Hl).
  assert (Hbound : total_penalty au mi None <= 80).
  { unfold total_penalty, mint_penalty, freeze_penalty, metadata_penalty,
      liquidity_penalty.
    destruct (isActive (mintAuthority au)), (isActive (freezeAuthority au)),
      (isMutable mi); cbv; discriminate. }
  unfold total_penalty in *.
  split; [lia|]. split; reflexivity.
Qed.

(** Every rejection of [auditToken] carries the audit prefix. *)
Lemma auditToken_rejection_prefix (tokenAddress : string) (s s' : State W H) (e : Error) :
  auditToken tokenAddress s = (Throw e, s') ->
  exists msg, message e = Some ("Failed to audit token: " ++ msg)%string.
Proof.
  unfold Auditor.auditToken, try_catch.
  match goal with |- context [match ?c s with _ => _ end] => destruct (c s) as [[r|e0] s0] end.
  - discriminate.
  - unfold reject. intros [= <- _]. simpl. eauto.
Qed.

End AuditMore.

(** An instance: an address with a character outside the base58
    alphabet. *)
Lemma auditToken_rejects_malformed_address_witness :
  Auditor.auditToken (H := unit) (fun _ => false) (sample_getMint 1000)
    no_metadata_gateway
    (fun mint => resolve (Auditor.mkTokenInfo "Unknown" "Unknown" 6 "0.001000" mint))
    (fun _ => "2024-01-01T00:00:00.000Z"%string) "mainnet-beta" "not-a-key"
    (mkState tt tt [] 0%nat)
  = (Throw (mkError (Some "Failed to audit token: Non-base58 character"%string)),
     mkState tt tt [] 0%nat).
Proof.
  apply (auditToken_rejects_malformed_address (fun _ => false) (sample_getMint 1000)
           no_metadata_gateway
           (fun mint => resolve (Auditor.mkTokenInfo "Unknown" "Unknown" 6 "0.001000" mint))
           (fun _ => "2024-01-01T00:00:00.000Z"%string) "mainnet-beta"%string
           "not-a-key"%string (mkState tt tt [] 0%nat) eq_refl).
Defined.

(** An instance: an audit of a mint with revoked authorities and no
    metadata account. *)
Lemma auditToken_result_consistent_witness :
  exists r,
    Auditor.success r = true /\ 20 <= Auditor.score (Auditor.riskAssessment r) <= 100.
Proof.
  eexists.
  pose proof (auditToken_result_consistent (H := unit) (fun _ => true) (sample_getMint 1000)
                no_metadata_gateway
                (fun mint => resolve (Auditor.mkTokenInfo "Unknown" "Unknown" 6 "0.001000" mint))
                (fun _ => "2024-01-01T00:00:00.000Z"%string) "mainnet-beta"%string
                "Mint1111111111111111111111111111111111111111"%string
                (mkState tt tt [] 0%nat) _ _ eq_refl) as (Hs & _ & _ & Hb & _).
  split; [exact Hs|exact Hb].
Defined.

End AuditorMore.

(** ** The deployer statistics *)

Section DeployerStatistics.
Import DeveloperTracker.

Lemma ruggedCount_le_length (tokens : list DeployedToken) :
  (ruggedCount tokens <= length tokens)%nat.
Proof. unfold ruggedCount. apply filter_length_le. Qed.

(** The risk level of a deployer, by the number of tokens found and the
    number counted as rugged: Clean exactly when nothing is rugged and the
    deployer has not exactly one token (an empty scan is Clean); Medium
    Risk exactly for the deployers of a single token, rugged or not; High
    Risk or Serial Scammer exactly when at least two tokens were found and
    at least one is rugged, Serial Scammer needing three tokens, two rugs
    and a win rate below 50. *)
Theorem deployer_riskLevel_cases :
  forall tokens : list DeployedToken,
    (deployer_riskLevel tokens = Clean <->
     ruggedCount tokens = 0%nat /\ length tokens <> 1%nat)
    /\ (deployer_riskLevel tokens = MediumRisk <-> length tokens = 1%nat)
    /\ (deployer_riskLevel tokens = HighRisk \/ deployer_riskLevel tokens = SerialScammer
        <-> (2 <= length tokens)%nat /\ (1 <= ruggedCount tokens)%nat)
    /\ (deployer_riskLevel tokens = SerialScammer ->
        (3 <= length tokens)%nat /\ (2 <= ruggedCount tokens)%nat
        /\ PrimFloat.ltb (winRate tokens) 50%float = true).
Proof.
  intros tokens.
  pose proof (ruggedCount_le_length tokens) as Hle.
  unfold deployer_riskLevel, calculateRiskLevel.
  destruct (Nat.leb_spec 3 (length tokens));
    destruct (Nat.leb_spec 2 (ruggedCount tokens));
    destruct (PrimFloat.ltb (winRate tokens) 50);
    destruct (Nat.leb_spec 2 (length tokens));
    destruct (Nat.leb_spec 1 (ruggedCount tokens));
    destruct (Nat.eqb_spec (length tokens) 1);
    destruct (Nat.eqb_spec (ruggedCount tokens) 1);
    simpl; try lia;
    repeat split; intros;
    repeat match goal with
           | H : _ /\ _ |- _ => destruct H
           | H : _ \/ _ |- _ => destruct H
           end;
    try discriminate; try reflexivity; try lia; auto.
Qed.

(** Three tokens of which two are rugged: win rate 33.3, Serial Scammer;
    four of which two are rugged: win rate exactly 50, High Risk. *)
Example deployer_riskLevel_samples :
  let rugged := mark_rugged sample_token in
  deployer_riskLevel [rugged; sample_token; rugged] = SerialScammer
  /\ deployer_riskLevel [rugged; sample_token; rugged; sample_token] = HighRisk
  /\ deployer_riskLevel [] = Clean
  /\ deployer_riskLevel [rugged] = MediumRisk.
Proof. repeat split; vm_compute; reflexivity. Qed.

End DeployerStatistics.

(** ** What the classification does to the token array *)

Section ClassificationMore.
Import DeveloperTracker.
Context {W : Type}.
Variable PublicKey_valid : string -> bool.
Variable getMint : PublicKey -> TokenProgram -> W -> Outcome Mint * W.
Variable getTokenLargestAccounts :
  PublicKey -> W -> Outcome (list TokenAccountBalance) * W.

Local Abbreviation check_callback :=
  (check_callback PublicKey_valid getMint getTokenLargestAccounts).
Local Abbreviation check_token :=
  (check_token PublicKey_valid getMint getTokenLargestAccounts).
Local Abbreviation checkTokensLiquidity :=
  (checkTokensLiquidity PublicKey_valid getMint getTokenLargestAccounts).

(** A callback that returns has made one of the three assignments of a
    completed check to [tokens[i]]. *)
Lemma check_callback_marks (i : nat) (s s' : State W Tokens) :
  check_callback i s = (Ok tt, s') ->
  exists f, classification_mark f /\ heap s' = alter f i (heap s).
Proof.
  unfold DeveloperTracker.check_callback, await, load.
  destruct (heap s !! i) as [token|]; [|discriminate].
  unfold new_PublicKey.
  destruct (PublicKey_valid (address token)); [|discriminate].
  unfold resolve at 1. rewrite sleep_slept.
  destruct (DeveloperTracker.getMint_any (H := Tokens) getMint (address token)
              (slept requestDelay s)) as [[mintInfo|e1] s1] eqn:Hmint;
    [|discriminate].
  pose proof (getMint_any_frame getMint _ _ _ _ Hmint) as (Hh & _ & _).
  simpl in Hh.
  assert (Hupd : forall f (st : State W Tokens),
             classification_mark f -> heap st = heap s ->
             update_token i f st = (Ok tt, s') ->
             exists g, classification_mark g /\ heap s' = alter g i (heap s)).
  { intros f st Hf Hst. rewrite update_token_run. intros [= <-].
    exists f. cbn [heap]. rewrite Hst. auto. }
  unfold classification_mark in Hupd.
  destruct (match mint_mintAuthority mintInfo with
            | Some authority => negb (PublicKey_equals authority PUMPFUN_MINT_AUTHORITY)
            | None => false
            end); [apply Hupd; auto|].
  destruct (PrimFloat.eqb _ _); [apply Hupd; auto|].
  rewrite sleep_slept. unfold gateway. simpl.
  destruct (getTokenLargestAccounts (address token) (world s1)) as [[largest|e2] w2];
    [|discriminate].
  destruct largest as [|top rest]; [apply Hupd; auto|].
  destruct (PrimFloat.ltb 95 _); [apply Hupd; auto|].
  destruct (PrimFloat.ltb 80 _); apply Hupd; auto.
Qed.

Lemma tracker_retry_loop_ok_heap (fn : Async W Tokens unit) (d : float)
    (Q : Tokens -> Tokens -> Prop) :
  rejects_without_mutation fn ->
  (forall s s', fn s = (Ok tt, s') -> Q (heap s) (heap s')) ->
  forall (n k : nat) (last : Error) s s',
    DeveloperTracker.retry_loop fn d n k last s = (Ok tt, s') ->
    Q (heap s) (heap s').
Proof.
  intros Hrej Hok n. induction n as [|n IH]; intros k last s s' Hrun.
  - discriminate.
  - rewrite tracker_retry_loop_S in Hrun.
    destruct (fn s) as [[[]|e1] s1] eqn:Hcall.
    + injection Hrun as <-. apply Hok. exact Hcall.
    + destruct (DeveloperTracker.isRateLimit e1); [|discriminate].
      apply IH in Hrun. simpl in Hrun.
      rewrite (Hrej s e1 s1 Hcall) in Hrun. exact Hrun.
Qed.

(** One iteration makes exactly one of the four assignments to
    [tokens[i]]. *)
Lemma check_token_marks (i : nat) (s : State W Tokens) :
  (i < length (heap s))%nat ->
  exists f s', classification_mark f
               /\ check_token i s = (Ok tt, s')
               /\ heap s' = alter f i (heap s).
Proof.
  intros Hi. unfold DeveloperTracker.check_token, try_catch.
  destruct (retryWithBackoff_default (check_callback i) s) as [[[]|e] s1] eqn:Hrun.
  - pose proof (tracker_retry_loop_ok_heap (check_callback i) 1000%float
                  (fun h h' => exists f, classification_mark f /\ h' = alter f i h)
                  (check_callback_rejects_without_mutation PublicKey_valid getMint
                     getTokenLargestAccounts i)
                  (fun s0 s0' H0 => check_callback_marks i s0 s0' H0)
                  3 0 (mkError None) s s1 Hrun) as (f & Hf & Hheap).
    exists f, s1. auto.
  - pose proof (tracker_retry_loop_heap (check_callback i) 1000%float
                  (check_callback_rejects_without_mutation PublicKey_valid getMint
                     getTokenLargestAccounts i) 3 0 (mkError None) s e s1 Hrun) as Hheap.
    rewrite update_token_run, Hheap.
    exists (mark Dead 0). eexists. split; [|split; reflexivity].
    unfold classification_mark. auto.
Qed.

Lemma check_loop_length (indices : list nat) (s : State W Tokens) :
  (forall i, In i indices -> (i < length (heap s))%nat) ->
  length (heap (snd (check_loop PublicKey_valid getMint getTokenLargestAccounts
                       indices s)))
  = length (heap s).
Proof.
  revert s. induction indices as [|i rest IH]; intros s Hin.
  - reflexivity.
  - simpl. unfold await.
    destruct (check_token_marks i s (Hin i (or_introl eq_refl)))
      as (f & s1 & _ & Hstep & Hheap).
    rewrite Hstep.
    assert (Hlen : length (heap s1) = length (heap s)).
    { rewrite Hheap. apply length_alter. }
    rewrite IH; [exact Hlen|].
    intros j Hj. rewrite Hlen. apply Hin. right. exact Hj.
Qed.

Lemma classification_mark_identity (f : DeployedToken -> DeployedToken)
    (t : DeployedToken) :
  classification_mark f -> same_identity t (f t) /\ classified (f t).
Proof.
  unfold classification_mark, same_identity, classified.
  intros [-> | [-> | [-> | ->]]]; simpl; intuition.
Qed.

(** The whole loop: it completes, keeps the length, and the token it
    leaves at an index is the token that was there with one of the four
    assignments made to it. *)
Lemma checkTokensLiquidity_marks (s : State W Tokens) :
  fst (checkTokensLiquidity s) = Ok tt
  /\ length (heap (snd (checkTokensLiquidity s))) = length (heap s)
  /\ forall i token,
       heap s !! i = Some token ->
       exists f, classification_mark f
                 /\ heap (snd (checkTokensLiquidity s)) !! i = Some (f token).
Proof.
  split.
  { unfold DeveloperTracker.checkTokensLiquidity, await, load.
    apply check_loop_frame. }
  split.
  { unfold DeveloperTracker.checkTokensLiquidity, await, load.
    apply check_loop_length. intros i Hi. apply in_seq in Hi. lia. }
  intros i token Htok.
  destruct (checkTokensLiquidity_each_token PublicKey_valid getMint
              getTokenLargestAccounts s i token Htok)
    as (_ & s_i & s_i' & Hi & Hstep & Hfinal).
  destruct (check_token_marks i s_i) as (f & s1 & Hf & Hstep' & Hheap).
  { apply lookup_lt_Some in Hi. exact Hi. }
  rewrite Hstep in Hstep'. injection Hstep' as <-.
  exists f. split; [exact Hf|].
  rewrite Hfinal, Hheap, list_lookup_alter_eq, Hi. reflexivity.
Qed.

(** [checkTokensLiquidity] always completes.  It keeps the length and the
    order of the array and, of every token, the address, signature,
    timestamp, name, symbol and age; it leaves each token in one of the
    combinations Rugged / flagged / liquidity 0, Dead / liquidity 1 or 0,
    Active / liquidity 10. *)
Theorem checkTokensLiquidity_keeps_identity :
  forall (s : State W Tokens),
    let final := heap (snd (checkTokensLiquidity s)) in
    fst (checkTokensLiquidity s) = Ok tt
    /\ length final = length (heap s)
    /\ forall i token,
         heap s !! i = Some token ->
         exists token', final !! i = Some token'
                        /\ same_identity token token' /\ classified token'.
Proof.
  intros s final.
  destruct (checkTokensLiquidity_marks s) as (Hok & Hlen & Hmarks).
  split; [exact Hok|]. split; [exact Hlen|].
  intros i token Htok.
  destruct (Hmarks i token Htok) as (f & Hf & Hfinal).
  exists (f token).
  destruct (classification_mark_identity f token Hf) as (Hid & Hcl).
  auto.
Qed.

Lemma counts_partition (tokens : list DeployedToken) :
  (forall t, In t tokens -> isRugged t = true -> status t = Rugged) ->
  (ruggedCount tokens + activeCount tokens + deadCount tokens = length tokens)%nat.
Proof.
  unfold ruggedCount, activeCount, deadCount, counts_as_rugged.
  induction tokens as [|t tokens IH]; intros Hall; [reflexivity|].
  simpl.
  assert (IH' := IH (fun t' Hin => Hall t' (or_intror Hin))).
  pose proof (Hall t (or_introl eq_refl)) as Ht.
  destruct (isRugged t), (status t); simpl in *;
    try (specialize (Ht eq_refl); discriminate); lia.
Qed.

(** For tokens that enter the classification unflagged, as the scanner
    creates them: afterwards a token is flagged [isRugged] exactly when
    its status is Rugged, so the rugged, active and dead counts of
    [analyzeDeployer] add up to the number of tokens. *)
Theorem classified_counts_add_up :
  forall (s : State W Tokens),
    (forall t, In t (heap s) -> isRugged t = false) ->
    let final := heap (snd (checkTokensLiquidity s)) in
    (forall t, In t final -> (isRugged t = true <-> status t = Rugged))
    /\ (ruggedCount final + activeCount final + deadCount final
        = length (heap s))%nat.
Proof.
  intros s Hfresh final.
  destruct (checkTokensLiquidity_marks s) as (_ & Hlen & Hmarks).
  fold final in Hlen.
  assert (Hcoh : forall t, In t final -> (isRugged t = true <-> status t = Rugged)).
  { intros t Hin.
    apply list_elem_of_In, list_elem_of_lookup in Hin as (i & Hi).
    assert (Hlt : (i < length (heap s))%nat).
    { rewrite <- Hlen. apply lookup_lt_Some in Hi. exact Hi. }
    apply lookup_lt_is_Some in Hlt as (token & Htok).
    destruct (Hmarks i token Htok) as (f & Hf & Hfinal).
    fold final in Hfinal. rewrite Hi in Hfinal. injection Hfinal as ->.
    assert (Hr : isRugged token = false).
    { apply Hfresh, list_elem_of_In, list_elem_of_lookup. eauto. }
    destruct Hf as [-> | [-> | [-> | ->]]]; simpl; rewrite ?Hr;
      intuition discriminate. }
  split; [exact Hcoh|].
  rewrite <- Hlen. apply counts_partition.
  intros t Hin. apply Hcoh. exact Hin.
Qed.

End ClassificationMore.

(** An instance: two discovered tokens, a gateway that is rate limited. *)
Lemma classified_counts_add_up_witness :
  let final := heap (snd (DeveloperTracker.checkTokensLiquidity (fun _ => true)
                            (failing_getMint "429 Too Many Requests")
                            (sample_largestAccounts [900])
                            (mkState tt [sample_token; sample_token] [] 0%nat))) in
  (DeveloperTracker.ruggedCount final + DeveloperTracker.activeCount final
   + DeveloperTracker.deadCount final = 2)%nat.
Proof.
  apply (fun H => proj2 (classified_counts_add_up (fun _ => true)
                  (failing_getMint "429 Too Many Requests")
                  (sample_largestAccounts [900])
                  (mkState tt [sample_token; sample_token] [] 0%nat) H)).
  intros t [<- | [<- | []]]; reflexivity.
Defined.


(** An instance: a token whose check is rate limited keeps its identity
    and ends Dead. *)
Lemma checkTokensLiquidity_keeps_identity_witness :
  exists token',
    heap (snd (DeveloperTracker.checkTokensLiquidity (fun _ => true)
                 (failing_getMint "429 Too Many Requests")
                 (sample_largestAccounts [900])
                 (mkState tt [sample_token] [] 0%nat))) !! 0%nat = Some token'
    /\ same_identity sample_token token' /\ classified token'.
Proof.
  apply (proj2 (proj2 (checkTokensLiquidity_keeps_identity (fun _ => true)
                         (failing_getMint "429 Too Many Requests")
                         (sample_largestAccounts [900])
                         (mkState tt [sample_token] [] 0%nat)))
           0%nat sample_token eq_refl).
Defined.
(** ** Further properties of the deployer identification *)

Section FindDeployerMore.
Import DeveloperTracker.
Context {W H : Type}.
Variable getMint : PublicKey -> TokenProgram -> W -> Outcome Mint * W.
Variable getSignaturesForAddress :
  PublicKey -> Z -> W -> Outcome (list ConfirmedSignatureInfo) * W.
Variable getParsedTransaction :
  string -> W -> Outcome (option ParsedTransactionWithMeta) * W.
Variable getPumpfunCreatorFromAPI : string -> W -> Outcome (option string) * W.

Local Abbreviation findDeployer :=
  (findDeployer (H := H) getMint getSignaturesForAddress getParsedTransaction
     getPumpfunCreatorFromAPI).

(** A mint authority that is set and is not the Pump.fun authority is the
    deployer, under either token program, and [findDeployer] stops there:
    the state it ends in is the one the mint lookup left, so no signature
    scan, transaction fetch or creator lookup is made. *)
Theorem findDeployer_prefers_mintAuthority :
  forall (pk : PublicKey) (m : Mint) (a : PublicKey) (s s1 : State W H),
    getMint_any getMint pk s = (Ok m, s1) ->
    mint_mintAuthority m = Some a ->
    a <> PUMPFUN_MINT_AUTHORITY ->
    findDeployer pk s = (Ok (Some a), s1).
Proof.
  intros pk m a s s1 Hmint Ha Hne.
  unfold DeveloperTracker.findDeployer, deployer_from_mintAuthority.
  unfold try_catch at 1. unfold await at 1. unfold try_catch at 1.
  unfold await at 1. rewrite Hmint, Ha.
  unfold PublicKey_equals. apply String.eqb_neq in Hne. rewrite Hne.
  reflexivity.
Qed.

(** When the mint-authority check gives nothing and the oldest scanned
    transaction is returned with its account keys: without a Pump.fun
    instruction the fee payer is the deployer and the creator lookup is
    not called; with one, a non-empty creator from the lookup comes first,
    then the first signer of the transaction, then the fee payer, whether
    the lookup failed or returned nothing. *)
Theorem findDeployer_creation_transaction :
  forall (pk : PublicKey) (s s1 : State W H)
         (sigs : list ConfirmedSignatureInfo) (w2 : W)
         (creation : ConfirmedSignatureInfo) (tx : ParsedTransactionWithMeta)
         (w3 : W) (msg : Message) (feePayer : ParsedMessageAccount)
         (rest : list ParsedMessageAccount),
    deployer_from_mintAuthority getMint pk s = (Ok None, s1) ->
    getSignaturesForAddress pk 1000 (world s1) = (Ok sigs, w2) ->
    last sigs = Some creation ->
    getParsedTransaction (sig_signature creation) w2 = (Ok (Some tx), w3) ->
    tx_transaction tx = Some msg ->
    msg_accountKeys msg = feePayer :: rest ->
    let after := fun w => mkState w (heap s1) (timers s1) (calls s1) in
    let signer_or_payer :=
      match List.find acc_signer (feePayer :: rest) with
      | Some account => acc_pubkey account
      | None => acc_pubkey feePayer
      end in
    (existsb isPumpfun_instruction (msg_instructions msg) = false ->
     findDeployer pk s = (Ok (Some (acc_pubkey feePayer)), after w3))
    /\ (existsb isPumpfun_instruction (msg_instructions msg) = true ->
        forall r w4,
          getPumpfunCreatorFromAPI pk w3 = (r, w4) ->
          findDeployer pk s
          = (Ok (Some match r with
                      | Ok apiCreator =>
                          match truthy apiCreator with
                          | Some creator => creator
                          | None => signer_or_payer
                          end
                      | Throw _ => signer_or_payer
                      end), after w4)).
Proof.
  intros pk s s1 sigs w2 creation tx w3 msg feePayer rest
    H1 Hsigs Hlast Htx Hmsg Hkeys after signer_or_payer.
  assert (Hrun : forall k : Message -> Async W H (option string),
            (let* signatures := gateway (getSignaturesForAddress pk 1000) in
             match last signatures with
             | None => resolve None
             | Some creationSignature =>
                 let* tx := gateway (getParsedTransaction
                                       (sig_signature creationSignature)) in
                 match tx with
                 | None => resolve None
                 | Some tx =>
                     match tx_transaction tx with
                     | None => resolve None
                     | Some message => k message
                     end
                 end
             end) s1 = k msg (after w3)).
  { intros k. unfold await, gateway. rewrite Hsigs, Hlast.
    cbn [world heap timers calls]. rewrite Htx, Hmsg. reflexivity. }
  unfold DeveloperTracker.findDeployer.
  split.
  - intros Hpump.
    unfold try_catch at 1. unfold await at 1. rewrite H1, Hrun, Hpump.
    unfold await, resolve. rewrite Hkeys. reflexivity.
  - intros Hpump r w4 Hapi.
    unfold try_catch at 1. unfold await at 1. rewrite H1, Hrun, Hpump.
    unfold deployer_from_pumpfun, await, try_catch, gateway.
    subst after. cbn [world heap timers calls].
    rewrite Hapi, Hkeys.
    subst signer_or_payer.
    destruct r as [apiCreator|e]; unfold resolve; simpl.
    + destruct (truthy apiCreator); simpl;
        [reflexivity
        | destruct (acc_signer feePayer); simpl;
          [reflexivity | destruct (List.find acc_signer rest); reflexivity]].
    + destruct (acc_signer feePayer); simpl;
        [reflexivity | destruct (List.find acc_signer rest); reflexivity].
Qed.

End FindDeployerMore.

(** An instance: the mint still has its own authority. *)
Lemma findDeployer_prefers_mintAuthority_witness :
  DeveloperTracker.findDeployer (H := unit) own_authority_getMint one_signature
    transaction_available no_creator_api
    "Mint1111111111111111111111111111111111111111" (mkState tt tt [] 0%nat)
  = (Ok (Some "Dev11111"%string), mkState tt tt [] 0%nat).
Proof.
  apply (findDeployer_prefers_mintAuthority own_authority_getMint one_signature
           transaction_available no_creator_api
           "Mint1111111111111111111111111111111111111111"%string
           (mkMint (Some "Dev11111"%string) None 1000 6) "Dev11111"%string
           (mkState tt tt [] 0%nat) (mkState tt tt [] 0%nat)
           eq_refl eq_refl).
  discriminate.
Defined.

(** An instance: a Pump.fun creation whose creator the lookup knows. *)
Lemma findDeployer_creation_transaction_witness :
  DeveloperTracker.findDeployer (H := unit) (sample_getMint 1000) one_signature
    pumpfun_transaction_available (creator_api "Creator1")
    "Mint1111111111111111111111111111111111111111" (mkState tt tt [] 0%nat)
  = (Ok (Some "Creator1"%string), mkState tt tt [] 0%nat).
Proof.
  apply (proj2 (findDeployer_creation_transaction (sample_getMint 1000) one_signature
                  pumpfun_transaction_available (creator_api "Creator1")
                  "Mint1111111111111111111111111111111111111111"%string
                  (mkState tt tt [] 0%nat) (mkState tt tt [] 0%nat)
                  [mkSignatureInfo "5creation" (Some 1700000000)] tt
                  (mkSignatureInfo "5creation" (Some 1700000000))
                  pumpfun_transaction tt
                  (mkMessage
                     [mkAccount "Payer111" false true; mkAccount "Signer11" true true]
                     [mkInstruction "6EF8rrecthR5Dkzon8Nwu78hRvfCKubJ14M5uBEwF6P"])
                  (mkAccount "Payer111" false true)
                  [mkAccount "Signer11" true true]
                  eq_refl eq_refl eq_refl eq_refl eq_refl eq_refl)
           eq_refl (Ok (Some "Creator1"%string)) tt eq_refl).
Defined.
(** ** Further properties of the cluster analysis *)

Section FloatOrderMore.

Lemma SFleb_SFltb_trans (x y z : spec_float) :
  SFleb x y = true -> SFltb y z = true -> SFltb x z = true.
Proof.
  unfold SFltb, SFleb.
  destruct x as [sx|sx| |sx mx ex], y as [sy|sy| |sy my ey], z as [sz|sz| |sz mz ez];
    simpl; try discriminate; try reflexivity;
    repeat match goal with s : bool |- _ => destruct s end;
    simpl; try discriminate; try reflexivity;
    change (Pos.compare_cont Eq) with Pos.compare;
    intros Hxy Hyz;
    repeat match goal with
           | |- context [(?a ?= ?b)%Z] => destruct (Z.compare_spec a b)
           | H : context [(?a ?= ?b)%Z] |- _ => destruct (Z.compare_spec a b)
           | |- context [(?a ?= ?b)%positive] => destruct (Pos.compare_spec a b)
           | H : context [(?a ?= ?b)%positive] |- _ => destruct (Pos.compare_spec a b)
           end; simpl in *;
    try discriminate; try reflexivity; try lia.
Qed.

Lemma float_leb_ltb_trans (x y z : float) :
  PrimFloat.leb x y = true -> PrimFloat.ltb y z = true -> PrimFloat.ltb x z = true.
Proof.
  rewrite !FloatAxioms.ltb_spec, FloatAxioms.leb_spec.
  apply SFleb_SFltb_trans.
Qed.

End FloatOrderMore.

Section ClusterMore.
Import ClusterAnalysis.
Variable fundingSources : gmap string FundingSource.

Lemma aggregates_new_cluster (f : FundingSource) :
  aggregates_consistent (new_cluster f).
Proof. repeat split. Qed.

Lemma aggregates_push_holder (c : ClusterInfo) (h : HolderInfo) (f : FundingSource) :
  aggregates_consistent c -> aggregates_consistent (push_holder c h f).
Proof.
  intros (Hn & Hb & Hp). unfold aggregates_consistent, push_holder,
    sum_balances, sum_percentages; simpl.
  rewrite !fold_left_app, length_app; simpl.
  fold (sum_balances (holders c)). fold (sum_percentages (holders c)).
  rewrite <- Hb, <- Hp, Hn. repeat split. lia.
Qed.

Lemma group_loop_aggregates (hs : list HolderInfo) :
  forall k c, JSMap.get k (group_loop fundingSources hs) = Some c ->
              aggregates_consistent c.
Proof.
  induction hs as [|h hs IH] using rev_ind; [discriminate|].
  unfold group_loop in *. rewrite fold_left_app. simpl.
  set (m := fold_left (group_step fundingSources) hs JSMap.empty) in *.
  intros k c.
  destruct (fundingSources !! address h) as [f|] eqn:Hf.
  - rewrite (group_step_resolved fundingSources m h f Hf).
    destruct (String.eqb (fs_funder f) k) eqn:E.
    + apply String.eqb_eq in E. subst k. rewrite JSMap_get_set_eq.
      intros [= <-]. apply aggregates_push_holder.
      destruct (JSMap.get (fs_funder f) m) as [c0|] eqn:Hget; simpl.
      * apply (IH _ _ Hget).
      * apply aggregates_new_cluster.
    + apply String.eqb_neq in E. rewrite JSMap_get_set_ne by exact E.
      apply IH.
  - rewrite (group_step_unresolved fundingSources m h Hf). apply IH.
Qed.

Lemma groupHoldersByFunder_get (hs : list HolderInfo) (totalSupply : Z)
    (c : ClusterInfo) :
  In c (groupHoldersByFunder hs fundingSources totalSupply) ->
  JSMap.get (funder c) (group_loop fundingSources hs) = Some c.
Proof.
  intros Hc.
  apply (group_inv_value fundingSources hs); [apply group_loop_inv|].
  apply (Permutation_in _ (groupHoldersByFunder_Permutation fundingSources hs totalSupply)).
  exact Hc.
Qed.

(** Every cluster [groupHoldersByFunder] returns describes its own member
    list: [holderCount] is the number of members (at least one),
    [totalBalance] the sum of their balances and [totalPercentage] the sum
    of their percentages, added in the order of the holder list. *)
Theorem groupHoldersByFunder_aggregates :
  forall (hs : list HolderInfo) (totalSupply : Z) (c : ClusterInfo),
    In c (groupHoldersByFunder hs fundingSources totalSupply) ->
    holderCount c = length (members_funded_by fundingSources (funder c) hs)
    /\ (1 <= holderCount c)%nat
    /\ totalBalance c
       = sum_balances (members_funded_by fundingSources (funder c) hs)
    /\ totalPercentage c
       = sum_percentages (members_funded_by fundingSources (funder c) hs).
Proof.
  intros hs totalSupply c Hc.
  pose proof (groupHoldersByFunder_get hs totalSupply c Hc) as Hget.
  destruct (group_loop_aggregates hs _ _ Hget) as (Hn & Hb & Hp).
  destruct (group_loop_inv fundingSources hs) as (_ & Hinv & _ & _).
  destruct (Hinv _ _ Hget) as (_ & Hh & Hne & _).
  rewrite <- Hh. split; [exact Hn|]. split; [|split; assumption].
  rewrite Hn. destruct (holders c); [contradiction|simpl; lia].
Qed.

(** The analysis reports a level above Low only for a reason: when the
    funding sources carry the allowlist lookups of their funders, a level
    other than Low means that some cluster is funded by a wallet outside
    both allowlists, holds at least two of the listed holders and controls
    more than 10 percent.  In particular holders funded by listed
    exchanges only leave the level at Low. *)
Theorem analysis_riskLevel_sound :
  forall (hs : list HolderInfo) (totalSupply : Z),
    (forall a f, fundingSources !! a = Some f -> source_flags_from_allowlists f) ->
    (analysis_riskLevel hs fundingSources totalSupply <> Low ->
     exists c, In c (groupHoldersByFunder hs fundingSources totalSupply)
               /\ (funder c ∉ CEX_WALLETS) /\ (funder c ∉ MIXER_WALLETS)
               /\ (2 <= length (members_funded_by fundingSources (funder c) hs))%nat
               /\ PrimFloat.ltb 10%float (totalPercentage c) = true)
    /\ ((forall a f, fundingSources !! a = Some f -> fs_funder f ∈ CEX_WALLETS) ->
        analysis_riskLevel hs fundingSources totalSupply = Low).
Proof.
  intros hs totalSupply Hsrc.
  assert (Hsound :
    analysis_riskLevel hs fundingSources totalSupply <> Low ->
    exists c, In c (groupHoldersByFunder hs fundingSources totalSupply)
              /\ (funder c ∉ CEX_WALLETS) /\ (funder c ∉ MIXER_WALLETS)
              /\ (2 <= length (members_funded_by fundingSources (funder c) hs))%nat
              /\ PrimFloat.ltb 10%float (totalPercentage c) = true).
  { unfold analysis_riskLevel.
    set (clusters := groupHoldersByFunder hs fundingSources totalSupply).
    destruct (identifySuspiciousClusters clusters) as [|c rest] eqn:Hs;
      [intros Hn; contradiction Hn; reflexivity|].
    intros Hlevel.
    assert (Hin : In c (identifySuspiciousClusters clusters))
      by (rewrite Hs; left; reflexivity).
    unfold identifySuspiciousClusters in Hin.
    apply List.filter_In in Hin as [Hc Hsus].
    apply is_suspicious_spec in Hsus as (Hcount & Hcex & Hmix & _).
    destruct (groupHoldersByFunder_flags fundingSources hs totalSupply Hsrc c Hc)
      as [Hfc Hfm].
    rewrite Hfc in Hcex. rewrite Hfm in Hmix.
    exists c. split; [exact Hc|].
    split; [apply isCEXWallet_spec; exact Hcex|].
    split; [apply isMixerWallet_spec; exact Hmix|].
    pose proof (groupHoldersByFunder_get hs totalSupply c Hc) as Hget.
    destruct (group_loop_aggregates hs _ _ Hget) as (Hn & _ & _).
    destruct (group_loop_inv fundingSources hs) as (_ & Hinv & _ & _).
    destruct (Hinv _ _ Hget) as (_ & Hh & _).
    split; [rewrite <- Hh, <- Hn; exact Hcount|].
    rewrite calculateRiskLevel_cons in Hlevel.
    destruct (PrimFloat.ltb 30 (totalPercentage c)) eqn:H30;
      [apply (float_leb_ltb_trans 10 30); [reflexivity|exact H30]|].
    destruct (PrimFloat.ltb 20 (totalPercentage c)) eqn:H20;
      [apply (float_leb_ltb_trans 10 20); [reflexivity|exact H20]|].
    destruct (PrimFloat.ltb 10 (totalPercentage c)) eqn:H10; [reflexivity|].
    contradiction Hlevel; reflexivity. }
  split; [exact Hsound|].
  intros Hall.
  destruct (analysis_riskLevel hs fundingSources totalSupply) eqn:Hlevel;
    [reflexivity| | |];
    (destruct Hsound as (c & Hc & Hcex & _); [discriminate|];
     exfalso; apply Hcex;
     pose proof (groupHoldersByFunder_get hs totalSupply c Hc) as Hget;
     destruct (group_loop_inv fundingSources hs) as (_ & Hinv & _ & _);
     destruct (Hinv _ _ Hget) as (_ & _ & _ & _ & a & f & Hf & Hfun & _);
     rewrite <- Hfun; apply (Hall a f Hf)).
Qed.

End ClusterMore.

(** An instance: two holders funded by one unlisted wallet control 30
    percent. *)
Lemma analysis_riskLevel_sound_witness :
  exists c,
    In c (ClusterAnalysis.groupHoldersByFunder sample_holders
            sample_fundingSources 1000)
    /\ (ClusterAnalysis.funder c ∉ ClusterAnalysis.CEX_WALLETS)
    /\ (ClusterAnalysis.funder c ∉ ClusterAnalysis.MIXER_WALLETS)
    /\ (2 <= length (members_funded_by sample_fundingSources
                       (ClusterAnalysis.funder c) sample_holders))%nat
    /\ PrimFloat.ltb 10%float (ClusterAnalysis.totalPercentage c) = true.
Proof.
  apply (fun Hsrc => proj1 (analysis_riskLevel_sound sample_fundingSources
                             sample_holders 1000 Hsrc)).
  - intros a f Hf. unfold sample_fundingSources in Hf.
    repeat (apply lookup_insert_Some in Hf as [[_ <-] | [_ Hf]];
            [split; reflexivity|]).
    rewrite lookup_empty in Hf. discriminate.
  - vm_compute. discriminate.
Defined.

(** An instance: the first cluster of the sample holder list. *)
Lemma groupHoldersByFunder_aggregates_witness :
  let c := hd (sample_cluster "none" 0 0%float false)
              (ClusterAnalysis.groupHoldersByFunder sample_holders
                 sample_fundingSources 1000) in
  ClusterAnalysis.holderCount c = 2%nat
  /\ ClusterAnalysis.totalBalance c = 200
  /\ ClusterAnalysis.totalPercentage c = 30%float.
Proof.
  intros c.
  destruct (groupHoldersByFunder_aggregates sample_fundingSources sample_holders
              1000 c) as (Hn & _ & Hb & Hp).
  - subst c. vm_compute. left. reflexivity.
  - rewrite Hn, Hb, Hp. subst c. vm_compute. repeat split.
Defined.
(** ** The funding-source scan *)

Section FundingScan.
Import ClusterAnalysis ClusterScan.

(** Once a non-empty funder is recorded the loop keeps it. *)
Lemma balance_loop_keeps_funder (walletAddress : string) (meta : TransactionMeta)
    (accountKeys : list ParsedMessageAccount) :
  forall (i : nat) (funder : option string) (fundAmount : float),
    is_falsy funder = false ->
    fst (balance_loop walletAddress meta accountKeys i funder fundAmount) = funder.
Proof.
  induction accountKeys as [|key rest IH]; intros i funder fundAmount Hf; simpl;
    [reflexivity|].
  rewrite Hf, andb_false_r. apply IH. exact Hf.
Qed.

(** The loop records the first account with a non-empty key that sent
    funds. *)
Lemma balance_loop_first_sender (walletAddress : string) (meta : TransactionMeta)
    (accountKeys : list ParsedMessageAccount) :
  forall (n i : nat) (key : ParsedMessageAccount) (funder : option string)
         (fundAmount : float),
    accountKeys !! n = Some key ->
    sent_funds walletAddress meta (i + n) key = true ->
    acc_pubkey key <> ""%string ->
    is_falsy funder = true ->
    (forall j key', (j < n)%nat -> accountKeys !! j = Some key' ->
                    sent_funds walletAddress meta (i + j) key' = true ->
                    acc_pubkey key' = ""%string) ->
    fst (balance_loop walletAddress meta accountKeys i funder fundAmount)
    = Some (acc_pubkey key).
Proof.
  induction accountKeys as [|k rest IH];
    intros n i key funder fundAmount Hkey Hsent Hne Hfalsy Hfirst;
    [discriminate|].
  destruct n as [|n]; simpl in Hkey.
  - injection Hkey as ->. simpl. rewrite Nat.add_0_r in Hsent.
    rewrite Hsent, Hfalsy. simpl.
    apply balance_loop_keeps_funder. simpl.
    apply String.eqb_neq. exact Hne.
  - simpl. apply (IH n (S i) key).
    + exact Hkey.
    + rewrite Nat.add_succ_comm. exact Hsent.
    + exact Hne.
    + destruct (sent_funds walletAddress meta i k) eqn:Hk; simpl; [|exact Hfalsy].
      rewrite Hfalsy. simpl. apply String.eqb_eq.
      apply (Hfirst 0%nat k); [lia|reflexivity|].
      rewrite Nat.add_0_r. exact Hk.
    + intros j key' Hj Hkey' Hsent'. apply (Hfirst (S j) key'); [lia|exact Hkey'|].
      rewrite <- Nat.add_succ_comm. exact Hsent'.
Qed.

(** Without such an account the loop ends with no usable funder. *)
Lemma balance_loop_no_sender (walletAddress : string) (meta : TransactionMeta)
    (accountKeys : list ParsedMessageAccount) :
  forall (i : nat) (funder : option string) (fundAmount : float),
    is_falsy funder = true ->
    (forall j key', accountKeys !! j = Some key' ->
                    sent_funds walletAddress meta (i + j) key' = true ->
                    acc_pubkey key' = ""%string) ->
    is_falsy (fst (balance_loop walletAddress meta accountKeys i funder fundAmount))
    = true.
Proof.
  induction accountKeys as [|k rest IH]; intros i funder fundAmount Hfalsy Hnone;
    simpl; [exact Hfalsy|].
  apply IH.
  - destruct (sent_funds walletAddress meta i k) eqn:Hk; simpl; [|exact Hfalsy].
    rewrite Hfalsy. simpl. apply String.eqb_eq.
    apply (Hnone 0%nat k); [reflexivity|]. rewrite Nat.add_0_r. exact Hk.
  - intros j key' Hkey' Hsent'. apply (Hnone (S j) key'); [exact Hkey'|].
    rewrite <- Nat.add_succ_comm. exact Hsent'.
Qed.

Lemma funding_of_transaction_flags (walletAddress : string)
    (oldestSig : ConfirmedSignatureInfo) (tx : ScannedTransaction)
    (meta : TransactionMeta) (f : FundingSource) :
  funding_of_transaction walletAddress oldestSig tx meta = Some f ->
  source_flags_from_allowlists f
  /\ fs_funder f <> ""%string
  /\ fs_signature f = sig_signature oldestSig.
Proof.
  unfold funding_of_transaction.
  destruct (identify_funder walletAddress tx meta) as [[funder|] fundAmount];
    [|discriminate].
  simpl. destruct (String.eqb funder "") eqn:E; [discriminate|].
  intros [= <-]. apply String.eqb_neq in E.
  repeat split; auto.
Qed.


Section Scan.
Context {W H : Type}.
Variable Math_random : W -> float * W.
Variable PublicKey_valid : string -> bool.
Variable getSignaturesForAddress :
  PublicKey -> Z -> option string -> W -> Outcome (list ConfirmedSignatureInfo) * W.
Variable getParsedTransaction :
  string -> W -> Outcome (option ScannedTransaction) * W.

Local Abbreviation findFundingSource :=
  (findFundingSource (H := H) Math_random PublicKey_valid getSignaturesForAddress
     getParsedTransaction).

(** A funding source is returned only from the oldest scanned
    transaction. *)
Lemma findFundingSource_Some_inv (walletAddress : string) (s s' : State W H)
    (f : FundingSource) :
  findFundingSource walletAddress s = (Ok (Some f), s') ->
  exists oldestSig tx meta,
    stx_meta tx = Some meta
    /\ funding_of_transaction walletAddress oldestSig tx meta = Some f.
Proof.
  unfold ClusterScan.findFundingSource, try_catch, await.
  destruct (DeveloperTracker.new_PublicKey PublicKey_valid walletAddress s)
    as [[pubkey|e] s1]; [|unfold resolve; discriminate].
  destruct (signature_batches Math_random getSignaturesForAddress pubkey 3 [] None s1)
    as [[allSignatures|e] s2]; [|unfold resolve; discriminate].
  destruct (last allSignatures) as [oldestSig|]; [|unfold resolve; discriminate].
  destruct (retryWithBackoff_default Math_random
              (gateway (getParsedTransaction (sig_signature oldestSig))) s2)
    as [[[tx|]|e] s3]; [|unfold resolve; discriminate|unfold resolve; discriminate].
  destruct (stx_meta tx) as [meta|] eqn:Hmeta; [|unfold resolve; discriminate].
  unfold resolve. intros [= Hf _]. eauto.
Qed.

(** [findFundingSource] never rejects.  A funding source it returns
    carries the allowlist lookups of its funder, a non-empty funder and
    the signature of a scanned transaction; for an address that is not a
    public key it returns [null] without any gateway call. *)
Theorem findFundingSource_sources :
  forall (walletAddress : string) (s : State W H),
    (exists r s', findFundingSource walletAddress s = (Ok r, s'))
    /\ (forall f s',
           findFundingSource walletAddress s = (Ok (Some f), s') ->
           fs_isCEX f = isCEXWallet (fs_funder f)
           /\ fs_isMixer f = isMixerWallet (fs_funder f)
           /\ fs_funder f <> ""%string)
    /\ (PublicKey_valid walletAddress = false ->
        findFundingSource walletAddress s = (Ok None, s)).
Proof.
  intros walletAddress s. split; [|split].
  - unfold ClusterScan.findFundingSource, try_catch.
    match goal with
    | |- context [match ?c s with _ => _ end] => destruct (c s) as [[r|e] s']
    end; unfold resolve; eauto.
  - intros f s' Hrun.
    destruct (findFundingSource_Some_inv walletAddress s s' f Hrun)
      as (oldestSig & tx & meta & _ & Hf).
    destruct (funding_of_transaction_flags _ _ _ _ _ Hf) as ([Hc Hm] & Hne & _).
    auto.
  - intros Hinvalid.
    unfold ClusterScan.findFundingSource, try_catch, await,
      DeveloperTracker.new_PublicKey.
    rewrite Hinvalid. reflexivity.
Qed.

(** Steps 2 to 4 of [analyzeHolderClusters]: whatever the order in which
    the scans complete, when every entry of the funding map is a result of
    [findFundingSource] for its holder, no cluster reported as suspicious
    is funded by a listed exchange or mixer; each has a non-empty funder
    and at least two of the listed holders as members. *)
Theorem suspicious_clusters_not_exchange_funded :
  forall (hs : list HolderInfo) (fundingSources : gmap string FundingSource)
         (totalSupply : Z) (c : ClusterInfo),
    (forall a f, fundingSources !! a = Some f ->
                 exists s s', findFundingSource a s = (Ok (Some f), s')) ->
    In c (identifySuspiciousClusters
            (groupHoldersByFunder hs fundingSources totalSupply)) ->
    (funder c ∉ CEX_WALLETS) /\ (funder c ∉ MIXER_WALLETS)
    /\ funder c <> ""%string
    /\ (2 <= length (members_funded_by fundingSources (funder c) hs))%nat.
Proof.
  intros hs fundingSources totalSupply c Hscan Hin.
  assert (Hsrc : forall a f, fundingSources !! a = Some f ->
                             source_flags_from_allowlists f /\ fs_funder f <> ""%string).
  { intros a f Hf. destruct (Hscan a f Hf) as (s & s' & Hrun).
    destruct (findFundingSource_Some_inv a s s' f Hrun)
      as (oldestSig & tx & meta & _ & Hft).
    destruct (funding_of_transaction_flags _ _ _ _ _ Hft) as (Hfl & Hne & _).
    auto. }
  unfold identifySuspiciousClusters in Hin.
  apply List.filter_In in Hin as [Hc Hsus].
  apply is_suspicious_spec in Hsus as (Hcount & Hcex & Hmix & _).
  destruct (groupHoldersByFunder_flags fundingSources hs totalSupply
              (fun a f Hf => proj1 (Hsrc a f Hf)) c Hc) as [Hfc Hfm].
  rewrite Hfc in Hcex. rewrite Hfm in Hmix.
  split; [apply isCEXWallet_spec; exact Hcex|].
  split; [apply isMixerWallet_spec; exact Hmix|].
  pose proof (groupHoldersByFunder_get fundingSources hs totalSupply c Hc) as Hget.
  destruct (group_loop_aggregates fundingSources hs _ _ Hget) as (Hn & _ & _).
  destruct (group_loop_inv fundingSources hs) as (_ & Hinv & _ & _).
  destruct (Hinv _ _ Hget) as (_ & Hh & _ & _ & a & f & Hf & Hfun & _).
  split; [rewrite <- Hfun; apply (proj2 (Hsrc a f Hf))|].
  rewrite <- Hh, <- Hn. exact Hcount.
Qed.

End Scan.
End FundingScan.


(** An instance: two holders whose scans name F1 form a suspicious
    cluster. *)
Lemma suspicious_clusters_not_exchange_funded_witness :
  let c := hd (sample_cluster "none" 0 0%float false)
              (ClusterAnalysis.identifySuspiciousClusters
                 (ClusterAnalysis.groupHoldersByFunder sample_holders
                    scanned_fundingSources 1000)) in
  (ClusterAnalysis.funder c ∉ ClusterAnalysis.CEX_WALLETS)
  /\ (ClusterAnalysis.funder c ∉ ClusterAnalysis.MIXER_WALLETS)
  /\ ClusterAnalysis.funder c <> ""%string
  /\ (2 <= length (members_funded_by scanned_fundingSources
                     (ClusterAnalysis.funder c) sample_holders))%nat.
Proof.
  intros c.
  apply (suspicious_clusters_not_exchange_funded (H := unit) sample_random
           (fun _ => true) first_signature funding_transaction
           sample_holders scanned_fundingSources 1000 c).
  - intros a f Hf. unfold scanned_fundingSources in Hf.
    exists (mkState tt tt [] 0%nat), (mkState tt tt [] 0%nat).
    repeat (apply lookup_insert_Some in Hf as [[<- <-] | [_ Hf]];
            [vm_compute; reflexivity|]).
    rewrite lookup_empty in Hf. discriminate.
  - subst c. vm_compute. left. reflexivity.
Defined.

(** An instance: the scan of the holder h1 over the sample gateways. *)
Lemma findFundingSource_sources_witness :
  let f := ClusterAnalysis.fundingSource_of "F1" "5first" 1700000000 0%float in
  ClusterAnalysis.fs_isCEX f = ClusterAnalysis.isCEXWallet (ClusterAnalysis.fs_funder f)
  /\ ClusterAnalysis.fs_isMixer f
     = ClusterAnalysis.isMixerWallet (ClusterAnalysis.fs_funder f)
  /\ ClusterAnalysis.fs_funder f <> ""%string.
Proof.
  intros f.
  apply (proj1 (proj2 (findFundingSource_sources (H := unit) sample_random
                         (fun _ => true) first_signature funding_transaction
                         "h1" (mkState tt tt [] 0%nat)))
           f (mkState tt tt [] 0%nat)).
  vm_compute. reflexivity.
Defined.
(** ** Token metadata and its cache *)

Section RetryFrame.
Context {W H T : Type}.

(** The tracker's retry helper touches the object store only through its
    callback. *)
Lemma tracker_retry_loop_keeps_heap (fn : Async W H T) (d : float) :
  (forall s r s', fn s = (r, s') -> heap s' = heap s) ->
  forall (n k : nat) (last : Error) s r s',
    DeveloperTracker.retry_loop fn d n k last s = (r, s') ->
    heap s' = heap s.
Proof.
  intros Hfn n. induction n as [|n IH]; intros k last s r s' Hrun.
  - simpl in Hrun. injection Hrun as _ <-. reflexivity.
  - rewrite tracker_retry_loop_S in Hrun.
    destruct (fn s) as [[v|e1] s1] eqn:Hcall;
      pose proof (Hfn s _ s1 Hcall) as Hframe.
    + injection Hrun as _ <-. exact Hframe.
    + destruct (DeveloperTracker.isRateLimit e1).
      * apply IH in Hrun. simpl in Hrun. congruence.
      * injection Hrun as _ <-. exact Hframe.
Qed.

End RetryFrame.

Section MetadataProperties.
Import DeveloperTracker TrackerMetadata.
Context {W : Type}.
Variable PublicKey_valid : string -> bool.
Variable findProgramAddressSync : PublicKey -> Outcome PublicKey.
Variable getAccountInfo : PublicKey -> W -> Outcome (option (list Byte.byte)) * W.
Variable clean_text : list Byte.byte -> string.
Variable ERR_OUT_OF_RANGE : list Byte.byte -> Z -> Error.

Local Abbreviation parse_metadata := (parse_metadata clean_text ERR_OUT_OF_RANGE).
Local Abbreviation fetch_metadata :=
  (fetch_metadata (W := W) PublicKey_valid findProgramAddressSync getAccountInfo
     clean_text ERR_OUT_OF_RANGE).
Local Abbreviation getTokenMetadata :=
  (getTokenMetadata (W := W) PublicKey_valid findProgramAddressSync getAccountInfo
     clean_text ERR_OUT_OF_RANGE).

Lemma fetch_metadata_keeps_cache (mintAddress : string) (s : State W Cache)
    (r : Outcome TokenMetadata) (s' : State W Cache) :
  fetch_metadata mintAddress s = (r, s') -> heap s' = heap s.
Proof.
  unfold TrackerMetadata.fetch_metadata, await, new_PublicKey.
  destruct (PublicKey_valid mintAddress);
    [|unfold reject; intros [= _ <-]; reflexivity].
  unfold resolve at 1.
  destruct (findProgramAddressSync mintAddress) as [pda|e];
    [|intros [= _ <-]; reflexivity].
  rewrite sleep_slept. unfold gateway. simpl.
  destruct (getAccountInfo pda (world s)) as [[[data|]|e] w1];
    [| |]; try (intros [= _ <-]; reflexivity).
  destruct (parse_metadata data); intros [= _ <-]; reflexivity.
Qed.


Lemma skipn_prefix {A : Type} (l1 l2 : list A) (n : nat) :
  length l1 = n -> skipn n (l1 ++ l2) = l2.
Proof.
  intros <-. rewrite skipn_app, skipn_all, Nat.sub_diag. reflexivity.
Qed.

Lemma firstn_prefix {A : Type} (l1 l2 : list A) (n : nat) :
  length l1 = n -> firstn n (l1 ++ l2) = l1.
Proof.
  intros <-. rewrite firstn_app, firstn_all, Nat.sub_diag. simpl.
  apply app_nil_r.
Qed.

(** The parse follows the account layout: after a header of 65 bytes, a
    length of four little-endian bytes and that many bytes of name, then a
    length and that many bytes of symbol; what follows is not read.  A
    buffer that ends before the first length is complete is a range error
    at offset 65. *)
Theorem parse_metadata_layout :
  forall (header name symbol rest : list Byte.byte)
         (b0 b1 b2 b3 c0 c1 c2 c3 : Byte.byte),
    length header = 65%nat ->
    uint32_of_bytes b0 b1 b2 b3 = Z.of_nat (length name) ->
    uint32_of_bytes c0 c1 c2 c3 = Z.of_nat (length symbol) ->
    parse_metadata (header ++ b0 :: b1 :: b2 :: b3 :: name
                           ++ c0 :: c1 :: c2 :: c3 :: symbol ++ rest)
    = Ok (mkTokenMetadata (Some (clean_text name)) (Some (clean_text symbol)))
    /\ (forall short, (length short < 69)%nat ->
          parse_metadata short = Throw (ERR_OUT_OF_RANGE short 65)).
Proof.
  intros header name symbol rest b0 b1 b2 b3 c0 c1 c2 c3 Hheader Hname Hsymbol.
  split.
  - unfold TrackerMetadata.parse_metadata, readUInt32LE, subarray.
    change (Z.to_nat (1 + 32 + 32)) with 65%nat.
    rewrite (skipn_prefix header _ 65 Hheader). rewrite Hname.
    replace (1 + 32 + 32 + 4 + Z.of_nat (length name) - (1 + 32 + 32 + 4))
      with (Z.of_nat (length name)) by lia.
    replace (Z.to_nat (1 + 32 + 32 + 4 + Z.of_nat (length name)))
      with (69 + length name)%nat by lia.
    change (Z.to_nat (1 + 32 + 32 + 4)) with 69%nat.
    rewrite Nat2Z.id.
    set (tail := c0 :: c1 :: c2 :: c3 :: symbol ++ rest).
    assert (Hdata : header ++ b0 :: b1 :: b2 :: b3 :: name ++ tail
                    = (header ++ [b0; b1; b2; b3]) ++ name ++ tail)
      by (rewrite <- app_assoc; reflexivity).
    rewrite Hdata.
    assert (H69 : length (header ++ [b0; b1; b2; b3]) = 69%nat)
      by (rewrite length_app, Hheader; reflexivity).
    rewrite (skipn_prefix _ _ 69 H69).
    rewrite (firstn_prefix name tail (length name) eq_refl).
    rewrite app_assoc.
    rewrite (skipn_prefix _ tail (69 + length name)%nat)
      by (rewrite length_app, H69; reflexivity).
    subst tail. cbv beta iota zeta. rewrite Hsymbol.
    replace (1 + 32 + 32 + 4 + Z.of_nat (length name) + 4
             + Z.of_nat (length symbol)
             - (1 + 32 + 32 + 4 + Z.of_nat (length name) + 4))
      with (Z.of_nat (length symbol)) by lia.
    replace (Z.to_nat (1 + 32 + 32 + 4 + Z.of_nat (length name) + 4))
      with (length ((header ++ [b0; b1; b2; b3]) ++ name ++ [c0; c1; c2; c3]))
      by (rewrite !length_app, Hheader; simpl; lia).
    rewrite Nat2Z.id.
    replace (((header ++ [b0; b1; b2; b3]) ++ name)
             ++ c0 :: c1 :: c2 :: c3 :: symbol ++ rest)
      with (((header ++ [b0; b1; b2; b3]) ++ name ++ [c0; c1; c2; c3])
            ++ symbol ++ rest)
      by (rewrite <- !app_assoc; reflexivity).
    rewrite (skipn_prefix _ (symbol ++ rest) _ eq_refl).
    rewrite (firstn_prefix symbol rest (length symbol) eq_refl).
    reflexivity.
  - intros short Hshort.
    unfold TrackerMetadata.parse_metadata, readUInt32LE.
    change (Z.to_nat (1 + 32 + 32)) with 65%nat.
    assert (Hlen : (length (skipn 65 short) < 4)%nat)
      by (rewrite length_skipn; lia).
    destruct (skipn 65 short) as [|x0 [|x1 [|x2 [|x3 l]]]]; simpl in Hlen;
      try reflexivity; lia.
Qed.

End MetadataProperties.

(** An instance: a name of two bytes and a symbol of one. *)
Lemma parse_metadata_layout_witness :
  TrackerMetadata.parse_metadata sample_clean_text sample_range_error
    (repeat Byte.x00 65
       ++ Byte.x02 :: Byte.x00 :: Byte.x00 :: Byte.x00 :: [Byte.x41; Byte.x42]
       ++ Byte.x01 :: Byte.x00 :: Byte.x00 :: Byte.x00 :: [Byte.x43]
       ++ [Byte.x00; Byte.x07])
  = Ok (TrackerMetadata.mkTokenMetadata (Some "AB"%string) (Some "C"%string)).
Proof.
  apply (proj1 (parse_metadata_layout sample_clean_text sample_range_error
                  (repeat Byte.x00 65) [Byte.x41; Byte.x42] [Byte.x43]
                  [Byte.x00; Byte.x07]
                  Byte.x02 Byte.x00 Byte.x00 Byte.x00
                  Byte.x01 Byte.x00 Byte.x00 Byte.x00
                  eq_refl eq_refl eq_refl)).
Defined.

(** ** The tokens a scan records *)

Section ScanRecords.
Import DeveloperTracker TrackerScan.

Lemma record_tokens_snoc (settled : list (Outcome (option DeployedToken)))
    (x : Outcome (option DeployedToken)) :
  record_tokens (settled ++ [x]) = record_token (record_tokens settled) x.
Proof. unfold record_tokens. rewrite fold_left_app. reflexivity. Qed.

(** Whatever the order in which the analyses of a scan settle, and
    however often a mint is found: [tokensFound] lists every mint found
    once, holds only tokens that were found, and keeps for each mint the
    first token that settled; [seenMints] is the set of its addresses. *)
Theorem scan_records_each_mint_once :
  forall settled : list (Outcome (option DeployedToken)),
    let seenMints := fst (record_tokens settled) in
    let tokensFound := snd (record_tokens settled) in
    List.NoDup (map address tokensFound)
    /\ (forall a, a ∈ seenMints <-> In a (map address tokensFound))
    /\ (forall token, In (Ok (Some token)) settled ->
                      In (address token) (map address tokensFound))
    /\ (forall token, In token tokensFound -> In (Ok (Some token)) settled)
    /\ (forall before token after,
           settled = before ++ Ok (Some token) :: after ->
           (forall token', In (Ok (Some token')) before ->
                           address token' <> address token) ->
           In token tokensFound).
Proof.
  induction settled as [|x settled IH] using rev_ind.
  - simpl. split; [constructor|].
    split; [intros a; split; [intros Ha; set_solver|intros []]|].
    split; [intros token []|].
    split; [intros token []|].
    intros before token after Heq. destruct before; discriminate.
  - rewrite record_tokens_snoc. cbv zeta in IH.
    destruct (record_tokens settled) as [seenMints tokensFound].
    simpl in IH. destruct IH as (Hnd & Hseen & Hall & Hfrom & Hfirst).
    assert (Hkeep :
      List.NoDup (map address tokensFound)
      /\ (forall a, a ∈ seenMints <-> In a (map address tokensFound))
      /\ (forall token, In token tokensFound -> In (Ok (Some token)) (settled ++ [x]))).
    { split; [exact Hnd|]. split; [exact Hseen|].
      intros token Hin. apply in_or_app. left. apply Hfrom. exact Hin. }
    assert (Hsplit : forall before token after,
              settled ++ [x] = before ++ Ok (Some token) :: after ->
              (after = [] /\ before = settled /\ x = Ok (Some token))
              \/ exists after', after = after' ++ [x]
                                /\ settled = before ++ Ok (Some token) :: after').
    { intros before token after Heq.
      destruct after as [|y after _] using rev_ind.
      - left. apply app_inj_tail in Heq as [-> ->]. auto.
      - right. exists after.
        rewrite app_comm_cons, app_assoc in Heq.
        apply app_inj_tail in Heq as [-> ->]. auto. }
    destruct x as [[token|]|e]; simpl.
    + destruct (bool_decide (address token ∈ seenMints)) eqn:Hdec; simpl.
      * apply bool_decide_eq_true in Hdec.
        destruct Hkeep as (H1 & H2 & H3).
        split; [exact H1|]. split; [exact H2|].
        split.
        { intros token' Hin. apply in_app_or in Hin as [Hin|[[= ->]|[]]].
          - apply Hall. exact Hin.
          - apply Hseen. exact Hdec. }
        split; [exact H3|].
        intros before token' after Heq Hnew.
        destruct (Hsplit _ _ _ Heq) as [(-> & -> & [= ->]) | (after' & -> & Hs)].
        { exfalso. apply Hseen in Hdec. apply in_map_iff in Hdec as (t0 & Ha & Ht0).
          apply (Hnew t0); [apply Hfrom; exact Ht0|exact Ha]. }
        apply (Hfirst before token' after' Hs Hnew).
      * apply bool_decide_eq_false in Hdec.
        rewrite map_app. simpl.
        split.
        { apply List.NoDup_app; [exact Hnd|constructor; [intros []|constructor]|].
          intros a Ha [<-|[]]. apply Hdec, Hseen. exact Ha. }
        split.
        { intros a. rewrite in_app_iff, elem_of_union, elem_of_singleton, Hseen.
          simpl. intuition. }
        split.
        { intros token' Hin. apply in_or_app.
          apply in_app_or in Hin as [Hin|[[= ->]|[]]].
          - left. apply Hall. exact Hin.
          - right. left. reflexivity. }
        split.
        { intros token' Hin. apply in_app_or in Hin as [Hin|[->|[]]].
          - apply in_or_app. left. apply Hfrom. exact Hin.
          - apply in_or_app. right. left. reflexivity. }
        intros before token' after Heq Hnew. apply in_or_app.
        destruct (Hsplit _ _ _ Heq) as [(-> & -> & [= ->]) | (after' & -> & Hs)].
        { right. left. reflexivity. }
        left. apply (Hfirst before token' after' Hs Hnew).
    + destruct Hkeep as (H1 & H2 & H3).
      split; [exact H1|]. split; [exact H2|].
      split.
      { intros token' Hin. apply in_app_or in Hin as [Hin|[Hx|[]]];
          [apply Hall; exact Hin|discriminate]. }
      split; [exact H3|].
      intros before token' after Heq Hnew.
      destruct (Hsplit _ _ _ Heq) as [(-> & -> & Hx) | (after' & -> & Hs)];
        [discriminate|].
      apply (Hfirst before token' after' Hs Hnew).
    + destruct Hkeep as (H1 & H2 & H3).
      split; [exact H1|]. split; [exact H2|].
      split.
      { intros token' Hin. apply in_app_or in Hin as [Hin|[Hx|[]]];
          [apply Hall; exact Hin|discriminate]. }
      split; [exact H3|].
      intros before token' after Heq Hnew.
      destruct (Hsplit _ _ _ Heq) as [(-> & -> & Hx) | (after' & -> & Hs)];
        [discriminate|].
      apply (Hfirst before token' after' Hs Hnew).
Qed.

End ScanRecords.

(** An instance: a mint found twice, a failed analysis and a second mint. *)
Lemma scan_records_each_mint_once_witness :
  In sample_token
     (snd (TrackerScan.record_tokens
             [ Ok (Some sample_token); Throw (mkError None);
               Ok (Some (DeveloperTracker.mark_rugged sample_token)); Ok None;
               Ok (Some sample_token_2) ])).
Proof.
  apply (proj2 (proj2 (proj2 (proj2 (scan_records_each_mint_once
           [ Ok (Some sample_token); Throw (mkError None);
             Ok (Some (DeveloperTracker.mark_rugged sample_token)); Ok None;
             Ok (Some sample_token_2) ]))))
           [] sample_token
           [ Throw (mkError None);
             Ok (Some (DeveloperTracker.mark_rugged sample_token)); Ok None;
             Ok (Some sample_token_2) ] eq_refl).
  intros token' [].
Defined.
(** ** The holder list *)

Section TopHoldersProperties.
Import ClusterAnalysis ClusterHolders.

Lemma holders_from_length (totalSupply : Z) (accounts : list TokenAccountBalance) :
  forall index, length (holders_from totalSupply index accounts) = length accounts.
Proof.
  induction accounts as [|a rest IH]; intros index; simpl; [reflexivity|].
  rewrite IH. reflexivity.
Qed.

Lemma holders_from_rank (totalSupply : Z) (accounts : list TokenAccountBalance) :
  forall index,
    map rank (holders_from totalSupply index accounts)
    = seq (index + 1) (length accounts).
Proof.
  induction accounts as [|a rest IH]; intros index; simpl; [reflexivity|].
  rewrite IH. reflexivity.
Qed.

Lemma holders_from_percentage (totalSupply : Z) (accounts : list TokenAccountBalance) :
  forall index h,
    In h (holders_from totalSupply index accounts) ->
    percentageOfSupply h
    = (Number_of_bigint (balance h) / Number_of_bigint totalSupply * 100)%float.
Proof.
  induction accounts as [|a rest IH]; intros index h; simpl; [intros []|].
  intros [<-|Hin]; [reflexivity|]. apply (IH _ _ Hin).
Qed.

Lemma holders_from_accounts (totalSupply : Z) (accounts : list TokenAccountBalance) :
  forall index,
    map (fun h => (address h, balance h)) (holders_from totalSupply index accounts)
    = map (fun a => (tab_address a, tab_amount a)) accounts.
Proof.
  induction accounts as [|a rest IH]; intros index; simpl; [reflexivity|].
  rewrite IH. reflexivity.
Qed.

Section TopHolders.
Context {W H : Type}.
Variable Math_random : W -> float * W.
Variable PublicKey_valid : string -> bool.
Variable getParsedAccountInfo : PublicKey -> W -> Outcome (option Z) * W.
Variable getTokenLargestAccounts :
  PublicKey -> W -> Outcome (list TokenAccountBalance) * W.

Local Abbreviation getTopHolders :=
  (getTopHolders (H := H) Math_random PublicKey_valid getParsedAccountInfo
     getTokenLargestAccounts).

(** The holders [getTopHolders] returns are the first [topN] accounts of
    the list the gateway returned, in its order, each with the address
    and balance of its account: as many as that list has, at most [topN],
    none when [topN] is 0.  They are ranked 1, 2, ..., and each carries the
    percentage its own balance is of the returned total supply, which is
    the supply that was read, or 0 when none was.  Once the supply has been
    read, [getTopHolders] never rejects with an error whose message
    includes the words Too many accounts: the advice message stands in
    for it. *)
Theorem getTopHolders_holders :
  forall (tokenAddress : string) (topN : nat) (s : State W H),
    (forall holders totalSupply s',
        getTopHolders tokenAddress topN s = (Ok (holders, totalSupply), s') ->
        (exists mintInfo s1 largestAccounts,
            retryWithBackoff_default Math_random
              (gateway (getParsedAccountInfo tokenAddress)) s = (Ok mintInfo, s1)
            /\ totalSupply = default 0 mintInfo
            /\ retryWithBackoff_default Math_random
                 (gateway (getTokenLargestAccounts tokenAddress)) s1
               = (Ok largestAccounts, s')
            /\ map (fun h => (address h, balance h)) holders
               = map (fun a => (tab_address a, tab_amount a))
                     (firstn topN largestAccounts)
            /\ length holders = Nat.min topN (length largestAccounts))
        /\ (length holders <= topN)%nat
        /\ map rank holders = seq 1 (length holders)
        /\ (forall h, In h holders ->
              percentageOfSupply h
              = (Number_of_bigint (balance h) / Number_of_bigint totalSupply * 100)%float)
        /\ (topN = 0%nat -> holders = []))
    /\ (forall e s',
          getTopHolders tokenAddress topN s = (Throw e, s') ->
          PublicKey_valid tokenAddress = true ->
          (exists supply s1,
              retryWithBackoff_default Math_random
                (gateway (getParsedAccountInfo tokenAddress)) s = (Ok supply, s1)) ->
          message_includes e "Too many accounts" = false).
Proof.
  intros tokenAddress topN s. split.
  - intros holders totalSupply s'.
    unfold ClusterHolders.getTopHolders, await, DeveloperTracker.new_PublicKey.
    destruct (PublicKey_valid tokenAddress); [|unfold reject; discriminate].
    unfold resolve at 1.
    destruct (retryWithBackoff_default Math_random
                (gateway (getParsedAccountInfo tokenAddress)) s)
      as [[mintInfo|e] s1] eqn:Hsupply; [|discriminate].
    unfold try_catch, await.
    destruct (retryWithBackoff_default Math_random
                (gateway (getTokenLargestAccounts tokenAddress)) s1)
      as [[largestAccounts|e] s2] eqn:Hlist.
    + unfold resolve. intros [= <- <- <-].
      rewrite holders_from_length.
      split.
      { exists mintInfo, s1, largestAccounts.
        split; [reflexivity|]. split; [reflexivity|]. split; [exact Hlist|].
        split; [apply holders_from_accounts|apply length_firstn]. }
      split; [rewrite length_firstn; lia|].
      split; [apply (holders_from_rank _ _ 0%nat)|].
      split; [intros h Hin; apply (holders_from_percentage _ _ _ _ Hin)|].
      intros ->. reflexivity.
    + destruct (message_includes e "Too many accounts"); unfold reject; discriminate.
  - intros e s' Hrun Hvalid (supply & s1 & Hsupply). revert Hrun.
    unfold ClusterHolders.getTopHolders, await, DeveloperTracker.new_PublicKey.
    rewrite Hvalid. unfold resolve at 1. rewrite Hsupply.
    unfold try_catch, await.
    destruct (retryWithBackoff_default Math_random
                (gateway (getTokenLargestAccounts tokenAddress)) s1)
      as [[largestAccounts|e1] s2]; [unfold resolve; discriminate|].
    destruct (message_includes e1 "Too many accounts") eqn:He1; unfold reject.
    + intros [= <- _]. vm_compute. reflexivity.
    + intros [= <- _]. exact He1.
Qed.

End TopHolders.
End TopHoldersProperties.

(** An instance: the first two of three accounts of a supply of 1000. *)
Lemma getTopHolders_holders_witness :
  map (fun h => (ClusterAnalysis.address h, ClusterAnalysis.balance h))
      sample_top_holders
  = [("holder", 600); ("holder", 300)]%string
  /\ map ClusterAnalysis.rank sample_top_holders = [1; 2]%nat.
Proof.
  destruct (proj1 (getTopHolders_holders (H := unit) sample_random (fun _ => true)
                     sample_supply (sample_largestAccounts [600; 300; 100])
                     "Mint1111111111111111111111111111111111111111" 2%nat
                     (mkState tt tt [] 0%nat))
              sample_top_holders 1000 (mkState tt tt [] 0%nat))
    as ((mintInfo & s1 & largestAccounts & _ & _ & Hreply & Hmembers & _)
        & _ & Hrank & _).
  - vm_compute. reflexivity.
  - split; [|exact Hrank].
    rewrite Hmembers. vm_compute in Hreply. injection Hreply as <- _.
    reflexivity.
Defined.
(** ** The creator lookup *)

Section CreatorProperties.
Import TrackerCreator.
Context {W H : Type}.
Variable fetch : string -> W -> Outcome (Response W) * W.

Local Abbreviation try_endpoint := (try_endpoint (H := H) fetch).
Local Abbreviation endpoints_loop := (endpoints_loop (H := H) fetch).
Local Abbreviation getPumpfunCreatorFromAPI :=
  (getPumpfunCreatorFromAPI (H := H) fetch).

Lemma try_endpoint_result (apiUrl : string) (s : State W H) :
  exists r s', try_endpoint apiUrl s = (Ok r, s')
               /\ forall c, r = Some c -> c <> ""%string.
Proof.
  unfold TrackerCreator.try_endpoint, try_catch, await, gateway.
  destruct (fetch apiUrl (world s)) as [[response|e] w1];
    [|unfold resolve; eexists _, _; split; [reflexivity|discriminate]].
  destruct (ok response);
    [|unfold resolve; eexists _, _; split; [reflexivity|discriminate]].
  cbn [world heap timers calls].
  destruct (json response w1) as [[[data|]|e] w2];
    unfold reject, resolve;
    try (eexists _, _; split; [reflexivity|discriminate]).
  destruct (or (or (or (creator data) (creator_address data)) (deployer data))
              (user data)) as [| |b|x|c|] eqn:Hc;
    try (eexists _, _; split; [reflexivity|discriminate]).
  simpl. destruct (String.eqb c "") eqn:E; simpl;
    eexists _, _; (split; [reflexivity|]); [discriminate|].
  intros c' [= <-]. apply String.eqb_neq. exact E.
Qed.

Lemma endpoints_loop_result (urls : list string) :
  forall s : State W H,
  exists r s', endpoints_loop urls s = (Ok r, s')
               /\ forall c, r = Some c -> c <> ""%string.
Proof.
  induction urls as [|apiUrl rest IH]; intros s; simpl.
  - unfold resolve. eexists _, _. split; [reflexivity|discriminate].
  - unfold await.
    destruct (try_endpoint_result apiUrl s) as (r & s1 & Hrun & Hr).
    rewrite Hrun. destruct r as [c|]; [|apply IH].
    unfold resolve. eexists _, _. split; [reflexivity|exact Hr].
Qed.

(** The creator lookup never rejects, and a creator it returns is a
    non-empty string, so the check the caller makes on it never discards
    one.  An endpoint that answers with a body whose first truthy field
    among creator, creator_address, deployer and user is a string settles
    the lookup, and the second endpoint is not asked; when that first
    truthy field is not a string the endpoint gives nothing, even if a
    later field holds a string. *)
Theorem getPumpfunCreatorFromAPI_creator :
  forall (mintAddress : string) (s : State W H),
    (exists r s',
        getPumpfunCreatorFromAPI mintAddress s = (Ok r, s')
        /\ (forall c, r = Some c -> c <> ""%string)
        /\ DeveloperTracker.truthy r = r)
    /\ (forall response w1 data w2,
          fetch ("https://frontend-api.pump.fun/coins/" ++ mintAddress)%string (world s)
          = (Ok response, w1) ->
          ok response = true ->
          json response w1 = (Ok (Some data), w2) ->
          let first_truthy :=
            or (or (or (creator data) (creator_address data)) (deployer data))
               (user data) in
          (forall c, first_truthy = JString c -> c <> ""%string ->
                     getPumpfunCreatorFromAPI mintAddress s
                     = (Ok (Some c), mkState w2 (heap s) (timers s) (calls s)))
          /\ (truthy first_truthy = true ->
              (forall c, first_truthy <> JString c) ->
              try_endpoint ("https://frontend-api.pump.fun/coins/" ++ mintAddress)%string s
              = (Ok None, mkState w2 (heap s) (timers s) (calls s)))).
Proof.
  intros mintAddress s. split.
  - unfold TrackerCreator.getPumpfunCreatorFromAPI, try_catch.
    destruct (endpoints_loop_result (apiUrls mintAddress) s) as (r & s' & Hrun & Hr).
    rewrite Hrun. exists r, s'. split; [reflexivity|]. split; [exact Hr|].
    destruct r as [c|]; [|reflexivity]. simpl.
    destruct (String.eqb c "") eqn:E; [|reflexivity].
    apply String.eqb_eq in E. contradiction (Hr c eq_refl).
  - intros response w1 data w2 Hfetch Hok Hjson first_truthy.
    assert (Hrun : forall k : JSValue -> Async W H (option string),
              (let* response0 :=
                 gateway (fetch ("https://frontend-api.pump.fun/coins/" ++ mintAddress)%string) in
               if ok response0 then
                 let* data0 := gateway (json response0) in
                 match data0 with
                 | None =>
                     reject (mkError (Some
                       "Cannot read properties of null (reading 'creator')"%string))
                 | Some data0 =>
                     k (or (or (or (creator data0) (creator_address data0))
                              (deployer data0)) (user data0))
                 end
               else resolve None) s
              = k first_truthy (mkState w2 (heap s) (timers s) (calls s))).
    { intros k. unfold await, gateway. rewrite Hfetch, Hok.
      cbn [world heap timers calls]. rewrite Hjson. reflexivity. }
    split.
    + intros c Hc Hne.
      unfold TrackerCreator.getPumpfunCreatorFromAPI, apiUrls.
      unfold TrackerCreator.endpoints_loop at 1.
      unfold try_catch at 1. unfold await at 1.
      unfold TrackerCreator.try_endpoint at 1. unfold try_catch at 1.
      rewrite (Hrun (fun creator =>
                       match creator with
                       | JString s0 =>
                           if truthy creator then resolve (Some s0) else resolve None
                       | _ => resolve None
                       end)).
      rewrite Hc. simpl. apply String.eqb_neq in Hne. rewrite Hne. reflexivity.
    + intros Htruthy Hnot.
      unfold TrackerCreator.try_endpoint. unfold try_catch at 1.
      rewrite (Hrun (fun creator =>
                       match creator with
                       | JString s0 =>
                           if truthy creator then resolve (Some s0) else resolve None
                       | _ => resolve None
                       end)).
      destruct first_truthy as [| |b|x|c|]; try reflexivity.
      contradiction (Hnot c eq_refl).
Qed.

End CreatorProperties.

(** An instance: the first field is missing, the second is empty, the
    third names the creator. *)
Lemma getPumpfunCreatorFromAPI_creator_witness :
  TrackerCreator.getPumpfunCreatorFromAPI (H := unit) sample_fetch
    "Mint1111111111111111111111111111111111111111" (mkState tt tt [] 0%nat)
  = (Ok (Some "Creator1"%string), mkState tt tt [] 0%nat).
Proof.
  apply (proj1 (proj2 (getPumpfunCreatorFromAPI_creator (H := unit) sample_fetch
                         "Mint1111111111111111111111111111111111111111"
                         (mkState tt tt [] 0%nat))
                  (TrackerCreator.mkResponse true
                     (fun w' => (Ok (Some sample_coin), w')))
                  tt sample_coin tt eq_refl eq_refl eq_refl)
           "Creator1"%string eq_refl).
  discriminate.
Defined.
